(** * daily-code-game: the backend of [src/backend/server.js]

    A shallow embedding of the deterministic puzzle generator
    ([hashCode], [seededRandom], [generateDailyCode]) and of the stateful
    submission path ([POST /api/game/submit], [updateLeaderboards]) over an
    explicit model of the three MongoDB collections, followed by the routes
    that read them: today's and yesterday's puzzle and the leaderboards.

    Outside the embedding: the stats of a player ([Math.round] and
    [toFixed] of a floating-point quotient, which no exact number models),
    and registration and login ([bcrypt], [jwt]).

    Conventions of the embedding:
    - a JavaScript number that the code only ever uses as an integer is a [Z];
      the two places where the code divides ([state / 4294967296],
      [time / 10], [totalGuesses / completedPlayers]) produce a [Q];
    - a 32-bit operator ([<<], [&]) is written with its wrap-around;
    - a variable captured by a closure lives in a heap cell;
    - a collection with a unique key is a [gmap] from that key;
    - the host of the server (its time zone, and what its engine reads as
      a date besides [YYYY-MM-DD]) is a parameter, [Calendar.Host]: the
      handlers and what is proved of them are for any host, unless a
      statement names its assumption on the host. *)

From Stdlib Require Import ZArith QArith Qround Lia Lqa List String Ascii Sorting.Sorted Permutation.
From stdpp Require Import gmap strings list fin_maps.

Local Open Scope Z_scope.

(** ** JavaScript integer operators *)

Module JS.

(** ToInt32 of ECMAScript: reduce modulo 2^32 into [-2^31, 2^31). *)
Definition toInt32 (z : Z) : Z :=
  let m := z mod 4294967296 in
  if m <? 2147483648 then m else m - 4294967296.

(** [a << n] on numbers: ToInt32 of the left operand, shift, ToInt32. *)
Definition shl (a n : Z) : Z := toInt32 (Z.shiftl (toInt32 a) (n mod 32)).

(** [a & b] on numbers. *)
Definition band (a b : Z) : Z := toInt32 (Z.land (toInt32 a) (toInt32 b)).

(** [a % b] on integers: the remainder takes the sign of the dividend. *)
Definition rem (a b : Z) : Z := Z.rem a b.

(** [str.charCodeAt(i)] of one character. *)
Definition charCode (c : ascii) : Z := Z.of_N (N_of_ascii c).

(** The largest magnitude below which every integer is a double. *)
Definition MAX_SAFE : Z := 9007199254740992.

End JS.

(** ** The deterministic sequence generator (server.js, lines 75-110) *)

(** [hashCode]: the loop over the characters, with [hash] as accumulator. *)
Fixpoint hashLoop (str : string) (hash : Z) : Z :=
  match str with
  | EmptyString => hash
  | String c rest =>
      let char := JS.charCode c in
      let hash1 := (JS.shl hash 5 - hash) + char in
      let hash2 := JS.band hash1 hash1 in
      hashLoop rest hash2
  end.

Definition hashCode (str : string) : Z := Z.abs (hashLoop str 0).

(** Each call of [seededRandom] creates one variable [state], which only the
    closure it returns can reach.  The heap holds these variables, a closure
    is the index of its own. *)
Abbreviation Heap := (list Z).
Abbreviation Rng := nat.

Definition seededRandom (seed : Z) (h : Heap) : Rng * Heap :=
  (length h, h ++ [seed]).

(** The assignment to [state] inside the closure. *)
Definition lcg (state : Z) : Z :=
  JS.rem (state * 1664525 + 1013904223) 4294967296.

(** One call [rng()] of the closure: update its variable, return the quotient. *)
Definition rng (r : Rng) (h : Heap) : Q * Heap :=
  let state := lcg (nth r h 0) in
  (inject_Z state / inject_Z 4294967296, <[r := state]> h)%Q.

(** An element read from an array: a number, or [undefined] out of range. *)
Inductive value : Type :=
  | Num (n : Z)
  | Undefined.

Definition numbers : list Z := [1; 2; 3; 4; 5; 6].

(** [code.includes(n)] for a number [n]. *)
Definition includes (code : list value) (n : Z) : bool :=
  existsb (fun v => match v with Num m => m =? n | Undefined => false end) code.

(** [arr[i]] for an integer [i]. *)
Definition at_index (arr : list Z) (i : Z) : value :=
  if i <? 0 then Undefined
  else match nth_error arr (Z.to_nat i) with
       | Some n => Num n
       | None => Undefined
       end.

Definition availableNumbers (allowDuplicates : bool) (code : list value) : list Z :=
  if allowDuplicates then numbers
  else List.filter (fun n => negb (includes code n)) numbers.

(** [Math.floor(rng() * availableNumbers.length)] for the value [x] of [rng()]. *)
Definition randomIndex (x : Q) (available : list Z) : Z :=
  Qfloor (x * inject_Z (Z.of_nat (length available))).

(** The body of the [for] loop. *)
Definition draw (allowDuplicates : bool) (r : Rng) (st : list value * Heap)
  : list value * Heap :=
  let '(code, h) := st in
  let available := availableNumbers allowDuplicates code in
  let '(x, h') := rng r h in
  (code ++ [at_index available (randomIndex x available)], h').

Definition generateDailyCode (dateString : string) (allowDuplicates : bool) (h : Heap)
  : list value * Heap :=
  let seed := hashCode dateString in
  let '(r, h0) := seededRandom seed h in
  Nat.iter 4 (draw allowDuplicates r) ([], h0).

(** ** Calendar dates as the handler computes them (server.js, lines 193-195)

    [new Date(date)], [setDate(getDate() - 1)] and
    [toISOString().split('T')[0]], after the abstract operations of
    ECMAScript.  [new Date(date)] reads the date-only form [YYYY-MM-DD] as
    midnight UTC and [toISOString] writes UTC, while [getDate] and [setDate]
    work on the local time of the host.  The time zone of the host, and
    what its engine makes of a string of any other form, are parameters of
    the embedding ([Host]).  Months count from 1.  A time value is an
    integer number of milliseconds; the bound of TimeClip, 8.64e15 ms (the
    years beyond 275760), is left out. *)

Module Calendar.

Definition msPerDay : Z := 86400000.

(** Day(t) and TimeWithinDay(t) of ECMAScript. *)
Definition Day (t : Z) : Z := t / msPerDay.
Definition TimeWithinDay (t : Z) : Z := t mod msPerDay.
Definition MakeDate (day time : Z) : Z := day * msPerDay + time.

(** MakeDay(year, month, date): the day number of the first of the month,
    plus [date - 1]; a [date] outside the month rolls over. *)
Definition MakeDay (year month date : Z) : Z :=
  let y := if month <=? 2 then year - 1 else year in
  let era := y / 400 in
  let yoe := y mod 400 in
  let mp := if 2 <? month then month - 3 else month + 9 in
  let doy := (153 * mp + 2) / 5 + date - 1 in
  let doe := yoe * 365 + yoe / 4 - yoe / 100 + doy in
  era * 146097 + doe - 719468.

(** YearFromTime, MonthFromTime and DateFromTime of a day number. *)
Definition civil (day : Z) : Z * Z * Z :=
  let z := day + 719468 in
  let era := z / 146097 in
  let doe := z mod 146097 in
  let yoe := (doe - doe / 1460 + doe / 36524 - doe / 146096) / 365 in
  let doy := doe - (365 * yoe + yoe / 4 - yoe / 100) in
  let mp := (5 * doy + 2) / 153 in
  let d := doy - (153 * mp + 2) / 5 + 1 in
  let m := if mp <? 10 then mp + 3 else mp - 9 in
  let y := yoe + era * 400 in
  (if m <=? 2 then y + 1 else y, m, d).

Definition digit (c : ascii) : option Z :=
  let n := JS.charCode c in
  if (48 <=? n) && (n <=? 57) then Some (n - 48) else None.

Definition digits2 (a b : ascii) : option Z :=
  match digit a, digit b with
  | Some x, Some y => Some (10 * x + y)
  | _, _ => None
  end.

Definition digits4 (a b c d : ascii) : option Z :=
  match digits2 a b, digits2 c d with
  | Some x, Some y => Some (100 * x + y)
  | _, _ => None
  end.

(** The fields of a string [YYYY-MM-DD]; the month is within 1..12 and the
    day within 1..31, as the engine's parser checks them. *)
Definition fields (s : string) : option (Z * Z * Z) :=
  match s with
  | String y1 (String y2 (String y3 (String y4 (String sep1
    (String m1 (String m2 (String sep2
    (String d1 (String d2 EmptyString))))))))) =>
      match digits4 y1 y2 y3 y4, digits2 m1 m2, digits2 d1 d2 with
      | Some y, Some m, Some d =>
          if Ascii.eqb sep1 "-" && Ascii.eqb sep2 "-"
             && (1 <=? m) && (m <=? 12) && (1 <=? d) && (d <=? 31)
          then Some (y, m, d) else None
      | _, _, _ => None
      end
  | _ => None
  end.

(** The host of the server.  [LocalTZA t isUTC] is the offset of its local
    time from UTC in milliseconds, at the time value [t] when [isUTC] and at
    the local time [t] otherwise.  [fallback s] is what the engine makes of a
    string [s] that is not of the form [YYYY-MM-DD] (the other forms of the
    ISO format and the formats of its own): a time value, or [None] for an
    Invalid Date. *)
Record Host : Type := mkHost {
  LocalTZA : Z -> bool -> Z;
  fallback : string -> option Z
}.

(** LocalTime(t) and UTC(t) of ECMAScript. *)
Definition LocalTime (host : Host) (t : Z) : Z := t + LocalTZA host t true.
Definition UTC (host : Host) (t : Z) : Z := t - LocalTZA host t false.

(** [new Date(s)]: the time value, [None] for an Invalid Date. *)
Definition parse (host : Host) (s : string) : option Z :=
  match fields s with
  | Some (y, m, d) => Some (MakeDate (MakeDay y m d) 0)
  | None => fallback host s
  end.

Definition digitChar (n : Z) : ascii := ascii_of_N (Z.to_N (48 + n mod 10)).

Definition pad2 (n : Z) : string :=
  String (digitChar (n / 10)) (String (digitChar n) EmptyString).

Definition pad4 (n : Z) : string := String.append (pad2 (n / 100)) (pad2 n).

Definition pad6 (n : Z) : string := String.append (pad2 (n / 10000)) (pad4 n).

(** The year of [toISOString]: four digits within 0..9999, else a sign and
    six digits. *)
Definition isoYear (y : Z) : string :=
  if (0 <=? y) && (y <=? 9999) then pad4 y
  else String.append (if y <? 0 then "-"%string else "+"%string) (pad6 (Z.abs y)).

Definition iso (ymd : Z * Z * Z) : string :=
  let '(y, m, d) := ymd in
  (isoYear y ++ "-" ++ pad2 m ++ "-" ++ pad2 d)%string.

(** [t.toISOString().split('T')[0]]. *)
Definition isoDate (t : Z) : string := iso (civil (Day t)).

(** [t.setDate(dt)]: the day of the month of the local time is replaced,
    and the local time that results is taken back to UTC. *)
Definition setDate (host : Host) (t dt : Z) : Z :=
  let t := LocalTime host t in
  let '(y, m, _) := civil (Day t) in
  UTC host (MakeDate (MakeDay y m dt) (TimeWithinDay t)).

(** [t.getDate()]: the day of the month of the local time. *)
Definition getDate (host : Host) (t : Z) : Z :=
  let '(_, _, d) := civil (Day (LocalTime host t)) in d.

(** Lines 193-195: [None] when [toISOString] throws its RangeError. *)
Definition yesterdayString (host : Host) (date : string) : option string :=
  match parse host date with
  | Some yesterday =>
      let yesterday := setDate host yesterday (getDate host yesterday - 1) in
      Some (isoDate yesterday)
  | None => None
  end.

(** A host whose local time is at the same offset from UTC at all times. *)
Definition fixedOffset (host : Host) (offset : Z) : Prop :=
  forall t isUTC, LocalTZA host t isUTC = offset.

(** A host on UTC, with an engine that reads the form [YYYY-MM-DD] only. *)
Definition utc : Host := mkHost (fun _ _ => 0) (fun _ => None).

(** A host on the time of Berlin in the autumn of 2024: two hours ahead of
    UTC until summer time ends, on 27 October at 01:00 UTC, and one hour
    ahead from then on.  The local hour from 02:00 to 03:00 of that day
    occurs twice, and is read as the first of the two, as LocalTZA asks. *)
Definition Berlin : Host :=
  mkHost (fun t isUTC =>
            if isUTC
            then (if t <? 1729990800000 then 7200000 else 3600000)
            else (if t <? 1729998000000 then 7200000 else 3600000))
         (fun _ => None).

(** The Gregorian calendar in words, to compare the above with. *)
Definition isLeap (y : Z) : bool :=
  (y mod 4 =? 0) && (negb (y mod 100 =? 0) || (y mod 400 =? 0)).

Definition daysInMonth (y m : Z) : Z :=
  if m =? 2 then (if isLeap y then 29 else 28)
  else if (m =? 4) || (m =? 6) || (m =? 9) || (m =? 11) then 30
  else 31.

Definition validDate (ymd : Z * Z * Z) : Prop :=
  let '(y, m, d) := ymd in
  0 <= y <= 9999 /\ 1 <= m <= 12 /\ 1 <= d <= daysInMonth y m.

(** The calendar day immediately preceding a date. *)
Definition precedingDay (ymd : Z * Z * Z) : Z * Z * Z :=
  let '(y, m, d) := ymd in
  if 1 <? d then (y, m, d - 1)
  else if 1 <? m then (y, m - 1, daysInMonth y (m - 1))
  else (y - 1, 12, 31).

End Calendar.

(** ** The collections (server.js, lines 22-72) *)

Module DailyPuzzle.

Record t : Type := mk {
  date : string;
  solution : list value;
  totalPlayers : Z;
  completedPlayers : Z;
  fastestTime : option Z;
  fastestPlayer : option string;
  averageGuesses : Q;
  totalGuesses : Z
}.

(** [new DailyPuzzle({ date, solution })] with the defaults of the schema. *)
Definition new (date : string) (solution : list value) : t :=
  mk date solution 0 0 None None 0%Q 0.

End DailyPuzzle.

Module Player.

Record Stats : Type := mkStats {
  gamesPlayed : Z;
  gamesWon : Z;
  currentStreak : Z;
  maxStreak : Z;
  totalGuesses : Z;
  lastPlayDate : option string;
  fastestTime : option Z
}.

Record Game : Type := mkGame {
  date : string;
  won : bool;
  guesses : Z;
  time : Z;
  attempts : list (list Z)
}.

(** [createdAt], a wall-clock stamp that nothing reads, is left out. *)
Record t : Type := mk {
  playerId : string;
  email : option string;
  username : option string;
  passwordHash : option string;
  stats : Stats;
  games : list Game
}.

(** [new Player({ playerId })] with the defaults of the schema. *)
Definition new (playerId : string) : t :=
  mk playerId None None None (mkStats 0 0 0 0 0 None None) [].

End Player.

Module Leaderboard.

Record Entry : Type := mkEntry {
  playerId : string;
  username : string;
  score : Q;
  time : Z;
  guesses : Z
}.

Record t : Type := mk {
  date : string;
  type : string;
  entries : list Entry
}.

End Leaderboard.

(** The database.  [DailyPuzzle] is keyed by its unique [date], [Player] by
    its unique [playerId]; a [Leaderboard] is only ever looked up and created
    by [(date, type)].  The key is the slot of the document: [findOne] reads
    the slot of the key it queries, [save] writes a document back to the slot
    it was found in, and a new document to the slot of its key.

    Of the checks of the schemas, the one that a request can fail is written
    out: the required [playerId] of a player, in [Player_save].  The required
    [date] of a puzzle and of a board is not: a route saves a puzzle under
    the date part of the clock and a board under the date of a puzzle that
    is stored, neither of which is empty in a database that the routes
    made. *)
Record DB : Type := mkDB {
  puzzles : gmap string DailyPuzzle.t;
  players : gmap string Player.t;
  leaderboards : gmap (string * string) Leaderboard.t
}.

Definition emptyDB : DB := mkDB ∅ ∅ ∅.

(** ** Handlers: database state and exceptions *)

Inductive outcome (A : Type) : Type :=
  | Done (a : A)
  | Thrown (message : string).
Arguments Done {A} a.
Arguments Thrown {A} message.

Definition M (A : Type) : Type := DB -> outcome A * DB.

Definition ret {A} (a : A) : M A := fun db => (Done a, db).

Definition throw {A} (message : string) : M A := fun db => (Thrown message, db).

Definition bind {A B} (m : M A) (k : A -> M B) : M B :=
  fun db =>
    match m db with
    | (Done a, db') => k a db'
    | (Thrown e, db') => (Thrown e, db')
    end.

(** [try { m } catch (error) { handler }]: what [m] wrote before it threw stays. *)
Definition try_catch {A} (m : M A) (handler : string -> M A) : M A :=
  fun db =>
    match m db with
    | (Done a, db') => (Done a, db')
    | (Thrown e, db') => handler e db'
    end.

Declare Scope handler_scope.
Delimit Scope handler_scope with handler.
Notation "'await' x := m 'in' k" := (bind m (fun x => k))
  (at level 10, x name, m at level 100, k at level 200) : handler_scope.
Notation "'exec' m 'in' k" := (bind m (fun _ => k))
  (at level 10, m at level 100, k at level 200) : handler_scope.

Definition Player_findOne (playerId : string) : M (option Player.t) :=
  fun db => (Done (players db !! playerId), db).

(** [player.save()].  The schema requires [playerId] (line 34): a document
    whose [playerId] is the empty string does not pass validation, and the
    save throws before anything is written. *)
Definition Player_save (playerId : string) (player : Player.t) : M unit :=
  fun db =>
    if String.eqb (Player.playerId player) ""
    then (Thrown "Player validation failed: playerId: Path `playerId` is required.", db)
    else (Done tt,
          mkDB (puzzles db) (<[playerId := player]> (players db)) (leaderboards db)).

Definition DailyPuzzle_findOne (date : string) : M (option DailyPuzzle.t) :=
  fun db => (Done (puzzles db !! date), db).

Definition DailyPuzzle_save (date : string) (puzzle : DailyPuzzle.t) : M unit :=
  fun db => (Done tt,
             mkDB (<[date := puzzle]> (puzzles db)) (players db) (leaderboards db)).

Definition Leaderboard_findOne (date type : string) : M (option Leaderboard.t) :=
  fun db => (Done (leaderboards db !! (date, type)), db).

Definition Leaderboard_save (date type : string) (board : Leaderboard.t) : M unit :=
  fun db => (Done tt,
             mkDB (puzzles db) (players db) (<[(date, type) := board]> (leaderboards db))).

(** ** Responses *)

Record TodayStats : Type := mkTodayStats {
  ts_totalPlayers : Z;
  ts_completedPlayers : Z;
  ts_fastestTime : option Z;
  ts_averageGuesses : Q
}.

Inductive Body : Type :=
  | ErrorBody (error : string)
  | PuzzleBody (date : string) (today : TodayStats)
  | SubmitBody (success : bool) (stats : Player.Stats) (todayStats : TodayStats).

Record Response : Type := mkResponse {
  status : Z;
  body : Body
}.

Definition NotFound : Z := 404.

(** ** Get or create the daily puzzle (server.js, lines 115-141)

    [today] is the date part of the clock.  The closure of the generator does
    not outlive the call, so the call runs on a heap of its own. *)
Definition puzzleToday (today : string) (duplicates : option string) : M Response :=
  try_catch
    (await found := DailyPuzzle_findOne today in
     await puzzle := match found with
                     | Some puzzle => ret puzzle
                     | None =>
                         let solution :=
                           fst (generateDailyCode today
                                  (bool_decide (duplicates = Some "true"%string)) []) in
                         let puzzle := DailyPuzzle.new today solution in
                         exec DailyPuzzle_save today puzzle in
                         ret puzzle
                     end in
     ret (mkResponse 200
            (PuzzleBody (DailyPuzzle.date puzzle)
               (mkTodayStats (DailyPuzzle.totalPlayers puzzle)
                  (DailyPuzzle.completedPlayers puzzle)
                  (DailyPuzzle.fastestTime puzzle)
                  (DailyPuzzle.averageGuesses puzzle)))))%handler
    (fun error => ret (mkResponse 500 (ErrorBody error))).

(** ** Update leaderboards (server.js, lines 321-344) *)

(** [Array.prototype.sort(compare)]: the sort is stable, so for a comparator
    that orders the elements it is the insertion of each element before the
    first one it does not have to follow. *)
Fixpoint Array_insert {A} (compare : A -> A -> Q) (x : A) (l : list A) : list A :=
  match l with
  | [] => [x]
  | y :: l' =>
      if Qle_bool (compare x y) 0 then x :: y :: l'
      else y :: Array_insert compare x l'
  end.

Definition Array_sort {A} (compare : A -> A -> Q) (l : list A) : list A :=
  foldr (Array_insert compare) [] l.

(** [(a, b) => b.score - a.score] *)
Definition byScore (a b : Leaderboard.Entry) : Q :=
  (Leaderboard.score b - Leaderboard.score a)%Q.

(** [x || y] on strings: [undefined] and the empty string are falsy. *)
Definition or_string (x : option string) (y : string) : string :=
  match x with
  | Some s => if String.eqb s "" then y else s
  | None => y
  end.

(** [!x || time < x] on numbers: [undefined], [null] and 0 are falsy. *)
Definition improves (time : Z) (x : option Z) : bool :=
  match x with
  | Some f => (f =? 0) || (time <? f)
  | None => true
  end.

(** [1000 - (guesses * 100) - (time / 10)] *)
Definition scoreOf (guesses time : Z) : Q :=
  (1000 - inject_Z (guesses * 100) - inject_Z time / 10)%Q.

Definition updateLeaderboards (date : string) (player : Player.t) (won : bool)
    (guesses time : Z) : M unit :=
  if negb won then ret tt
  else
    (await found := Leaderboard_findOne date "daily" in
     let dailyBoard :=
       match found with
       | Some board => board
       | None => Leaderboard.mk date "daily" []
       end in
     let score := scoreOf guesses time in
     let entries :=
       Leaderboard.entries dailyBoard ++
       [Leaderboard.mkEntry (Player.playerId player)
          (or_string (Player.username player) "Anonymous") score time guesses] in
     let entries := Array_sort byScore entries in
     let entries := take 100 entries in
     Leaderboard_save date "daily"
       (Leaderboard.mk (Leaderboard.date dailyBoard) (Leaderboard.type dailyBoard)
          entries))%handler.

(** ** Submit game result (server.js, lines 170-258) *)

Module Request.

(** [req.body], as the client of the game fills it: the number of guesses
    and the time in milliseconds are integers. *)
Record t : Type := mk {
  playerId : string;
  date : string;
  won : bool;
  guesses : Z;
  time : Z;
  attempts : list (list Z)
}.

End Request.

Section Server.

(** The host that the server runs on. *)
Variable host : Calendar.Host.

(** Lines 186-212, on the [stats] of the player.  [toISOString] throws on an
    Invalid Date. *)
Definition updateStats (stats : Player.Stats) (date : string) (won : bool)
    (guesses time : Z) : outcome Player.Stats :=
  let gamesPlayed := Player.gamesPlayed stats + 1 in
  if won then
    let gamesWon := Player.gamesWon stats + 1 in
    let totalGuesses := Player.totalGuesses stats + guesses in
    match Calendar.yesterdayString host date with
    | None => Thrown "Invalid time value"
    | Some yesterdayString =>
        let currentStreak :=
          if bool_decide (Player.lastPlayDate stats = Some yesterdayString)
          then Player.currentStreak stats + 1
          else 1 in
        let maxStreak := Z.max (Player.maxStreak stats) currentStreak in
        let fastestTime :=
          if improves time (Player.fastestTime stats) then Some time
          else Player.fastestTime stats in
        Done (Player.mkStats gamesPlayed gamesWon currentStreak maxStreak totalGuesses
                (Some date) fastestTime)
    end
  else
    Done (Player.mkStats gamesPlayed (Player.gamesWon stats) 0 (Player.maxStreak stats)
            (Player.totalGuesses stats) (Some date) (Player.fastestTime stats)).

(** Lines 228-238, on the puzzle that was found. *)
Definition updatePuzzle (puzzle : DailyPuzzle.t) (player : Player.t) (playerId : string)
    (won : bool) (guesses time : Z) : DailyPuzzle.t :=
  let totalPlayers := DailyPuzzle.totalPlayers puzzle + 1 in
  if won then
    let completedPlayers := DailyPuzzle.completedPlayers puzzle + 1 in
    let totalGuesses := DailyPuzzle.totalGuesses puzzle + guesses in
    let averageGuesses := (inject_Z totalGuesses / inject_Z completedPlayers)%Q in
    let faster := improves time (DailyPuzzle.fastestTime puzzle) in
    DailyPuzzle.mk (DailyPuzzle.date puzzle) (DailyPuzzle.solution puzzle)
      totalPlayers completedPlayers
      (if faster then Some time else DailyPuzzle.fastestTime puzzle)
      (if faster then Some (or_string (Player.username player) playerId)
       else DailyPuzzle.fastestPlayer puzzle)
      averageGuesses totalGuesses
  else
    DailyPuzzle.mk (DailyPuzzle.date puzzle) (DailyPuzzle.solution puzzle)
      totalPlayers (DailyPuzzle.completedPlayers puzzle)
      (DailyPuzzle.fastestTime puzzle) (DailyPuzzle.fastestPlayer puzzle)
      (DailyPuzzle.averageGuesses puzzle) (DailyPuzzle.totalGuesses puzzle).

Definition lift {A} (o : outcome A) : M A := fun db => (o, db).

Definition submit (req : Request.t) : M Response :=
  let playerId := Request.playerId req in
  let date := Request.date req in
  let won := Request.won req in
  let guesses := Request.guesses req in
  let time := Request.time req in
  let attempts := Request.attempts req in
  try_catch
    (await found := Player_findOne playerId in
     let player :=
       match found with
       | Some player => player
       | None => Player.new playerId
       end in
     let existingGame :=
       List.find (fun g => String.eqb (Player.date g) date) (Player.games player) in
     match existingGame with
     | Some _ => ret (mkResponse 400 (ErrorBody "Already played today"))
     | None =>
         await stats := lift (updateStats (Player.stats player) date won guesses time) in
         let player :=
           Player.mk (Player.playerId player) (Player.email player)
             (Player.username player) (Player.passwordHash player) stats
             (Player.games player ++ [Player.mkGame date won guesses time attempts]) in
         exec Player_save playerId player in
         await puzzle := DailyPuzzle_findOne date in
         match puzzle with
         | Some puzzle =>
             let puzzle := updatePuzzle puzzle player playerId won guesses time in
             exec DailyPuzzle_save date puzzle in
             exec updateLeaderboards date player won guesses time in
             ret (mkResponse 200
                    (SubmitBody true (Player.stats player)
                       (mkTodayStats (DailyPuzzle.totalPlayers puzzle)
                          (DailyPuzzle.completedPlayers puzzle)
                          (DailyPuzzle.fastestTime puzzle)
                          (DailyPuzzle.averageGuesses puzzle))))
         | None =>
             (* [puzzle.totalPlayers] in the response, [puzzle] being null *)
             throw "Cannot read properties of null (reading 'totalPlayers')"
         end
     end)%handler
    (fun error => ret (mkResponse 500 (ErrorBody error))).

(** A handler against a database: the response sent and the database left. *)
Definition run (handler : M Response) (db : DB) : Response * DB :=
  match handler db with
  | (Done response, db') => (response, db')
  | (Thrown e, db') => (mkResponse 500 (ErrorBody e), db')
  end.

(** The requests that change the database, and a server handling them in turn. *)
Inductive request : Type :=
  | GetToday (today : string) (duplicates : option string)
  | PostSubmit (req : Request.t).

Definition handle (r : request) : M Response :=
  match r with
  | GetToday today duplicates => puzzleToday today duplicates
  | PostSubmit req => submit req
  end.

Definition serve (db : DB) (rs : list request) : DB :=
  fold_left (fun db r => snd (run (handle r) db)) rs db.

(** ** The generator in the words of its specification *)

(** [hash = hash * 31 + charCode], wrapped to 32 signed bits at every step. *)
Fixpoint hash31Loop (str : string) (hash : Z) : Z :=
  match str with
  | EmptyString => hash
  | String c rest => hash31Loop rest (JS.toInt32 (hash * 31 + JS.charCode c))
  end.

Definition hash31 (str : string) : Z := hash31Loop str 0.

(** [state = (state * 1664525 + 1013904223) mod 2^32] *)
Definition lcgSpec (state : Z) : Z := (state * 1664525 + 1013904223) mod 2 ^ 32.

(** The values of [k] calls of one closure in a row, and the heap they leave. *)
Fixpoint calls (k : nat) (r : Rng) (h : Heap) : list Q * Heap :=
  match k with
  | O => ([], h)
  | S k' =>
      let '(x, h1) := rng r h in
      let '(xs, h2) := calls k' r h1 in
      (x :: xs, h2)
  end.

(** The numbers that [hashCode] computes with before it wraps them: for
    each character, [(hash << 5) - hash + char]. *)
Fixpoint hashOperands (str : string) (hash : Z) : list Z :=
  match str with
  | EmptyString => []
  | String c rest =>
      let hash1 := (JS.shl hash 5 - hash) + JS.charCode c in
      hash1 :: hashOperands rest (JS.band hash1 hash1)
  end.

(** The body of the loop of [generateDailyCode] on the variable [state]
    itself, in place of the cell that holds it. *)
Definition drawFrom (allowDuplicates : bool) (st : list value * Z) : list value * Z :=
  let '(code, state) := st in
  let available := availableNumbers allowDuplicates code in
  let state' := lcg state in
  let x := (inject_Z state' / inject_Z 4294967296)%Q in
  (code ++ [at_index available (randomIndex x available)], state').

(** What the loop maintains after [n] draws. *)
Definition drawn (allowDuplicates : bool) (n : nat) (st : list value * Z) : Prop :=
  exists ns : list Z,
    fst st = map Num ns /\ length ns = n /\
    Forall (fun x => 1 <= x <= 6) ns /\
    (allowDuplicates = false -> List.NoDup ns) /\
    0 <= snd st < 4294967296.

(** ** The calendar within one era of 400 years

    [MakeDay] and [civil] split a day number into an era of 146097 days, a
    year of the era (from March to February) and a day of that year. *)

Definition yearStart (yoe : Z) : Z := yoe * 365 + yoe / 4 - yoe / 100.

Definition yearLength (yoe : Z) : Z := if Calendar.isLeap (yoe + 1) then 366 else 365.

Definition doyOf (m d : Z) : Z :=
  let mp := if 2 <? m then m - 3 else m + 9 in
  (153 * mp + 2) / 5 + d - 1.

Definition gOf (doe : Z) : Z := doe - doe / 1460 + doe / 36524 - doe / 146096.

Definition yoeOf (doe : Z) : Z := gOf doe / 365.

Definition monthDay (doy : Z) : Z * Z :=
  let mp := (5 * doy + 2) / 153 in
  let d := doy - (153 * mp + 2) / 5 + 1 in
  (if mp <? 10 then mp + 3 else mp - 9, d).

Fixpoint zrange (lo : Z) (n : nat) : list Z :=
  match n with
  | O => []
  | S n' => lo :: zrange (lo + 1) n'
  end.

(** The first and the last day of a year of the era lie in the era, and
    [yoeOf] gives both the year. *)
Definition year_ok (yoe : Z) : bool :=
  let first := yearStart yoe in
  let last := first + yearLength yoe - 1 in
  (0 <=? first) && (last <=? 146096) && (yoeOf first =? yoe) && (yoeOf last =? yoe).

(** A day of a month is a day of the year, the last one only for the 29th
    of February, and [monthDay] finds it back. *)
Definition date_ok (m d : Z) : bool :=
  negb (d <=? Calendar.daysInMonth 0 m)
  || let doy := doyOf m d in
     (0 <=? doy) && (((m =? 2) && (d =? 29)) || (doy <=? 364)) && (doy <=? 365)
     && match monthDay doy with
        | (m', d') => (m' =? m) && (d' =? d)
        end.

Definition month_ok (m : Z) : bool := forallb (date_ok m) (zrange 1 (Z.to_nat 31)).

(** ** Vocabulary of the statements about the submission path *)

(** The player a submission works on: the one found, or a new one. *)
Definition playerOf (db : DB) (playerId : string) : Player.t :=
  match players db !! playerId with
  | Some player => player
  | None => Player.new playerId
  end.

(** [player.games.find(g => g.date === date)] *)
Definition existingGame (player : Player.t) (date : string) : option Player.Game :=
  List.find (fun g => String.eqb (Player.date g) date) (Player.games player).

(** The player as [player.save()] writes it when the submission passes. *)
Definition played (player : Player.t) (stats : Player.Stats) (req : Request.t) : Player.t :=
  Player.mk (Player.playerId player) (Player.email player) (Player.username player)
    (Player.passwordHash player) stats
    (Player.games player ++
     [Player.mkGame (Request.date req) (Request.won req) (Request.guesses req)
        (Request.time req) (Request.attempts req)]).

Definition statsOf (db : DB) (playerId : string) : Player.Stats :=
  Player.stats (playerOf db playerId).

(** The values of [currentStreak] of a player after each request of a history. *)
Fixpoint streakHistory (playerId : string) (db : DB) (rs : list request) : list Z :=
  match rs with
  | [] => []
  | r :: rs' =>
      let db' := snd (run (handle r) db) in
      Player.currentStreak (statsOf db' playerId) :: streakHistory playerId db' rs'
  end.

Definition runningMax (l : list Z) : Z := fold_right Z.max 0 l.

(** Entries in descending order of score. *)
Definition descending (entries : list Leaderboard.Entry) : Prop :=
  StronglySorted (fun a b => (Leaderboard.score b <= Leaderboard.score a)%Q) entries.

Definition boardOk (board : Leaderboard.t) : Prop :=
  descending (Leaderboard.entries board) /\ (length (Leaderboard.entries board) <= 100)%nat.

(** The entry that [updateLeaderboards] pushes. *)
Definition entryOf (player : Player.t) (guesses time : Z) : Leaderboard.Entry :=
  Leaderboard.mkEntry (Player.playerId player)
    (or_string (Player.username player) "Anonymous") (scoreOf guesses time) time guesses.

(** The entries of the daily board of a date, none if there is no board. *)
Definition dailyEntries (db : DB) (date : string) : list Leaderboard.Entry :=
  match leaderboards db !! (date, "daily"%string) with
  | Some board => Leaderboard.entries board
  | None => []
  end.

(** The daily board [updateLeaderboards] works on: the one found, or a new one. *)
Definition boardOf (db : DB) (date : string) : Leaderboard.t :=
  match leaderboards db !! (date, "daily"%string) with
  | Some board => board
  | None => Leaderboard.mk date "daily" []
  end.

(** The board as [dailyBoard.save()] writes it: the entry pushed, the
    entries sorted, the first 100 kept. *)
Definition ranked (db : DB) (date : string) (player : Player.t) (guesses time : Z)
  : Leaderboard.t :=
  Leaderboard.mk (Leaderboard.date (boardOf db date)) (Leaderboard.type (boardOf db date))
    (take 100 (Array_sort byScore
                 (Leaderboard.entries (boardOf db date) ++ [entryOf player guesses time]))).

(** The message of the TypeError that reading a property of [null] raises. *)
Definition missingPuzzle : string :=
  "Cannot read properties of null (reading 'totalPlayers')".

(** The message of the ValidationError of a player without [playerId]. *)
Definition playerIdRequired : string :=
  "Player validation failed: playerId: Path `playerId` is required.".

(** The streak of a player is not negative and not above the longest one. *)
Definition streakInv (db : DB) (playerId : string) : Prop :=
  0 <= Player.currentStreak (statsOf db playerId) <= Player.maxStreak (statsOf db playerId).

(** Every board of the database is in order and within the cap. *)
Definition boardsOk (db : DB) : Prop :=
  forall key board, leaderboards db !! key = Some board -> boardOk board.



(** The year after a year of the era starts when it ends; the last one ends
    with the era. *)
Definition year_next_ok (yoe : Z) : bool :=
  yearStart yoe + yearLength yoe =? (if yoe =? 399 then 146097 else yearStart (yoe + 1)).

(** A day of a year is a day of a month, the 29th of February only as the
    last one, and [doyOf] finds it back. *)
Definition doy_ok (doy : Z) : bool :=
  let '(m, d) := monthDay doy in
  (1 <=? m) && (m <=? 12) && (1 <=? d) && (d <=? Calendar.daysInMonth 0 m)
  && (doyOf m d =? doy) && (negb ((m =? 2) && (d =? 29)) || (doy =? 365)).

(** [new Date().toISOString().split('T')[0]] at the time [now] of the clock
    (server.js, line 117). *)
Definition todayKey (now : Z) : string := Calendar.isoDate now.

(** [yesterday.setDate(yesterday.getDate() - 1)] on [new Date()], then the
    date part of [toISOString()] (server.js, lines 146-148). *)
Definition yesterdayKey (now : Z) : string :=
  Calendar.isoDate (Calendar.setDate host now (Calendar.getDate host now - 1)).

(** The body of the answer of the route of yesterday's puzzle. *)
Inductive YesterdayBody : Type :=
  | YesterdayError (error : string)
  | YesterdayPuzzle (date : string) (solution : list value) (stats : TodayStats).

Record YesterdayResponse : Type := mkYesterdayResponse {
  y_status : Z;
  y_body : YesterdayBody
}.

(** Get yesterday's solution (server.js, lines 144-167), for the date string
    [dateString] that lines 146-148 take from the clock. *)
Definition puzzleYesterday (dateString : string) : M YesterdayResponse :=
  try_catch
    (await puzzle := DailyPuzzle_findOne dateString in
     match puzzle with
     | Some puzzle =>
         ret (mkYesterdayResponse 200
                (YesterdayPuzzle (DailyPuzzle.date puzzle) (DailyPuzzle.solution puzzle)
                   (mkTodayStats (DailyPuzzle.totalPlayers puzzle)
                      (DailyPuzzle.completedPlayers puzzle)
                      (DailyPuzzle.fastestTime puzzle)
                      (DailyPuzzle.averageGuesses puzzle))))
     | None =>
         ret (mkYesterdayResponse 404 (YesterdayError "Yesterday's puzzle not found"))
     end)%handler
    (fun error => ret (mkYesterdayResponse 500 (YesterdayError error))).

(** The puzzle a date keeps through the requests: its date and solution stay,
    its counters do not fall. *)
Definition keeps (old new : DailyPuzzle.t) : Prop :=
  DailyPuzzle.date new = DailyPuzzle.date old
  /\ DailyPuzzle.solution new = DailyPuzzle.solution old
  /\ DailyPuzzle.totalPlayers old <= DailyPuzzle.totalPlayers new
  /\ DailyPuzzle.completedPlayers old <= DailyPuzzle.completedPlayers new.

(** The games of a history that were won. *)
Definition wonGames (games : list Player.Game) : list Player.Game :=
  List.filter Player.won games.

(** The guesses of a list of games, summed. *)
Definition sumGuesses (games : list Player.Game) : Z :=
  fold_left (fun acc g => acc + Player.guesses g) games 0.

(** The least time of a list of games, none for no game. *)
Definition leastTime (games : list Player.Game) : option Z :=
  fold_left
    (fun acc g =>
       Some match acc with
            | Some f => Z.min f (Player.time g)
            | None => Player.time g
            end)
    games None.

(** The date of the last game of a history. *)
Definition lastDate (games : list Player.Game) : option string :=
  Player.date <$> last games.

(** A stored player whose stats are those of its history. *)
Definition playerOk (playerId : string) (player : Player.t) : Prop :=
  let stats := Player.stats player in
  let games := Player.games player in
  Player.playerId player = playerId
  /\ List.NoDup (map Player.date games)
  /\ Player.gamesPlayed stats = Z.of_nat (length games)
  /\ Player.gamesWon stats = Z.of_nat (length (wonGames games))
  /\ Player.totalGuesses stats = sumGuesses (wonGames games)
  /\ Player.lastPlayDate stats = lastDate games
  /\ 0 <= Player.currentStreak stats <= Player.maxStreak stats
  /\ Player.maxStreak stats <= Player.gamesWon stats
  /\ (Forall (fun g => 0 < Player.time g) (wonGames games) ->
      Player.fastestTime stats = leastTime (wonGames games)).

Definition playersOk (db : DB) : Prop :=
  forall playerId player, players db !! playerId = Some player -> playerOk playerId player.

(** A stored puzzle: its date is its key, its solution the code of the
    generator for that date, and its completed players are among its
    players. *)
Definition puzzleWf (date : string) (puzzle : DailyPuzzle.t) : Prop :=
  DailyPuzzle.date puzzle = date
  /\ (exists allowDuplicates,
        DailyPuzzle.solution puzzle = fst (generateDailyCode date allowDuplicates []))
  /\ 0 <= DailyPuzzle.completedPlayers puzzle <= DailyPuzzle.totalPlayers puzzle.

(** Puzzles and boards as the requests leave them: a board is the daily
    board of a date that has a puzzle, and holds one entry for each completed
    player of that puzzle, up to 100. *)
Definition storeOk (db : DB) : Prop :=
  (forall date puzzle,
     puzzles db !! date = Some puzzle ->
     puzzleWf date puzzle
     /\ Z.of_nat (length (dailyEntries db date))
        = Z.min 100 (DailyPuzzle.completedPlayers puzzle))
  /\ (forall key board,
        leaderboards db !! key = Some board ->
        key = (Leaderboard.date board, "daily"%string)
        /\ Leaderboard.type board = "daily"%string
        /\ is_Some (puzzles db !! Leaderboard.date board)).

(** An entry of the board of a date that a won game of its player on that
    date stands behind, with the score of its own guesses and time. *)
Definition backed (db : DB) (date : string) (e : Leaderboard.Entry) : Prop :=
  Leaderboard.score e = scoreOf (Leaderboard.guesses e) (Leaderboard.time e)
  /\ exists player game,
       players db !! Leaderboard.playerId e = Some player
       /\ In game (Player.games player)
       /\ Player.date game = date
       /\ Player.won game = true
       /\ Player.guesses game = Leaderboard.guesses e
       /\ Player.time game = Leaderboard.time e.

Definition entriesOk (db : DB) : Prop :=
  (forall playerId player,
     players db !! playerId = Some player -> Player.playerId player = playerId)
  /\ (forall date e, In e (dailyEntries db date) -> backed db date e).

(** [t.getDay()]: the day of the week of the local time, Sunday being 0
    (WeekDay of ECMAScript). *)
Definition getDay (t : Z) : Z := (Calendar.Day (Calendar.LocalTime host t) + 4) mod 7.

(** The Monday that the route of the leaderboards takes for the weekly board
    (server.js, lines 304-307), at the time [now] of the clock. *)
Definition mondayKey (now : Z) : string :=
  Calendar.isoDate
    (Calendar.setDate host now (Calendar.getDate host now - getDay now + 1)).

(** The query of the route of the leaderboards (server.js, lines 299-308):
    its type, and its date when it has one.  An empty [date] is falsy. *)
Definition leaderboardQuery (type : string) (date : option string) (now : Z)
  : string * option string :=
  match date with
  | Some d =>
      if String.eqb type "daily" && negb (String.eqb d "") then (type, Some d)
      else if String.eqb type "weekly" then (type, Some (mondayKey now))
      else (type, None)
  | None =>
      if String.eqb type "weekly" then (type, Some (mondayKey now)) else (type, None)
  end.

(** A board that a query selects. *)
Definition selects (query : string * option string) (board : Leaderboard.t) : Prop :=
  Leaderboard.type board = fst query
  /\ forall d, snd query = Some d -> Leaderboard.date board = d.

(** [Leaderboard.findOne(query).sort(...).limit(100)]: one of the boards the
    query selects (which one, the sort decides), or [null] when it selects
    none. *)
Definition Leaderboard_findOne_query (query : string * option string) (db : DB)
    (result : option Leaderboard.t) : Prop :=
  match result with
  | Some board => (exists key, leaderboards db !! key = Some board) /\ selects query board
  | None => forall key board, leaderboards db !! key = Some board -> ~ selects query board
  end.

(** Get leaderboards (server.js, lines 294-318): the entries of the answer
    [leaderboard || { entries: [] }]. *)
Definition getLeaderboard (type : string) (date : option string) (now : Z) (db : DB)
    (entries : list Leaderboard.Entry) : Prop :=
  exists result,
    Leaderboard_findOne_query (leaderboardQuery type date now) db result
    /\ entries = match result with
                 | Some board => Leaderboard.entries board
                 | None => []
                 end.

(** * Properties *)

(** ** 32-bit arithmetic *)

Lemma toInt32_range z : -2147483648 <= JS.toInt32 z < 2147483648.
Proof.
  unfold JS.toInt32.
  pose proof (Z.mod_pos_bound z 4294967296 ltac:(lia)).
  destruct (Z.ltb_spec (z mod 4294967296) 2147483648); lia.
Qed.

Lemma toInt32_mod z : JS.toInt32 z mod 4294967296 = z mod 4294967296.
Proof.
  unfold JS.toInt32.
  destruct (Z.ltb_spec (z mod 4294967296) 2147483648).
  - apply Z.mod_mod; lia.
  - rewrite Zminus_mod, Z.mod_same, Z.sub_0_r by lia.
    rewrite !Z.mod_mod by lia. reflexivity.
Qed.

Lemma toInt32_congr a b :
  a mod 4294967296 = b mod 4294967296 -> JS.toInt32 a = JS.toInt32 b.
Proof. unfold JS.toInt32. intros ->. reflexivity. Qed.

Lemma toInt32_idem z : JS.toInt32 (JS.toInt32 z) = JS.toInt32 z.
Proof. apply toInt32_congr, toInt32_mod. Qed.

Lemma band_diag z : JS.band z z = JS.toInt32 z.
Proof. unfold JS.band. rewrite Z.land_diag. apply toInt32_idem. Qed.

Lemma shl_5 z : JS.shl z 5 = JS.toInt32 (z * 32).
Proof.
  unfold JS.shl. change (5 mod 32) with 5. rewrite Z.shiftl_mul_pow2 by lia.
  apply toInt32_congr. change (2 ^ 5) with 32.
  rewrite Zmult_mod, toInt32_mod, <- Zmult_mod. reflexivity.
Qed.

(** One step of the loop of [hashCode] is one step of [hash * 31 + char]. *)
Lemma hash_step hash char :
  JS.band (JS.shl hash 5 - hash + char) (JS.shl hash 5 - hash + char)
  = JS.toInt32 (hash * 31 + char).
Proof.
  rewrite band_diag, shl_5. apply toInt32_congr.
  replace (hash * 31 + char) with (hash * 32 + (char - hash)) by lia.
  replace (JS.toInt32 (hash * 32) - hash + char)
    with (JS.toInt32 (hash * 32) + (char - hash)) by lia.
  rewrite Zplus_mod, toInt32_mod, <- Zplus_mod. reflexivity.
Qed.

Lemma hashLoop_hash31Loop str : forall hash, hashLoop str hash = hash31Loop str hash.
Proof.
  induction str as [|c rest IH]; intros hash; simpl; [reflexivity|].
  rewrite hash_step. apply IH.
Qed.

Lemma hash31Loop_range str :
  forall hash, -2147483648 <= hash < 2147483648 ->
               -2147483648 <= hash31Loop str hash < 2147483648.
Proof.
  induction str as [|c rest IH]; intros hash Hh; simpl; [exact Hh|].
  apply IH, toInt32_range.
Qed.

Lemma hashCode_range str : 0 <= hashCode str <= 2147483648.
Proof.
  unfold hashCode. rewrite hashLoop_hash31Loop.
  pose proof (hash31Loop_range str 0 ltac:(lia)). lia.
Qed.

Lemma charCode_range c : 0 <= JS.charCode c < 256.
Proof.
  unfold JS.charCode. pose proof (N_ascii_bounded c). lia.
Qed.

Lemma hashOperands_safe str :
  forall hash, -2147483648 <= hash < 2147483648 ->
  Forall (fun z => Z.abs z < JS.MAX_SAFE) (hashOperands str hash).
Proof.
  induction str as [|c rest IH]; intros hash Hh; simpl; constructor.
  - pose proof (charCode_range c). rewrite shl_5.
    pose proof (toInt32_range (hash * 32)). unfold JS.MAX_SAFE. lia.
  - apply IH. rewrite band_diag. apply toInt32_range.
Qed.

(** [hashCode] wraps each of [hashOperands] in turn. *)
Lemma hashLoop_operands str :
  forall hash,
    hashLoop str hash = fold_left (fun _ z => JS.band z z) (hashOperands str hash) hash.
Proof.
  induction str as [|c rest IH]; intros hash; simpl; [reflexivity|]. apply IH.
Qed.

(** ** The linear congruential generator *)

Lemma lcg_lcgSpec state : 0 <= state -> lcg state = lcgSpec state.
Proof.
  intros H. unfold lcg, lcgSpec, JS.rem. apply Z.rem_mod_nonneg; lia.
Qed.

Lemma lcgSpec_range state : 0 <= lcgSpec state < 4294967296.
Proof. unfold lcgSpec. apply Z.mod_pos_bound. lia. Qed.

Lemma lcg_range state : 0 <= state -> 0 <= lcg state < 4294967296.
Proof. intros H. rewrite lcg_lcgSpec by exact H. apply lcgSpec_range. Qed.

Lemma stream_range seed k :
  0 <= seed <= 2147483648 -> 0 <= Nat.iter k lcgSpec seed < 4294967296.
Proof.
  intros H. destruct k as [|k]; simpl; [lia | apply lcgSpec_range].
Qed.

Lemma stream_lcg seed k : 0 <= seed -> Nat.iter k lcg seed = Nat.iter k lcgSpec seed.
Proof.
  intros H. induction k as [|k IH]; simpl; [reflexivity|].
  rewrite IH. apply lcg_lcgSpec.
  destruct k; simpl; [exact H | apply lcgSpec_range].
Qed.

(** The cell of a closure is the last one allocated before it is called;
    a call reads and writes that cell only. *)
Lemma rng_own (h : Heap) state :
  rng (length h) (h ++ [state])
  = ((inject_Z (lcg state) / inject_Z 4294967296)%Q, h ++ [lcg state]).
Proof.
  unfold rng. rewrite app_nth2, Nat.sub_diag by lia. simpl nth.
  f_equal. rewrite insert_app_r_alt, Nat.sub_diag by lia. reflexivity.
Qed.

Lemma calls_own k : forall (h : Heap) state,
  calls k (length h) (h ++ [state])
  = (map (fun i => (inject_Z (Nat.iter i lcg state) / inject_Z 4294967296)%Q)
         (seq 1 k),
     h ++ [Nat.iter k lcg state]).
Proof.
  induction k as [|k IH]; intros h state; [reflexivity|].
  cbn [calls]. rewrite rng_own, IH.
  rewrite <- (Nat.iter_succ_r k lcg state).
  cbn [seq map]. rewrite <- (seq_shift k 1), map_map.
  change (Nat.iter 1 lcg state) with (lcg state).
  do 2 f_equal. apply map_ext. intros i.
  rewrite <- Nat.iter_succ_r. reflexivity.
Qed.

(** ** The draws *)

Lemma draw_own allowDuplicates (h : Heap) code state :
  draw allowDuplicates (length h) (code, h ++ [state])
  = (fst (drawFrom allowDuplicates (code, state)),
     h ++ [snd (drawFrom allowDuplicates (code, state))]).
Proof. unfold draw, drawFrom. rewrite rng_own. reflexivity. Qed.

Lemma iter_draw_own allowDuplicates (h : Heap) seed n :
  Nat.iter n (draw allowDuplicates (length h)) ([], h ++ [seed])
  = (fst (Nat.iter n (drawFrom allowDuplicates) ([], seed)),
     h ++ [snd (Nat.iter n (drawFrom allowDuplicates) ([], seed))]).
Proof.
  induction n as [|n IH]; [reflexivity|].
  cbn [Nat.iter nat_rect]. fold (Nat.iter n (draw allowDuplicates (length h)) ([], h ++ [seed])).
  fold (Nat.iter n (drawFrom allowDuplicates) ([], seed)).
  rewrite IH. destruct (Nat.iter n (drawFrom allowDuplicates) ([], seed)) as [code state].
  apply draw_own.
Qed.

Lemma generateDailyCode_own dateString allowDuplicates (h : Heap) :
  generateDailyCode dateString allowDuplicates h
  = (fst (Nat.iter 4 (drawFrom allowDuplicates) ([], hashCode dateString)),
     h ++ [snd (Nat.iter 4 (drawFrom allowDuplicates) ([], hashCode dateString))]).
Proof. unfold generateDailyCode, seededRandom. apply iter_draw_own. Qed.

Lemma rng_value_range state :
  0 <= state < 4294967296 ->
  (0 <= inject_Z state / inject_Z 4294967296 /\
   inject_Z state / inject_Z 4294967296 < 1)%Q.
Proof.
  intros H. unfold Qdiv, Qinv, Qmult, Qle, Qlt, inject_Z. simpl. lia.
Qed.

Lemma randomIndex_eq state (available : list Z) :
  randomIndex (inject_Z state / inject_Z 4294967296) available
  = state * Z.of_nat (length available) / 4294967296.
Proof.
  unfold randomIndex, Qdiv, Qinv, Qmult, inject_Z, Qfloor. simpl.
  f_equal. lia.
Qed.

Lemma randomIndex_range state (available : list Z) :
  0 <= state < 4294967296 -> (0 < length available)%nat ->
  0 <= randomIndex (inject_Z state / inject_Z 4294967296) available
    < Z.of_nat (length available).
Proof.
  intros Hs Hl. rewrite randomIndex_eq. split.
  - apply Z.div_pos; lia.
  - apply Z.div_lt_upper_bound; nia.
Qed.

Lemma at_index_in (arr : list Z) i :
  0 <= i < Z.of_nat (length arr) -> exists n, at_index arr i = Num n /\ In n arr.
Proof.
  intros Hi. unfold at_index.
  destruct (Z.ltb_spec i 0); [lia|].
  destruct (nth_error arr (Z.to_nat i)) as [n|] eqn:E.
  - exists n. split; [reflexivity|]. eapply nth_error_In, E.
  - apply nth_error_None in E. lia.
Qed.

Lemma includes_Num ns n : includes (map Num ns) n = true <-> In n ns.
Proof.
  unfold includes. rewrite existsb_exists. split.
  - intros (v & Hv & Hvn). apply in_map_iff in Hv as (m & <- & Hm).
    apply Z.eqb_eq in Hvn. subst. exact Hm.
  - intros Hn. exists (Num n). split; [apply in_map, Hn | apply Z.eqb_refl].
Qed.

Lemma numbers_NoDup : List.NoDup numbers.
Proof.
  unfold numbers. repeat (apply List.NoDup_cons; [simpl; lia|]).
  apply List.NoDup_nil.
Qed.

Lemma numbers_range n : In n numbers <-> 1 <= n <= 6.
Proof. unfold numbers. simpl. lia. Qed.

Lemma available_in ns n :
  In n (availableNumbers false (map Num ns)) <-> 1 <= n <= 6 /\ ~ In n ns.
Proof.
  unfold availableNumbers. rewrite filter_In, numbers_range, negb_true_iff.
  rewrite <- includes_Num. destruct (includes (map Num ns) n); intuition congruence.
Qed.

(** The pool loses one number for each distinct number drawn. *)
Lemma available_length ns :
  List.NoDup ns -> Forall (fun x => 1 <= x <= 6) ns ->
  (length (availableNumbers false (map Num ns)) + length ns = 6)%nat.
Proof.
  intros Hnd Hr. unfold availableNumbers.
  pose proof (filter_length (fun n => includes (map Num ns) n) numbers) as Hp.
  change (length numbers) with 6%nat in Hp.
  assert (length (List.filter (fun n => includes (map Num ns) n) numbers) = length ns)
    as Hl.
  { apply Permutation_length, Permutation.NoDup_Permutation.
    - apply List.NoDup_filter, numbers_NoDup.
    - exact Hnd.
    - intros n. rewrite filter_In, includes_Num, numbers_range.
      rewrite List.Forall_forall in Hr. split; [tauto|].
      intros Hn. split; [apply Hr, Hn | exact Hn]. }
  lia.
Qed.

Lemma available_dup_length code : length (availableNumbers true code) = 6%nat.
Proof. reflexivity. Qed.

Lemma drawn_pool allowDuplicates n st :
  drawn allowDuplicates n st -> (n < 6)%nat ->
  length (availableNumbers allowDuplicates (fst st))
  = if allowDuplicates then 6%nat else (6 - n)%nat.
Proof.
  intros (ns & Hc & Hl & Hr & Hnd & _) Hn. destruct allowDuplicates.
  - reflexivity.
  - rewrite Hc. pose proof (available_length ns (Hnd eq_refl) Hr). lia.
Qed.

Lemma drawn_start allowDuplicates dateString :
  drawn allowDuplicates 0 ([], hashCode dateString).
Proof.
  exists []. pose proof (hashCode_range dateString). simpl.
  repeat split; try constructor; lia.
Qed.

Lemma drawn_step allowDuplicates n st :
  drawn allowDuplicates n st -> (n < 6)%nat ->
  drawn allowDuplicates (S n) (drawFrom allowDuplicates st).
Proof.
  intros Hd Hn. pose proof (drawn_pool _ _ _ Hd Hn) as Hlen.
  destruct Hd as (ns & Hc & Hl & Hr & Hnd & Hs). destruct st as [code state].
  simpl in Hc, Hs, Hlen. subst code. unfold drawFrom.
  pose proof (lcg_range state ltac:(lia)) as Hs'.
  set (available := availableNumbers allowDuplicates (map Num ns)) in *.
  assert (0 < length available)%nat as Hpos by (destruct allowDuplicates; lia).
  destruct (at_index_in available _ (randomIndex_range _ _ Hs' Hpos)) as (x & -> & Hx).
  exists (ns ++ [x]). simpl. rewrite map_app, length_app. simpl.
  assert (1 <= x <= 6 /\ (allowDuplicates = false -> ~ In x ns)) as [Hx1 Hx2].
  { subst available. destruct allowDuplicates.
    - split; [apply numbers_range, Hx | discriminate].
    - apply available_in in Hx. tauto. }
  repeat split; try lia.
  - apply Forall_app. split; [exact Hr | repeat constructor; lia].
  - intros Hf. apply List.NoDup_app; auto.
    + apply List.NoDup_cons; [intros [] | apply List.NoDup_nil].
    + intros y Hy [<-|[]]. exact (Hx2 Hf Hy).
Qed.

Lemma drawn_iter allowDuplicates dateString n :
  (n <= 6)%nat ->
  drawn allowDuplicates n (Nat.iter n (drawFrom allowDuplicates) ([], hashCode dateString)).
Proof.
  induction n as [|n IH]; intros Hn; [apply drawn_start|].
  cbn [Nat.iter nat_rect]. apply drawn_step; [apply IH|]; lia.
Qed.

Lemma drawn_code4 allowDuplicates st :
  drawn allowDuplicates 4 st ->
  exists a b c d,
    fst st = [Num a; Num b; Num c; Num d] /\
    Forall (fun x => 1 <= x <= 6) [a; b; c; d] /\
    (allowDuplicates = false -> List.NoDup [a; b; c; d]).
Proof.
  intros (ns & Hc & Hl & Hr & Hnd & _).
  destruct ns as [|a [|b [|c [|d [|e ns]]]]]; try discriminate Hl.
  exists a, b, c, d. auto.
Qed.

(** ** The generator: hash, stream and code *)

(** C7: the seed is the absolute value of the hash that accumulates
    [hash * 31 + charCode] wrapped to 32 signed bits at every step; the
    [k] values a closure returns are [state / 2^32] for the successive states
    [(state * 1664525 + 1013904223) mod 2^32] from that seed; and every
    number the two functions compute with before reducing it (the operands
    [(hash << 5) - hash + char] that [hashCode] wraps, and
    [state * 1664525 + 1013904223]) is an integer of magnitude below 2^53,
    so the arithmetic of the code is exact. *)
Theorem hashCode_lcg_exact (str : string) (h : Heap) (k : nat) :
  let seed := hashCode str in
  let r := fst (seededRandom seed h) in
  let h0 := snd (seededRandom seed h) in
  seed = Z.abs (hash31 str)
  /\ fst (calls k r h0)
     = map (fun i => (inject_Z (Nat.iter i lcgSpec seed) / inject_Z 4294967296)%Q)
           (seq 1 k)
  /\ snd (calls k r h0) = h ++ [Nat.iter k lcgSpec seed]
  /\ seed = Z.abs (fold_left (fun _ z => JS.band z z) (hashOperands str 0) 0)
  /\ Forall (fun z => Z.abs z < JS.MAX_SAFE) (hashOperands str 0)
  /\ (forall i, 0 <= Nat.iter i lcgSpec seed * 1664525 + 1013904223 < JS.MAX_SAFE).
Proof.
  intros seed r h0. subst r h0. unfold seededRandom. cbn [fst snd].
  pose proof (hashCode_range str) as Hseed. fold seed in Hseed.
  rewrite calls_own. cbn [fst snd].
  split; [|split; [|split; [|split; [|split]]]].
  - unfold seed, hashCode, hash31. rewrite hashLoop_hash31Loop. reflexivity.
  - apply map_ext. intros i. rewrite stream_lcg by lia. reflexivity.
  - rewrite stream_lcg by lia. reflexivity.
  - unfold seed, hashCode. rewrite hashLoop_operands. reflexivity.
  - apply hashOperands_safe. lia.
  - intros i. pose proof (stream_range seed i Hseed). unfold JS.MAX_SAFE. lia.
Qed.

(** The code of the first day of 2024, as the algorithm gives it. *)
Example generateDailyCode_2024_01_01 :
  hashCode "2024-01-01" = 613341632
  /\ fst (generateDailyCode "2024-01-01" false []) = [Num 2; Num 5; Num 1; Num 6]
  /\ fst (generateDailyCode "2024-01-01" true []) = [Num 2; Num 4; Num 1; Num 6].
Proof. vm_compute. repeat split. Qed.

(** C5: the code that [generateDailyCode] returns depends on the date string
    and on [allowDuplicates] only: it is the same in any two heaps, hence in
    two calls in a row; a call allocates the variable of its own closure and
    leaves every other variable as it was; the sequence has 4 elements.  The
    seed, [hashCode], reads nothing but the string. *)
Theorem generateDailyCode_pure (dateString : string) (allowDuplicates : bool)
    (h1 h2 : Heap) :
  fst (generateDailyCode dateString allowDuplicates h1)
  = fst (generateDailyCode dateString allowDuplicates h2)
  /\ (exists state,
        snd (generateDailyCode dateString allowDuplicates h1) = h1 ++ [state])
  /\ (let '(code1, h') := generateDailyCode dateString allowDuplicates h1 in
      let '(code2, _) := generateDailyCode dateString allowDuplicates h' in
      code1 = code2)
  /\ length (fst (generateDailyCode dateString allowDuplicates h1)) = 4%nat.
Proof.
  rewrite !generateDailyCode_own. cbn [fst snd].
  split; [reflexivity|]. split; [eexists; reflexivity|].
  split; [reflexivity|].
  destruct (drawn_code4 _ _ (drawn_iter allowDuplicates dateString 4 ltac:(lia)))
    as (a & b & c & d & -> & _). reflexivity.
Qed.

(** C6: for every date string (the empty one included),
    [generateDailyCode(dateString, false)] is a sequence of exactly 4
    pairwise distinct integers within 1..6, and
    [generateDailyCode(dateString, true)] one of 4 integers within 1..6. *)
Theorem generateDailyCode_distinct (dateString : string) (h : Heap) :
  (exists a b c d,
     fst (generateDailyCode dateString false h) = [Num a; Num b; Num c; Num d]
     /\ List.NoDup [a; b; c; d]
     /\ Forall (fun x => 1 <= x <= 6) [a; b; c; d])
  /\ (exists a b c d,
        fst (generateDailyCode dateString true h) = [Num a; Num b; Num c; Num d]
        /\ Forall (fun x => 1 <= x <= 6) [a; b; c; d]).
Proof.
  rewrite !generateDailyCode_own. cbn [fst snd]. split.
  - destruct (drawn_code4 _ _ (drawn_iter false dateString 4 ltac:(lia)))
      as (a & b & c & d & Hc & Hr & Hnd).
    exists a, b, c, d. auto.
  - destruct (drawn_code4 _ _ (drawn_iter true dateString 4 ltac:(lia)))
      as (a & b & c & d & Hc & Hr & _).
    exists a, b, c, d. auto.
Qed.

(** C10: at the draw number [i] of the 4 (counting from 0) the pool has 6
    numbers, or [6 - i] without duplicates, so at least 3; the value of
    [rng()] is within [0, 1); [Math.floor(rng() * pool.length)] is an index
    of the pool, where the pool holds a number; and the sequence returned
    has exactly 4 elements, none of them [undefined]. *)
Theorem generateDailyCode_total (dateString : string) (allowDuplicates : bool)
    (h : Heap) (i : nat) :
  (i < 4)%nat ->
  let seed := hashCode dateString in
  let r := fst (seededRandom seed h) in
  let st := Nat.iter i (draw allowDuplicates r) ([], snd (seededRandom seed h)) in
  let available := availableNumbers allowDuplicates (fst st) in
  let x := fst (rng r (snd st)) in
  length available = (if allowDuplicates then 6 else 6 - i)%nat
  /\ (3 <= length available)%nat
  /\ (0 <= x /\ x < 1)%Q
  /\ 0 <= randomIndex x available < Z.of_nat (length available)
  /\ (exists n, at_index available (randomIndex x available) = Num n)
  /\ (exists a b c d,
        fst (generateDailyCode dateString allowDuplicates h)
        = [Num a; Num b; Num c; Num d]).
Proof.
  intros Hi. cbv zeta. unfold seededRandom. cbn [fst snd].
  rewrite iter_draw_own. cbn [fst snd]. rewrite rng_own. cbn [fst].
  pose proof (drawn_iter allowDuplicates dateString i ltac:(lia)) as Hd.
  pose proof (drawn_pool _ _ _ Hd ltac:(lia)) as Hlen.
  destruct Hd as (ns & _ & _ & _ & _ & Hs).
  set (available := availableNumbers allowDuplicates _) in *.
  pose proof (lcg_range _ (proj1 Hs)) as Hs'.
  assert (3 <= length available)%nat as Hpos by (destruct allowDuplicates; lia).
  pose proof (randomIndex_range _ available Hs' ltac:(lia)) as Hidx.
  split; [exact Hlen|]. split; [exact Hpos|].
  split; [apply rng_value_range, Hs'|]. split; [exact Hidx|]. split.
  - destruct (at_index_in available _ Hidx) as (n & Hn & _). exists n. exact Hn.
  - rewrite generateDailyCode_own. cbn [fst].
    destruct (drawn_code4 _ _ (drawn_iter allowDuplicates dateString 4 ltac:(lia)))
      as (a & b & c & d & Hc & _).
    exists a, b, c, d. exact Hc.
Qed.

Lemma generateDailyCode_total_witness :
  (2 < 4)%nat /\
  length (availableNumbers false
            (fst (Nat.iter 2 (draw false 0%nat) ([], [hashCode "2024-01-01"]))))
  = 4%nat.
Proof.
  split; [lia|].
  apply (generateDailyCode_total "2024-01-01" false [] 2). lia.
Defined.

(** ** The calendar *)

Lemma zrange_In n : forall lo x, lo <= x < lo + Z.of_nat n -> In x (zrange lo n).
Proof.
  induction n as [|n IH]; intros lo x H; [lia|].
  simpl. destruct (Z.eq_dec lo x); [left; assumption | right; apply IH; lia].
Qed.

Lemma zrange_In_Z n lo x : lo <= x < lo + n -> In x (zrange lo (Z.to_nat n)).
Proof. intros H. apply zrange_In. rewrite Z2Nat.id; lia. Qed.

Lemma years_ok : forallb year_ok (zrange 0 (Z.to_nat 400)) = true.
Proof. vm_compute. reflexivity. Qed.

Lemma months_ok : forallb month_ok (zrange 1 (Z.to_nat 12)) = true.
Proof. vm_compute. reflexivity. Qed.

Lemma year_ok_true yoe : 0 <= yoe < 400 -> year_ok yoe = true.
Proof.
  intros H. apply (proj1 (List.forallb_forall year_ok _) years_ok).
  apply zrange_In_Z. exact H.
Qed.

Lemma date_ok_true m d : 1 <= m <= 12 -> 1 <= d <= 31 -> date_ok m d = true.
Proof.
  intros Hm Hd.
  pose proof (proj1 (List.forallb_forall month_ok _) months_ok m
                (zrange_In_Z 12 1 m ltac:(lia))) as Hmonth.
  apply (proj1 (List.forallb_forall (date_ok m) _) Hmonth).
  apply (zrange_In_Z 31 1 d). lia.
Qed.

Lemma isLeap_period y k : Calendar.isLeap (y + k * 400) = Calendar.isLeap y.
Proof.
  unfold Calendar.isLeap.
  replace (y + k * 400) with (y + (k * 100) * 4) at 1 by lia.
  replace (y + k * 400) with (y + (k * 4) * 100) at 1 by lia.
  rewrite !Z_mod_plus_full. reflexivity.
Qed.

Lemma daysInMonth_le y m : Calendar.daysInMonth y m <= Calendar.daysInMonth 0 m <= 31.
Proof.
  unfold Calendar.daysInMonth. change (Calendar.isLeap 0) with true.
  repeat match goal with |- context [if ?b then _ else _] => destruct b end; lia.
Qed.

Lemma gOf_step a : 0 <= a < 146096 -> gOf a <= gOf (a + 1).
Proof. intros H. unfold gOf. Z.div_mod_to_equations. lia. Qed.

Lemma gOf_mono a b : 0 <= a -> a <= b -> b <= 146096 -> gOf a <= gOf b.
Proof.
  intros Ha Hab Hb. revert Hb. pattern b.
  apply (Zlt_lower_bound_rec _ a); [|exact Hab].
  clear b Hab. intros b IH Hab Hb.
  destruct (Z.eq_dec a b) as [->|Hne]; [lia|].
  specialize (IH (b - 1) ltac:(lia) ltac:(lia)).
  pose proof (gOf_step (b - 1) ltac:(lia)) as Hs.
  replace (b - 1 + 1) with b in Hs by lia. lia.
Qed.

(** Every day of a year of the era belongs to that year. *)
Lemma yoeOf_year yoe doy :
  0 <= yoe < 400 -> 0 <= doy < yearLength yoe -> 
  0 <= yearStart yoe + doy < 146097 /\ yoeOf (yearStart yoe + doy) = yoe.
Proof.
  intros Hy Hd. pose proof (year_ok_true yoe Hy) as Hok. unfold year_ok in Hok.
  cbv zeta in Hok. rewrite !andb_true_iff in Hok. destruct Hok as [[[H1 H2] H3] H4].
  apply Z.leb_le in H1, H2. apply Z.eqb_eq in H3, H4.
  split; [lia|]. unfold yoeOf in *.
  pose proof (gOf_mono (yearStart yoe) (yearStart yoe + doy) ltac:(lia) ltac:(lia) ltac:(lia)).
  pose proof (gOf_mono (yearStart yoe + doy) (yearStart yoe + yearLength yoe - 1)
                ltac:(lia) ltac:(lia) ltac:(lia)).
  pose proof (Z.div_le_mono _ _ 365 ltac:(lia) H).
  pose proof (Z.div_le_mono _ _ 365 ltac:(lia) H0). lia.
Qed.

Lemma MakeDay_era y m d :
  let y' := if m <=? 2 then y - 1 else y in
  Calendar.MakeDay y m d
  = y' / 400 * 146097 + (yearStart (y' mod 400) + doyOf m d) - 719468.
Proof. unfold Calendar.MakeDay, yearStart, doyOf. cbv zeta. lia. Qed.

Lemma civil_era day :
  let z := day + 719468 in
  let yoe := yoeOf (z mod 146097) in
  Calendar.civil day =
  match monthDay (z mod 146097 - yearStart yoe) with
  | (m, d) => ((if m <=? 2 then yoe + z / 146097 * 400 + 1 else yoe + z / 146097 * 400), m, d)
  end.
Proof.
  cbv zeta. unfold Calendar.civil, monthDay, yoeOf, gOf, yearStart. cbv zeta.
  replace (365 * ((((day + 719468) mod 146097 - ((day + 719468) mod 146097) / 1460
                    + ((day + 719468) mod 146097) / 36524
                    - ((day + 719468) mod 146097) / 146096)) / 365))
    with ((((day + 719468) mod 146097 - ((day + 719468) mod 146097) / 1460
                    + ((day + 719468) mod 146097) / 36524
                    - ((day + 719468) mod 146097) / 146096)) / 365 * 365) by lia.
  reflexivity.
Qed.

(** A date of the calendar is the date of its day number. *)
Lemma civil_MakeDay y m d :
  1 <= m <= 12 -> 1 <= d <= Calendar.daysInMonth y m ->
  Calendar.civil (Calendar.MakeDay y m d) = (y, m, d).
Proof.
  intros Hm Hd. rewrite civil_era, MakeDay_era. cbv zeta.
  set (y' := if m <=? 2 then y - 1 else y).
  pose proof (Z.mod_pos_bound y' 400 ltac:(lia)) as Hyoe.
  pose proof (daysInMonth_le y m) as Hle.
  pose proof (date_ok_true m d Hm ltac:(lia)) as Hok. unfold date_ok in Hok.
  rewrite (proj2 (Z.leb_le d (Calendar.daysInMonth 0 m)) ltac:(lia)) in Hok. cbn [negb orb] in Hok.
  rewrite !andb_true_iff in Hok. destruct Hok as [[[H1 H2] H3] H4].
  apply Z.leb_le in H1, H3.
  assert (doyOf m d < yearLength (y' mod 400)) as Hlen.
  { unfold yearLength.
    destruct (Calendar.isLeap (y' mod 400 + 1)) eqn:Hleap; [lia|].
    apply orb_true_iff in H2 as [H2|H2]; [|apply Z.leb_le in H2; lia].
    apply andb_true_iff in H2 as [E1 E2]. apply Z.eqb_eq in E1, E2. subst m d.
    exfalso. subst y'. change (2 <=? 2) with true in Hleap. cbv iota in Hleap.
    unfold Calendar.daysInMonth in Hd. change (2 =? 2) with true in Hd. cbv iota in Hd.
    assert (Calendar.isLeap y = false) as Hy.
    { rewrite <- Hleap.
      rewrite <- (isLeap_period ((y - 1) mod 400 + 1) ((y - 1) / 400)).
      f_equal. pose proof (Z.div_mod (y - 1) 400 ltac:(lia)). lia. }
    rewrite Hy in Hd. lia. }
  destruct (yoeOf_year (y' mod 400) (doyOf m d) Hyoe ltac:(lia)) as [Hr Hyo].
  replace (y' / 400 * 146097 + (yearStart (y' mod 400) + doyOf m d) - 719468 + 719468)
    with (yearStart (y' mod 400) + doyOf m d + y' / 400 * 146097) by lia.
  rewrite Z_div_plus_full, Z_mod_plus_full by lia.
  rewrite Z.div_small, Z.mod_small by lia. rewrite Hyo.
  replace (yearStart (y' mod 400) + doyOf m d - yearStart (y' mod 400))
    with (doyOf m d) by lia.
  destruct (monthDay (doyOf m d)) as [m' d'].
  apply andb_true_iff in H4 as [E1 E2]. apply Z.eqb_eq in E1, E2. subst m' d'.
  f_equal. f_equal. subst y'. pose proof (Z.div_mod (y - 1) 400 ltac:(lia)).
  pose proof (Z.div_mod y 400 ltac:(lia)). destruct (m <=? 2); lia.
Qed.

Lemma MakeDay_linear y m d : Calendar.MakeDay y m d = Calendar.MakeDay y m 1 + (d - 1).
Proof. unfold Calendar.MakeDay. lia. Qed.

Lemma MakeDay_March y :
  Calendar.MakeDay y 2 (Calendar.daysInMonth y 2) = Calendar.MakeDay y 3 1 - 1.
Proof.
  unfold Calendar.MakeDay, Calendar.daysInMonth, Calendar.isLeap.
  change (2 =? 2) with true. change (2 <=? 2) with true. change (3 <=? 2) with false.
  change (2 <? 2) with false. change (2 <? 3) with true. cbv iota.
  change (3 - 3) with 0. change (2 + 9) with 11.
  change ((153 * 0 + 2) / 5) with 0. change ((153 * 11 + 2) / 5) with 337.
  destruct (Z.eqb_spec (y mod 4) 0), (Z.eqb_spec (y mod 100) 0), (Z.eqb_spec (y mod 400) 0);
    cbn [negb orb andb]; Z.div_mod_to_equations; lia.
Qed.

Ltac decide_tests :=
  repeat match goal with
         | |- context [if ?b then _ else _] =>
             let v := eval vm_compute in b in
             match v with
             | true => change b with true; cbv iota
             | false => change b with false; cbv iota
             end
         end.

(** The day number of the preceding calendar day is one less. *)
Lemma MakeDay_precedingDay y m d :
  1 <= m <= 12 -> 1 <= d <= Calendar.daysInMonth y m ->
  match Calendar.precedingDay (y, m, d) with
  | (y2, m2, d2) =>
      Calendar.MakeDay y2 m2 d2 = Calendar.MakeDay y m d - 1
      /\ 1 <= m2 <= 12 /\ 1 <= d2 <= Calendar.daysInMonth y2 m2
  end.
Proof.
  intros Hm Hd. unfold Calendar.precedingDay.
  destruct (Z.ltb_spec 1 d) as [Hd1|Hd1].
  { rewrite (MakeDay_linear y m d), (MakeDay_linear y m (d - 1)). lia. }
  assert (d = 1) as -> by lia. clear Hd Hd1.
  destruct (Z.ltb_spec 1 m) as [Hm1|Hm1].
  - assert (m = 3 \/ m = 2 \/ m = 4 \/ m = 5 \/ m = 6 \/ m = 7 \/ m = 8 \/ m = 9
            \/ m = 10 \/ m = 11 \/ m = 12) as Hcases by lia.
    destruct Hcases as [->|Hcases].
    + change (3 - 1) with 2. split; [apply MakeDay_March|].
      unfold Calendar.daysInMonth. change (2 =? 2) with true. cbv iota.
      destruct (Calendar.isLeap y); lia.
    + repeat (destruct Hcases as [->|Hcases]); try subst m;
        unfold Calendar.MakeDay, Calendar.daysInMonth; decide_tests;
        (split; [Z.div_mod_to_equations; lia | lia]).
  - assert (m = 1) as -> by lia.
    unfold Calendar.MakeDay, Calendar.daysInMonth. decide_tests.
    split; [Z.div_mod_to_equations; lia | lia].
Qed.

Lemma Day_MakeDate day : Calendar.Day (Calendar.MakeDate day 0) = day.
Proof.
  unfold Calendar.Day, Calendar.MakeDate, Calendar.msPerDay.
  rewrite Z.add_0_r. apply Z.div_mul. lia.
Qed.

Lemma TimeWithinDay_MakeDate day : Calendar.TimeWithinDay (Calendar.MakeDate day 0) = 0.
Proof.
  unfold Calendar.TimeWithinDay, Calendar.MakeDate, Calendar.msPerDay.
  rewrite Z.add_0_r. apply Z.mod_mul. lia.
Qed.

Lemma years_next_ok : forallb year_next_ok (zrange 0 (Z.to_nat 400)) = true.
Proof. vm_compute. reflexivity. Qed.

Lemma doys_ok : forallb doy_ok (zrange 0 (Z.to_nat 366)) = true.
Proof. vm_compute. reflexivity. Qed.

Lemma year_next_ok_true yoe : 0 <= yoe < 400 -> year_next_ok yoe = true.
Proof.
  intros H. apply (proj1 (List.forallb_forall year_next_ok _) years_next_ok).
  apply zrange_In_Z. exact H.
Qed.

Lemma doy_ok_true doy : 0 <= doy < 366 -> doy_ok doy = true.
Proof.
  intros H. apply (proj1 (List.forallb_forall doy_ok _) doys_ok).
  apply zrange_In_Z. exact H.
Qed.

Lemma year_ok_facts yoe :
  0 <= yoe < 400 ->
  0 <= yearStart yoe /\ yearStart yoe + yearLength yoe - 1 <= 146096
  /\ yoeOf (yearStart yoe) = yoe
  /\ yoeOf (yearStart yoe + yearLength yoe - 1) = yoe.
Proof.
  intros Hy. pose proof (year_ok_true yoe Hy) as Hok. unfold year_ok in Hok.
  cbv zeta in Hok. rewrite !andb_true_iff in Hok. destruct Hok as [[[H1 H2] H3] H4].
  apply Z.leb_le in H1, H2. apply Z.eqb_eq in H3, H4. auto.
Qed.

Lemma yearLength_pos yoe : 365 <= yearLength yoe <= 366.
Proof. unfold yearLength. destruct (Calendar.isLeap _); lia. Qed.

Lemma yoeOf_mono a b : 0 <= a -> a <= b -> b <= 146096 -> yoeOf a <= yoeOf b.
Proof.
  intros Ha Hab Hb. unfold yoeOf. apply Z.div_le_mono; [lia|]. apply gOf_mono; lia.
Qed.

(** Every day of the era lies in the year that [yoeOf] gives it. *)
Lemma yoeOf_bounds doe :
  0 <= doe < 146097 ->
  0 <= yoeOf doe < 400
  /\ yearStart (yoeOf doe) <= doe < yearStart (yoeOf doe) + yearLength (yoeOf doe).
Proof.
  intros Hd.
  assert (0 <= yoeOf doe < 400) as Hy.
  { pose proof (yoeOf_mono 0 doe ltac:(lia) ltac:(lia) ltac:(lia)) as H0.
    pose proof (yoeOf_mono doe 146096 ltac:(lia) ltac:(lia) ltac:(lia)) as H1.
    change (yoeOf 0) with 0 in H0. change (yoeOf 146096) with 399 in H1. lia. }
  split; [exact Hy|].
  destruct (year_ok_facts _ Hy) as (Hf0 & Hl0 & Hf & Hl).
  pose proof (yearLength_pos (yoeOf doe)) as Hlen.
  split.
  - destruct (Z.le_gt_cases (yearStart (yoeOf doe)) doe) as [|Hlt]; [assumption|exfalso].
    destruct (Z.eq_dec (yoeOf doe) 0) as [E|NE].
    { rewrite E in Hlt. change (yearStart 0) with 0 in Hlt. lia. }
    assert (0 <= yoeOf doe - 1 < 400) as Hp by lia.
    destruct (year_ok_facts _ Hp) as (Hpf0 & _ & _ & Hpl).
    pose proof (year_next_ok_true _ Hp) as Hn. unfold year_next_ok in Hn.
    destruct (Z.eqb_spec (yoeOf doe - 1) 399); [lia|].
    apply Z.eqb_eq in Hn. replace (yoeOf doe - 1 + 1) with (yoeOf doe) in Hn by lia.
    pose proof (yearLength_pos (yoeOf doe - 1)).
    pose proof (yoeOf_mono doe (yearStart (yoeOf doe - 1) + yearLength (yoeOf doe - 1) - 1)
                  ltac:(lia) ltac:(lia) ltac:(lia)) as Hm.
    rewrite Hpl in Hm. lia.
  - destruct (Z.lt_ge_cases doe (yearStart (yoeOf doe) + yearLength (yoeOf doe)))
      as [|Hge]; [assumption|exfalso].
    pose proof (year_next_ok_true _ Hy) as Hn. unfold year_next_ok in Hn.
    destruct (Z.eqb_spec (yoeOf doe) 399) as [E|NE]; apply Z.eqb_eq in Hn; [lia|].
    assert (0 <= yoeOf doe + 1 < 400) as Hs by lia.
    destruct (year_ok_facts _ Hs) as (_ & _ & Hsf & _).
    pose proof (yoeOf_mono (yearStart (yoeOf doe + 1)) doe
                  ltac:(lia) ltac:(lia) ltac:(lia)) as Hm.
    rewrite Hsf in Hm. lia.
Qed.

(** The date of a day number is a date of the calendar, and the day number
    of that date is the day number. *)
Lemma MakeDay_civil day :
  match Calendar.civil day with
  | (y, m, d) =>
      Calendar.MakeDay y m d = day
      /\ 1 <= m <= 12 /\ 1 <= d <= Calendar.daysInMonth y m
  end.
Proof.
  rewrite civil_era. cbv zeta.
  pose proof (Z.mod_pos_bound (day + 719468) 146097 ltac:(lia)) as Hdoe.
  set (doe := (day + 719468) mod 146097) in *.
  set (era := (day + 719468) / 146097).
  destruct (yoeOf_bounds doe Hdoe) as (Hy & Hs).
  set (yoe := yoeOf doe) in *.
  pose proof (yearLength_pos yoe) as Hlen.
  pose proof (doy_ok_true (doe - yearStart yoe) ltac:(lia)) as Hok. unfold doy_ok in Hok.
  destruct (monthDay (doe - yearStart yoe)) as [m d].
  rewrite !andb_true_iff in Hok. destruct Hok as [[[[[H1 H2] H3] H4] H5] H6].
  apply Z.leb_le in H1, H2, H3, H4. apply Z.eqb_eq in H5.
  rewrite MakeDay_era. cbv zeta.
  assert ((if m <=? 2
           then (if m <=? 2 then yoe + era * 400 + 1 else yoe + era * 400) - 1
           else (if m <=? 2 then yoe + era * 400 + 1 else yoe + era * 400))
          = yoe + era * 400) as -> by (destruct (m <=? 2); lia).
  rewrite Z_div_plus_full, Z_mod_plus_full by lia.
  rewrite Z.div_small, Z.mod_small by lia. rewrite H5.
  split; [|split; [lia|split; [lia|]]].
  - subst doe era. pose proof (Z.div_mod (day + 719468) 146097 ltac:(lia)). lia.
  - unfold Calendar.daysInMonth in *. destruct (Z.eqb_spec m 2) as [->|Hm2]; [|exact H4].
    change (2 <=? 2) with true. cbv iota.
    change (Calendar.isLeap 0) with true in H4. cbv iota in H4.
    replace (yoe + era * 400 + 1) with (yoe + 1 + era * 400) by lia.
    rewrite isLeap_period.
    destruct (Calendar.isLeap (yoe + 1)) eqn:Hleap; [exact H4|].
    destruct (Z.eqb_spec d 29) as [->|Hd29]; [|lia].
    cbn [andb negb orb] in H6. apply Z.eqb_eq in H6.
    unfold yearLength in Hs. rewrite Hleap in Hs. lia.
Qed.

Lemma TimeWithinDay_range t : 0 <= Calendar.TimeWithinDay t < Calendar.msPerDay.
Proof. unfold Calendar.TimeWithinDay, Calendar.msPerDay. apply Z.mod_pos_bound. lia. Qed.

Lemma Day_MakeDate_time day time :
  0 <= time < Calendar.msPerDay -> Calendar.Day (Calendar.MakeDate day time) = day.
Proof.
  intros H. unfold Calendar.Day, Calendar.MakeDate, Calendar.msPerDay in *.
  rewrite Z.add_comm, Z_div_plus by lia. rewrite Z.div_small by lia. lia.
Qed.

Lemma Day_next now : Calendar.Day (now + Calendar.msPerDay) = Calendar.Day now + 1.
Proof.
  unfold Calendar.Day, Calendar.msPerDay.
  replace (now + 86400000) with (now + 1 * 86400000) by lia.
  apply Z_div_plus. lia.
Qed.

(** [setDate] moves the local time by whole days and takes it back to
    UTC. *)
Lemma setDate_LocalTime t dt :
  Calendar.setDate host t dt
  = Calendar.UTC host
      (Calendar.LocalTime host t + (dt - Calendar.getDate host t) * Calendar.msPerDay).
Proof.
  unfold Calendar.setDate, Calendar.getDate.
  set (local := Calendar.LocalTime host t).
  pose proof (MakeDay_civil (Calendar.Day local)) as Hc.
  destruct (Calendar.civil (Calendar.Day local)) as [[y m] d].
  destruct Hc as (Hday & _ & _). f_equal.
  rewrite (MakeDay_linear y m d) in Hday.
  unfold Calendar.MakeDate. rewrite (MakeDay_linear y m dt).
  pose proof (Z.div_mod local Calendar.msPerDay ltac:(discriminate)) as Hlocal.
  unfold Calendar.Day in Hday. unfold Calendar.TimeWithinDay. lia.
Qed.

(** On a host at a fixed offset, [setDate] moves the time value itself by
    whole days. *)
Lemma setDate_fixed offset t dt :
  Calendar.fixedOffset host offset ->
  Calendar.setDate host t dt = t + (dt - Calendar.getDate host t) * Calendar.msPerDay.
Proof.
  intros Hfixed. rewrite setDate_LocalTime. unfold Calendar.UTC, Calendar.LocalTime.
  rewrite !Hfixed. lia.
Qed.

Lemma Day_previous t : Calendar.Day (t - Calendar.msPerDay) = Calendar.Day t - 1.
Proof.
  unfold Calendar.Day, Calendar.msPerDay.
  replace (t - 86400000) with (t + (-1) * 86400000) by lia.
  rewrite Z_div_plus by lia. lia.
Qed.

Lemma fields_range s y m d :
  Calendar.fields s = Some (y, m, d) -> 1 <= m <= 12 /\ 1 <= d <= 31.
Proof.
  unfold Calendar.fields.
  do 10 (destruct s as [|? s]; [discriminate|]). destruct s; [|discriminate].
  destruct (Calendar.digits4 _ _ _ _); [|discriminate].
  destruct (Calendar.digits2 _ _); [|discriminate].
  destruct (Calendar.digits2 _ _); [|discriminate].
  destruct (_ && _) eqn:Hb; [|discriminate].
  intros [= <- <- <-]. rewrite !andb_true_iff in Hb. lia.
Qed.

(** For the string of a calendar date, lines 193-195 compute the string of
    the day of the time value that [setDate] leaves: one local day back. *)
Lemma yesterdayString_fields date y m d :
  Calendar.fields date = Some (y, m, d) ->
  let t := Calendar.MakeDate (Calendar.MakeDay y m d) 0 in
  Calendar.yesterdayString host date
  = Some (Calendar.isoDate
            (Calendar.UTC host (Calendar.LocalTime host t - Calendar.msPerDay))).
Proof.
  intros Hf. cbv zeta. unfold Calendar.yesterdayString, Calendar.parse. rewrite Hf.
  rewrite setDate_LocalTime. do 3 f_equal. lia.
Qed.

(** On a host at a fixed offset, for the string of a calendar date, lines
    193-195 compute the string of the preceding calendar day. *)
Lemma yesterdayString_precedingDay offset date y m d :
  Calendar.fixedOffset host offset ->
  Calendar.fields date = Some (y, m, d) -> d <= Calendar.daysInMonth y m ->
  Calendar.yesterdayString host date
  = Some (Calendar.iso (Calendar.precedingDay (y, m, d))).
Proof.
  intros Hfixed Hf Hd.
  destruct (fields_range _ _ _ _ Hf) as (Hm & Hd1).
  rewrite (yesterdayString_fields _ _ _ _ Hf). cbv zeta.
  unfold Calendar.UTC, Calendar.LocalTime. rewrite !Hfixed.
  unfold Calendar.isoDate. do 2 f_equal.
  replace (Calendar.MakeDate (Calendar.MakeDay y m d) 0 + offset - Calendar.msPerDay - offset)
    with (Calendar.MakeDate (Calendar.MakeDay y m d) 0 - Calendar.msPerDay) by lia.
  rewrite Day_previous, Day_MakeDate.
  pose proof (MakeDay_precedingDay y m d Hm ltac:(lia)) as Hp.
  destruct (Calendar.precedingDay (y, m, d)) as [[y2 m2] d2].
  destruct Hp as (Hp & Hm2 & Hd2).
  rewrite <- Hp. apply civil_MakeDay; assumption.
Qed.

Lemma Day_shift day shift k :
  k * Calendar.msPerDay <= shift < (k + 1) * Calendar.msPerDay ->
  Calendar.Day (Calendar.MakeDate day 0 + shift) = day + k.
Proof.
  unfold Calendar.Day, Calendar.MakeDate, Calendar.msPerDay. intros H.
  symmetry. apply (Z.div_unique _ _ _ (shift - k * 86400000)); lia.
Qed.

(** X24: on any host, for the string of a calendar date, lines 193-195 give
    the UTC date of the time one local day before midnight UTC of that
    date: 24 hours before, moved by the difference [shift] between the
    offset of the host at that midnight and its offset one local day
    earlier.  That is the preceding calendar day while the offset has not
    fallen in between, and the day before the preceding one when it has
    fallen, as it does when summer time ends. *)
Theorem yesterdayString_shift (date : string) (y m d : Z) :
  Calendar.fields date = Some (y, m, d) -> d <= Calendar.daysInMonth y m ->
  let t := Calendar.MakeDate (Calendar.MakeDay y m d) 0 in
  let shift :=
    Calendar.LocalTZA host t true
    - Calendar.LocalTZA host (Calendar.LocalTime host t - Calendar.msPerDay) false in
  Calendar.yesterdayString host date
  = Some (Calendar.isoDate (t - Calendar.msPerDay + shift))
  /\ (0 <= shift < Calendar.msPerDay ->
      Calendar.yesterdayString host date
      = Some (Calendar.iso (Calendar.precedingDay (y, m, d))))
  /\ (- Calendar.msPerDay <= shift < 0 ->
      Calendar.yesterdayString host date
      = Some (Calendar.iso (Calendar.precedingDay (Calendar.precedingDay (y, m, d))))).
Proof.
  intros Hf Hd. cbv zeta.
  destruct (fields_range _ _ _ _ Hf) as (Hm & Hd1).
  rewrite (yesterdayString_fields _ _ _ _ Hf). cbv zeta.
  set (t := Calendar.MakeDate (Calendar.MakeDay y m d) 0).
  set (shift := Calendar.LocalTZA host t true - _).
  assert (Calendar.UTC host (Calendar.LocalTime host t - Calendar.msPerDay)
          = t + (shift - Calendar.msPerDay)) as ->.
  { unfold Calendar.UTC, Calendar.LocalTime in *. subst shift. ring. }
  split; [do 2 f_equal; lia|].
  pose proof (MakeDay_precedingDay y m d Hm ltac:(lia)) as Hp.
  destruct (Calendar.precedingDay (y, m, d)) as [[y2 m2] d2] eqn:Hprev.
  destruct Hp as (Hp & Hm2 & Hd2).
  unfold Calendar.isoDate. split; intros Hs.
  - unfold t. rewrite (Day_shift _ _ (-1)) by (unfold Calendar.msPerDay in *; lia).
    do 2 f_equal. replace (Calendar.MakeDay y m d + -1) with (Calendar.MakeDay y2 m2 d2) by lia.
    apply civil_MakeDay; assumption.
  - unfold t. rewrite (Day_shift _ _ (-2)) by (unfold Calendar.msPerDay in *; lia).
    do 2 f_equal.
    pose proof (MakeDay_precedingDay y2 m2 d2 Hm2 Hd2) as Hq.
    destruct (Calendar.precedingDay (y2, m2, d2)) as [[y3 m3] d3].
    destruct Hq as (Hq & Hm3 & Hd3).
    replace (Calendar.MakeDay y m d + -2) with (Calendar.MakeDay y3 m3 d3) by lia.
    apply civil_MakeDay; assumption.
Qed.

Lemma digit_digitChar n : Calendar.digit (Calendar.digitChar n) = Some (n mod 10).
Proof.
  unfold Calendar.digit, Calendar.digitChar, JS.charCode.
  pose proof (Z.mod_pos_bound n 10 ltac:(lia)) as Hn.
  rewrite N_ascii_embedding by lia. rewrite Z2N.id by lia.
  destruct (Z.leb_spec 48 (48 + n mod 10)); [|lia].
  destruct (Z.leb_spec (48 + n mod 10) 57); [|lia].
  simpl. f_equal. lia.
Qed.

Lemma digits2_pad n a b :
  0 <= n < 100 -> Calendar.pad2 n = String a (String b EmptyString) ->
  Calendar.digits2 a b = Some n.
Proof.
  intros Hn [= <- <-]. unfold Calendar.digits2. rewrite !digit_digitChar.
  f_equal. Z.div_mod_to_equations. lia.
Qed.

Lemma fields_iso y m d :
  0 <= y <= 9999 -> 1 <= m <= 12 -> 1 <= d <= 31 ->
  Calendar.fields (Calendar.iso (y, m, d)) = Some (y, m, d).
Proof.
  intros Hy Hm Hd. unfold Calendar.iso, Calendar.isoYear.
  destruct (Z.leb_spec 0 y); [|lia]. destruct (Z.leb_spec y 9999); [|lia].
  cbn [andb]. unfold Calendar.pad4, Calendar.pad2.
  cbv beta iota fix delta [String.append].
  unfold Calendar.fields, Calendar.digits4.
  rewrite (digits2_pad (y / 100) _ _ ltac:(Z.div_mod_to_equations; lia) eq_refl).
  unfold Calendar.digits2 at 1. rewrite !digit_digitChar.
  rewrite (digits2_pad m _ _ ltac:(lia) eq_refl), (digits2_pad d _ _ ltac:(lia) eq_refl).
  change (Ascii.eqb "-" "-") with true. cbn [andb].
  destruct (Z.leb_spec 1 m); [|lia]. destruct (Z.leb_spec m 12); [|lia].
  destruct (Z.leb_spec 1 d); [|lia]. destruct (Z.leb_spec d 31); [|lia].
  cbn [andb]. do 2 f_equal. f_equal. Z.div_mod_to_equations. lia.
Qed.

(** On the ISO string of a calendar date, lines 193-195 give the ISO string
    of the calendar day before. *)
Lemma yesterdayString_iso offset ymd :
  Calendar.fixedOffset host offset ->
  Calendar.validDate ymd ->
  Calendar.yesterdayString host (Calendar.iso ymd)
  = Some (Calendar.iso (Calendar.precedingDay ymd)).
Proof.
  destruct ymd as [[y m] d]. intros Hfixed (Hy & Hm & Hd).
  pose proof (daysInMonth_le y m) as Hle.
  apply (yesterdayString_precedingDay offset); [exact Hfixed | apply fields_iso; lia | lia].
Qed.

(** ** The handlers, case by case *)

Lemma updateLeaderboards_run date player won guesses time db :
  updateLeaderboards date player won guesses time db
  = (Done tt,
     if won
     then mkDB (puzzles db) (players db)
            (<[(date, "daily"%string) := ranked db date player guesses time]>
               (leaderboards db))
     else db).
Proof.
  unfold updateLeaderboards, ranked, boardOf, entryOf.
  destruct won; [|reflexivity]. cbn [negb].
  unfold bind, Leaderboard_findOne, Leaderboard_save.
  destruct (leaderboards db !! (date, "daily"%string)); reflexivity.
Qed.

Lemma submit_run req db :
  let playerId := Request.playerId req in
  let date := Request.date req in
  let won := Request.won req in
  let guesses := Request.guesses req in
  let time := Request.time req in
  let player := playerOf db playerId in
  run (submit req) db =
  match existingGame player date with
  | Some _ => (mkResponse 400 (ErrorBody "Already played today"), db)
  | None =>
      match updateStats (Player.stats player) date won guesses time with
      | Thrown e => (mkResponse 500 (ErrorBody e), db)
      | Done stats =>
          if String.eqb (Player.playerId player) ""
          then (mkResponse 500 (ErrorBody playerIdRequired), db)
          else
            let player' := played player stats req in
            let players' := <[playerId := player']> (players db) in
            match puzzles db !! date with
            | None =>
                (mkResponse 500 (ErrorBody missingPuzzle),
                 mkDB (puzzles db) players' (leaderboards db))
            | Some puzzle =>
                let puzzle' := updatePuzzle puzzle player' playerId won guesses time in
                let db2 :=
                  mkDB (<[date := puzzle']> (puzzles db)) players' (leaderboards db) in
                (mkResponse 200
                   (SubmitBody true stats
                      (mkTodayStats (DailyPuzzle.totalPlayers puzzle')
                         (DailyPuzzle.completedPlayers puzzle')
                         (DailyPuzzle.fastestTime puzzle')
                         (DailyPuzzle.averageGuesses puzzle'))),
                 snd (updateLeaderboards date player' won guesses time db2))
            end
      end
  end.
Proof.
  cbv zeta. unfold run, submit, try_catch, bind, Player_findOne, playerOf, existingGame.
  cbv zeta.
  destruct (players db !! Request.playerId req) as [player|];
    (destruct (List.find _ _); [reflexivity|]);
    unfold lift;
    (destruct (updateStats _ _ _ _ _) as [stats|e]; [|reflexivity]);
    unfold Player_save; cbn [Player.playerId];
    (destruct (String.eqb _ ""); [reflexivity|]);
    unfold DailyPuzzle_findOne, DailyPuzzle_save, throw, ret; cbn [puzzles];
    (destruct (puzzles db !! Request.date req) as [puzzle|]; [|reflexivity]);
    rewrite !updateLeaderboards_run; reflexivity.
Qed.

Lemma puzzleToday_run today duplicates db :
  snd (run (puzzleToday today duplicates) db) =
  match puzzles db !! today with
  | Some _ => db
  | None =>
      mkDB (<[today := DailyPuzzle.new today
                         (fst (generateDailyCode today
                                 (bool_decide (duplicates = Some "true"%string)) []))]>
              (puzzles db))
        (players db) (leaderboards db)
  end.
Proof.
  unfold run, puzzleToday, try_catch, bind, DailyPuzzle_findOne, DailyPuzzle_save, ret.
  destruct (puzzles db !! today); reflexivity.
Qed.

(** ** Duplicate submissions and missing puzzles *)

Lemma existingGame_in player date game :
  In game (Player.games player) -> Player.date game = date ->
  exists g, existingGame player date = Some g.
Proof.
  intros Hin Hd. unfold existingGame.
  destruct (List.find _ _) as [g|] eqn:Hf; [exists g; reflexivity|].
  pose proof (find_none _ _ Hf game Hin) as Hn. cbv beta in Hn.
  rewrite Hd, String.eqb_refl in Hn. discriminate.
Qed.

Lemma existingGame_played player stats req :
  exists g, existingGame (played player stats req) (Request.date req) = Some g.
Proof.
  eapply existingGame_in.
  - unfold played. cbn [Player.games]. apply in_or_app. right. left. reflexivity.
  - reflexivity.
Qed.

(** A submission for a date of which the player has a game is rejected, and
    writes nothing. *)
Lemma submit_rejected (req : Request.t) (db : DB) (g : Player.Game) :
  existingGame (playerOf db (Request.playerId req)) (Request.date req) = Some g ->
  run (submit req) db = (mkResponse 400 (ErrorBody "Already played today"), db).
Proof. intros Hg. rewrite submit_run. cbv zeta. rewrite Hg. reflexivity. Qed.

(** C2: when the player already has a game entry for the date, the
    submission is answered with status 400, "Already played today", and the
    database (players, puzzles and leaderboards) is left exactly as it
    was. *)
Theorem submit_already_played (req : Request.t) (db : DB) (player : Player.t)
    (game : Player.Game) :
  players db !! Request.playerId req = Some player ->
  In game (Player.games player) ->
  Player.date game = Request.date req ->
  run (submit req) db = (mkResponse 400 (ErrorBody "Already played today"), db).
Proof.
  intros Hp Hin Hd.
  destruct (existingGame_in player _ game Hin Hd) as [g Hg].
  apply (submit_rejected req db g). unfold playerOf. rewrite Hp. exact Hg.
Qed.

(** A submission that was answered with success is followed by the rejection
    of any other submission of the same player for the same date. *)
Lemma submit_twice (req1 req2 : Request.t) (db : DB) :
  Request.playerId req2 = Request.playerId req1 ->
  Request.date req2 = Request.date req1 ->
  status (fst (run (submit req1) db)) = 200 ->
  run (submit req2) (snd (run (submit req1) db))
  = (mkResponse 400 (ErrorBody "Already played today"), snd (run (submit req1) db)).
Proof.
  intros Hid Hdate. rewrite (submit_run req1). cbv zeta.
  destruct (existingGame _ _); [discriminate|].
  destruct (updateStats _ _ _ _ _) as [stats|e]; [|discriminate].
  destruct (String.eqb (Player.playerId _) "") eqn:Hempty; [discriminate|].
  destruct (puzzles db !! Request.date req1) as [puzzle|]; [|discriminate].
  intros _. cbn [snd]. rewrite updateLeaderboards_run. cbn [snd].
  destruct (existingGame_played (playerOf db (Request.playerId req1)) stats req1)
    as [g Hg].
  apply (submit_rejected req2 _ g). rewrite Hid, Hdate.
  unfold playerOf at 1. destruct (Request.won req1); cbn [players];
    rewrite lookup_insert_eq; exact Hg.
Qed.

(** C1, amended: for a date without a puzzle, the call creates and changes
    no puzzle and no leaderboard; it changes nothing at all when the player
    has a game for the date already, when [toISOString] throws, or when the
    [playerId] of the player is empty, which the schema refuses; otherwise
    the player is written, with the game counted in the stats and appended
    to the history, before the puzzle is looked up. *)
Theorem submit_missing_puzzle (req : Request.t) (db : DB) :
  puzzles db !! Request.date req = None ->
  let player := playerOf db (Request.playerId req) in
  let db' := snd (run (submit req) db) in
  puzzles db' = puzzles db
  /\ leaderboards db' = leaderboards db
  /\ (forall g, existingGame player (Request.date req) = Some g -> db' = db)
  /\ (forall e, updateStats (Player.stats player) (Request.date req) (Request.won req)
                  (Request.guesses req) (Request.time req) = Thrown e -> db' = db)
  /\ (Player.playerId player = ""%string -> db' = db)
  /\ (forall stats,
        existingGame player (Request.date req) = None ->
        updateStats (Player.stats player) (Request.date req) (Request.won req)
          (Request.guesses req) (Request.time req) = Done stats ->
        Player.playerId player <> ""%string ->
        players db' = <[Request.playerId req := played player stats req]> (players db)).
Proof.
  intros Hnone. cbv zeta. rewrite submit_run. cbv zeta. rewrite Hnone.
  destruct (existingGame _ _) as [g|].
  { cbn [snd]. repeat split; try reflexivity. intros stats [=]. }
  destruct (updateStats _ _ _ _ _) as [stats|e]; cbn [snd puzzles leaderboards players].
  - destruct (String.eqb_spec (Player.playerId (playerOf db (Request.playerId req))) "")
      as [Hpid|Hpid]; cbn [snd puzzles leaderboards players].
    + repeat split; try reflexivity. intros stats' _ _ Hne. contradiction.
    + repeat split; try reflexivity.
      * intros g [=].
      * intros e [=].
      * intros Hempty. contradiction.
      * intros stats' _ [= <-] _. reflexivity.
  - repeat split; try reflexivity. intros stats _ [=].
Qed.

(** ** Streaks *)

Lemma submit_players req db :
  let player := playerOf db (Request.playerId req) in
  players (snd (run (submit req) db)) =
  match existingGame player (Request.date req) with
  | Some _ => players db
  | None =>
      match updateStats (Player.stats player) (Request.date req) (Request.won req)
              (Request.guesses req) (Request.time req) with
      | Thrown _ => players db
      | Done stats =>
          if String.eqb (Player.playerId player) "" then players db
          else <[Request.playerId req := played player stats req]> (players db)
      end
  end.
Proof.
  cbv zeta. rewrite submit_run. cbv zeta.
  destruct (existingGame _ _); [reflexivity|].
  destruct (updateStats _ _ _ _ _); [|reflexivity].
  destruct (String.eqb (Player.playerId _) "") eqn:Hempty; [reflexivity|].
  destruct (puzzles db !! Request.date req); [|reflexivity].
  cbn [snd]. rewrite updateLeaderboards_run. cbn [snd].
  destruct (Request.won req); reflexivity.
Qed.

Lemma statsOf_insert db db' playerId player :
  players db' = <[playerId := player]> (players db) ->
  statsOf db' playerId = Player.stats player.
Proof.
  intros H. unfold statsOf, playerOf. rewrite H, lookup_insert_eq. reflexivity.
Qed.

Lemma statsOf_insert_ne db db' playerId other player :
  other <> playerId ->
  players db' = <[other := player]> (players db) ->
  statsOf db' playerId = statsOf db playerId.
Proof.
  intros Hne H. unfold statsOf, playerOf. rewrite H, lookup_insert_ne by exact Hne.
  reflexivity.
Qed.

Lemma statsOf_same db db' playerId :
  players db' = players db -> statsOf db' playerId = statsOf db playerId.
Proof. intros H. unfold statsOf, playerOf. rewrite H. reflexivity. Qed.

(** What lines 186-212 make of the streak fields. *)
Lemma updateStats_streak stats date won guesses time stats' :
  updateStats stats date won guesses time = Done stats' ->
  Player.lastPlayDate stats' = Some date
  /\ (won = false ->
      Player.currentStreak stats' = 0 /\ Player.maxStreak stats' = Player.maxStreak stats)
  /\ (won = true ->
      exists yesterdayString,
        Calendar.yesterdayString host date = Some yesterdayString
        /\ Player.currentStreak stats'
           = (if bool_decide (Player.lastPlayDate stats = Some yesterdayString)
              then Player.currentStreak stats + 1 else 1)
        /\ Player.maxStreak stats'
           = Z.max (Player.maxStreak stats) (Player.currentStreak stats')).
Proof.
  unfold updateStats. destruct won.
  - destruct (Calendar.yesterdayString host date) as [yesterdayString|]; [|discriminate].
    intros [= <-]. cbn. split; [reflexivity|]. split; [discriminate|].
    intros _. exists yesterdayString. auto.
  - intros [= <-]. cbn. split; [reflexivity|]. split; [auto | discriminate].
Qed.

Lemma handle_streak r db playerId :
  streakInv db playerId ->
  let db' := snd (run (handle r) db) in
  streakInv db' playerId
  /\ Player.maxStreak (statsOf db' playerId)
     = Z.max (Player.maxStreak (statsOf db playerId))
             (Player.currentStreak (statsOf db' playerId)).
Proof.
  unfold streakInv. intros Hinv. cbv zeta.
  assert (forall db', players db' = players db ->
            (0 <= Player.currentStreak (statsOf db' playerId)
               <= Player.maxStreak (statsOf db' playerId))
            /\ Player.maxStreak (statsOf db' playerId)
               = Z.max (Player.maxStreak (statsOf db playerId))
                       (Player.currentStreak (statsOf db' playerId))) as Hsame.
  { intros db' H. rewrite (statsOf_same _ _ _ H). lia. }
  destruct r as [today duplicates|req]; cbn [handle].
  - apply Hsame. rewrite puzzleToday_run. destruct (puzzles db !! today); reflexivity.
  - pose proof (submit_players req db) as Hp. cbv zeta in Hp.
    destruct (existingGame _ _); [apply Hsame, Hp|].
    destruct (updateStats _ _ _ _ _) as [stats|e] eqn:Hu; [|apply Hsame, Hp].
    destruct (String.eqb (Player.playerId _) "") eqn:Hempty; [apply Hsame, Hp|].
    destruct (String.eqb_spec (Request.playerId req) playerId) as [Heq|Hne].
    + rewrite Heq in Hp. rewrite (statsOf_insert _ _ _ _ Hp). cbn [played Player.stats].
      destruct (updateStats_streak _ _ _ _ _ _ Hu) as (_ & Hl & Hw).
      rewrite Heq in Hl, Hw. fold (statsOf db playerId) in Hl, Hw.
      destruct (Request.won req).
      * destruct (Hw eq_refl) as (ys & _ & Hc & Hm). rewrite Hm, Hc.
        destruct (bool_decide _); lia.
      * destruct (Hl eq_refl) as [Hc Hm]. rewrite Hc, Hm. lia.
    + rewrite (statsOf_insert_ne _ _ _ _ _ Hne Hp). lia.
Qed.

Lemma runningMax_nonneg l : 0 <= runningMax l.
Proof. induction l as [|x l IH]; unfold runningMax in *; simpl; lia. Qed.

Lemma serve_cons db r rs : serve db (r :: rs) = serve (snd (run (handle r) db)) rs.
Proof. reflexivity. Qed.

Lemma serve_snoc db rs r : serve db (rs ++ [r]) = snd (run (handle r) (serve db rs)).
Proof. unfold serve. rewrite fold_left_app. reflexivity. Qed.

(** [maxStreak] is the running maximum of [currentStreak]. *)
Lemma serve_maxStreak playerId rs : forall db,
  streakInv db playerId ->
  Player.maxStreak (statsOf (serve db rs) playerId)
  = Z.max (Player.maxStreak (statsOf db playerId))
          (runningMax (streakHistory playerId db rs)).
Proof.
  induction rs as [|r rs IH]; intros db Hinv.
  - unfold streakInv in Hinv. cbn. lia.
  - rewrite serve_cons. cbn [streakHistory].
    destruct (handle_streak r db playerId Hinv) as [Hinv' Hmax].
    rewrite (IH _ Hinv'), Hmax. unfold runningMax. cbn [fold_right]. lia.
Qed.

Lemma serve_streakInv playerId rs : forall db,
  streakInv db playerId -> streakInv (serve db rs) playerId.
Proof.
  induction rs as [|r rs IH]; intros db Hinv; [exact Hinv|].
  rewrite serve_cons. apply IH, handle_streak, Hinv.
Qed.

Lemma streakInv_new db playerId : players db !! playerId = None -> streakInv db playerId.
Proof.
  intros H. unfold streakInv, statsOf, playerOf. rewrite H. cbn. lia.
Qed.

(** X23: on a host at a fixed offset from UTC, for every submission that
    passes the duplicate check and the schema, on a date that is the ISO
    string of a calendar day when the game was won: the player is written; a
    won game makes [currentStreak] the old value plus 1 exactly when the
    stored [lastPlayDate] is the ISO string of the calendar day before the
    submitted date, and 1 otherwise; a lost game makes it 0; [maxStreak] is
    the running maximum of its value in a database [db0] and of
    [currentStreak] over the requests handled since, for a player new or
    old; and [lastPlayDate] is the submitted date. *)
Theorem submit_streak (offset : Z) (db0 : DB) (rs : list request) (req : Request.t)
    (y m d : Z) :
  let playerId := Request.playerId req in
  let date := Request.date req in
  let db := serve db0 rs in
  let old := statsOf db playerId in
  let db' := snd (run (submit req) db) in
  let new := statsOf db' playerId in
  Calendar.fixedOffset host offset ->
  streakInv db0 playerId ->
  existingGame (playerOf db playerId) date = None ->
  Player.playerId (playerOf db playerId) <> ""%string ->
  (Request.won req = true ->
   Calendar.fields date = Some (y, m, d) /\ d <= Calendar.daysInMonth y m) ->
  is_Some (players db' !! playerId)
  /\ Player.currentStreak new
     = (if Request.won req
        then if bool_decide (Player.lastPlayDate old
                             = Some (Calendar.iso (Calendar.precedingDay (y, m, d))))
             then Player.currentStreak old + 1
             else 1
        else 0)
  /\ Player.maxStreak new
     = Z.max (Player.maxStreak (statsOf db0 playerId))
             (runningMax (streakHistory playerId db0 (rs ++ [PostSubmit req])))
  /\ Player.maxStreak new = Z.max (Player.maxStreak old) (Player.currentStreak new)
  /\ Player.lastPlayDate new = Some date.
Proof.
  intros playerId date db old db' new Hfixed Hinv0 Hfree Hpid Hdate.
  assert (Player.maxStreak new
          = Z.max (Player.maxStreak (statsOf db0 playerId))
                  (runningMax (streakHistory playerId db0 (rs ++ [PostSubmit req]))))
    as Hrun.
  { subst new db' db.
    change (submit req) with (handle (PostSubmit req)).
    rewrite <- (serve_snoc db0 rs (PostSubmit req)).
    apply (serve_maxStreak playerId _ db0 Hinv0). }
  pose proof (submit_players req db) as Hp. cbv zeta in Hp.
  fold playerId date db' in Hp. rewrite Hfree in Hp.
  assert (exists stats,
            updateStats (Player.stats (playerOf db playerId)) date (Request.won req)
              (Request.guesses req) (Request.time req) = Done stats) as [stats Hu].
  { unfold updateStats. destruct (Request.won req); [|eexists; reflexivity].
    destruct (Hdate eq_refl) as [Hf Hd].
    rewrite (yesterdayString_precedingDay offset _ _ _ _ Hfixed Hf Hd).
    eexists; reflexivity. }
  rewrite Hu in Hp.
  destruct (String.eqb_spec (Player.playerId (playerOf db playerId)) "")
    as [Hempty|_]; [contradiction|].
  assert (new = stats) as Hstats by (apply (statsOf_insert db db' _ _ Hp)).
  destruct (updateStats_streak _ _ _ _ _ _ Hu) as (Hlast & Hl & Hw).
  fold (statsOf db playerId) in Hl, Hw. fold old in Hl, Hw.
  rewrite Hstats in *.
  split; [rewrite Hp, lookup_insert_eq; eexists; reflexivity|].
  destruct (Request.won req).
  - destruct (Hw eq_refl) as (ys & Hys & Hc & Hm).
    destruct (Hdate eq_refl) as [Hf Hd].
    rewrite (yesterdayString_precedingDay offset _ _ _ _ Hfixed Hf Hd) in Hys.
    injection Hys as <-.
    split; [exact Hc|]. split; [exact Hrun|]. split; [exact Hm | exact Hlast].
  - destruct (Hl eq_refl) as [Hc Hm].
    split; [exact Hc|]. split; [exact Hrun|]. split; [|exact Hlast].
    pose proof (serve_streakInv playerId rs db0 Hinv0) as Hold.
    unfold streakInv in Hold. fold db in Hold. fold old in Hold. lia.
Qed.

(** ** Leaderboards *)

Lemma byScore_le a b :
  Qle_bool (byScore a b) 0 = true <-> (Leaderboard.score b <= Leaderboard.score a)%Q.
Proof. rewrite Qle_bool_iff. unfold byScore. split; intros H; lra. Qed.

Lemma Array_insert_perm {A} (compare : A -> A -> Q) x l :
  Permutation (Array_insert compare x l) (x :: l).
Proof.
  induction l as [|y l IH]; [reflexivity|]. cbn [Array_insert].
  destruct (Qle_bool (compare x y) 0); [reflexivity|].
  rewrite IH. apply perm_swap.
Qed.

Lemma Array_sort_perm {A} (compare : A -> A -> Q) l : Permutation (Array_sort compare l) l.
Proof.
  induction l as [|x l IH]; [reflexivity|]. unfold Array_sort in *. cbn [foldr].
  rewrite Array_insert_perm, IH. reflexivity.
Qed.

Lemma Array_insert_descending x l :
  descending l -> descending (Array_insert byScore x l).
Proof.
  unfold descending. induction l as [|y l IH]; intros Hs; cbn [Array_insert].
  - repeat constructor.
  - apply StronglySorted_inv in Hs as [Hs Hy].
    destruct (Qle_bool (byScore x y) 0) eqn:Hc.
    + apply byScore_le in Hc. constructor; [constructor; assumption|].
      constructor; [exact Hc|].
      eapply List.Forall_impl; [|exact Hy]. intros z Hz. cbv beta in *. lra.
    + constructor; [apply IH, Hs|].
      assert (Leaderboard.score x <= Leaderboard.score y)%Q as Hxy.
      { destruct (Qlt_le_dec (Leaderboard.score x) (Leaderboard.score y)) as [Hlt|Hle];
          [lra|]. apply byScore_le in Hle. congruence. }
      rewrite (Array_insert_perm byScore x l). constructor; assumption.
Qed.

Lemma Array_sort_descending l : descending (Array_sort byScore l).
Proof.
  induction l as [|x l IH]; [constructor|].
  unfold Array_sort in *. cbn [foldr]. apply Array_insert_descending, IH.
Qed.

Lemma descending_take n l : descending l -> descending (take n l).
Proof.
  unfold descending. revert l. induction n as [|n IH]; intros [|x l] Hs; cbn [take];
    try constructor.
  - apply IH. apply StronglySorted_inv in Hs. tauto.
  - apply StronglySorted_inv in Hs as [_ Hx]. apply Forall_take, Hx.
Qed.

(** What the cut to 100 drops scores no higher than anything it keeps. *)
Lemma descending_evicts n : forall l x y,
  descending l -> In x (take n l) -> In y (drop n l) ->
  (Leaderboard.score y <= Leaderboard.score x)%Q.
Proof.
  unfold descending. induction n as [|n IH]; intros [|z l] x y Hs Hx Hy;
    cbn [take drop] in *; try contradiction.
  apply StronglySorted_inv in Hs as [Hs Hz]. destruct Hx as [<-|Hx].
  - rewrite List.Forall_forall in Hz. apply Hz.
    rewrite <- (take_drop n l). apply in_or_app. right. exact Hy.
  - exact (IH l x y Hs Hx Hy).
Qed.

Lemma ranked_ok db date player guesses time :
  boardOk (ranked db date player guesses time).
Proof.
  unfold boardOk, ranked. cbn [Leaderboard.entries]. split.
  - apply descending_take, Array_sort_descending.
  - rewrite length_take. lia.
Qed.

Lemma submit_leaderboards req db :
  leaderboards (snd (run (submit req) db)) = leaderboards db
  \/ exists db2 player,
       Request.won req = true
       /\ status (fst (run (submit req) db)) = 200
       /\ leaderboards db2 = leaderboards db
       /\ leaderboards (snd (run (submit req) db))
          = <[(Request.date req, "daily"%string) :=
                ranked db2 (Request.date req) player (Request.guesses req)
                  (Request.time req)]> (leaderboards db).
Proof.
  rewrite submit_run. cbv zeta.
  destruct (existingGame _ _); [left; reflexivity|].
  destruct (updateStats _ _ _ _ _) as [stats|e]; [|left; reflexivity].
  destruct (String.eqb (Player.playerId _) "") eqn:Hempty; [left; reflexivity|].
  destruct (puzzles db !! Request.date req) as [puzzle|]; [|left; reflexivity].
  cbn [fst snd status]. rewrite updateLeaderboards_run. cbn [snd].
  destruct (Request.won req); [|left; reflexivity].
  right. eexists _, _. repeat split.
Qed.

Lemma handle_boardsOk r db : boardsOk db -> boardsOk (snd (run (handle r) db)).
Proof.
  intros Hok. destruct r as [today duplicates|req]; cbn [handle].
  - rewrite puzzleToday_run. destruct (puzzles db !! today); exact Hok.
  - destruct (submit_leaderboards req db) as [Heq|(db2 & player & _ & _ & _ & Heq)];
      unfold boardsOk; rewrite Heq; [exact Hok|].
    intros key board. rewrite lookup_insert. case_decide.
    + intros [= <-]. apply ranked_ok.
    + apply Hok.
Qed.

Lemma serve_boardsOk rs : forall db, boardsOk db -> boardsOk (serve db rs).
Proof.
  induction rs as [|r rs IH]; intros db Hok; [exact Hok|].
  rewrite serve_cons. apply IH, handle_boardsOk, Hok.
Qed.

Lemma emptyDB_boardsOk : boardsOk emptyDB.
Proof. intros key board H. cbn in H. rewrite lookup_empty in H. discriminate. Qed.

(** C4: in every database that the server reaches from the empty one, each
    board has its entries in descending order of score and at most 100 of
    them; [updateLeaderboards] for a won game leaves the daily board of the
    date so, whatever it was; for a lost game it changes nothing, and a
    submission of a lost game leaves every board as it was. *)
Theorem leaderboard_sorted_bounded (rs : list request) :
  let db := serve emptyDB rs in
  (forall key board, leaderboards db !! key = Some board -> boardOk board)
  /\ (forall (any : DB) date player guesses time,
        exists board,
          leaderboards (snd (updateLeaderboards date player true guesses time any))
            !! (date, "daily"%string) = Some board
          /\ boardOk board)
  /\ (forall (any : DB) date player guesses time,
        updateLeaderboards date player false guesses time any = (Done tt, any))
  /\ (forall req,
        Request.won req = false ->
        leaderboards (snd (run (submit req) db)) = leaderboards db).
Proof.
  cbv zeta. split; [|split; [|split]].
  - apply serve_boardsOk, emptyDB_boardsOk.
  - intros any date player guesses time. rewrite updateLeaderboards_run.
    cbn [snd leaderboards]. eexists. split; [apply lookup_insert_eq | apply ranked_ok].
  - intros any date player guesses time. apply updateLeaderboards_run.
  - intros req Hlost.
    destruct (submit_leaderboards req (serve emptyDB rs))
      as [Heq|(db2 & player & Hwon & _)]; [exact Heq | congruence].
Qed.

(** ** Scores *)

Lemma scoreOf_formula guesses time :
  (scoreOf guesses time == 1000 - inject_Z guesses * 100 - inject_Z time / 10)%Q.
Proof. unfold scoreOf. rewrite inject_Z_mult. reflexivity. Qed.

Lemma scoreOf_exact guesses time :
  (scoreOf guesses time == inject_Z (10000 - 1000 * guesses - time) / 10)%Q.
Proof.
  unfold scoreOf, Qeq, Qdiv, Qminus, Qplus, Qopp, Qmult, Qinv, inject_Z. simpl. lia.
Qed.

Lemma scoreOf_guesses guesses guesses' time :
  guesses < guesses' -> (scoreOf guesses' time < scoreOf guesses time)%Q.
Proof.
  intros H. unfold scoreOf. rewrite !inject_Z_mult.
  rewrite Zlt_Qlt in H. change (inject_Z 100) with 100%Q. lra.
Qed.

Lemma scoreOf_time guesses time time' :
  time < time' -> (scoreOf guesses time' < scoreOf guesses time)%Q.
Proof.
  intros H. unfold scoreOf. rewrite Zlt_Qlt in H.
  assert (inject_Z time / 10 < inject_Z time' / 10)%Q; [|lra].
  apply Qmult_lt_r; [reflexivity | exact H].
Qed.

Lemma scoreOf_negative guesses time :
  (scoreOf guesses time < 0)%Q <-> 10000 < 1000 * guesses + time.
Proof.
  unfold scoreOf, Qlt, Qdiv, Qminus, Qplus, Qopp, Qmult, Qinv, inject_Z. simpl. lia.
Qed.

Lemma ranked_entries db date player guesses time e :
  In e (Leaderboard.entries (ranked db date player guesses time)) ->
  e = entryOf player guesses time \/ In e (dailyEntries db date).
Proof.
  unfold ranked, dailyEntries, boardOf. cbn [Leaderboard.entries]. intros Hin.
  assert (In e (Array_sort byScore
                  (Leaderboard.entries
                     match leaderboards db !! (date, "daily"%string) with
                     | Some board => board
                     | None => Leaderboard.mk date "daily" []
                     end ++ [entryOf player guesses time]))) as Hs.
  { rewrite <- (take_drop 100 (Array_sort byScore _)). apply in_or_app. left. exact Hin. }
  apply (Permutation_in _ (Array_sort_perm byScore _)) in Hs.
  apply in_app_or in Hs as [Hold|[<-|[]]]; [right | left; reflexivity].
  destruct (leaderboards db !! (date, "daily"%string)); [exact Hold | destruct Hold].
Qed.

Lemma ranked_new db date player guesses time :
  (length (dailyEntries db date) < 100)%nat ->
  In (entryOf player guesses time)
    (Leaderboard.entries (ranked db date player guesses time)).
Proof.
  unfold ranked, dailyEntries, boardOf. cbn [Leaderboard.entries]. intros Hlen.
  rewrite take_ge.
  - apply (Permutation_in _ (Permutation_sym (Array_sort_perm byScore _))).
    apply in_or_app. right. left. reflexivity.
  - rewrite (Permutation_length (Array_sort_perm byScore _)), length_app. cbn [length].
    destruct (leaderboards db !! (date, "daily"%string)); cbn [Leaderboard.entries] in *;
      cbn [length] in *; lia.
Qed.

(** C8: a won game that is answered with success puts on the daily board of
    its date, when the board has room, an entry whose score is
    [1000 - guesses * 100 - time / 10], and leaves on the board nothing but
    that entry and entries that were there; the score is not clamped (it is
    negative exactly when [1000 * guesses + time] exceeds 10000), and it is
    strictly lower for more guesses and for more time. *)
Theorem leaderboard_score (db : DB) (req : Request.t) (guesses' time' : Z) :
  let date := Request.date req in
  let guesses := Request.guesses req in
  let time := Request.time req in
  let db' := snd (run (submit req) db) in
  Request.won req = true ->
  status (fst (run (submit req) db)) = 200 ->
  guesses < guesses' ->
  time < time' ->
  exists entry,
    (Leaderboard.score entry == 1000 - inject_Z guesses * 100 - inject_Z time / 10)%Q
    /\ Leaderboard.playerId entry
       = Player.playerId (playerOf db (Request.playerId req))
    /\ Leaderboard.guesses entry = guesses
    /\ Leaderboard.time entry = time
    /\ (forall e, In e (dailyEntries db' date) -> e = entry \/ In e (dailyEntries db date))
    /\ ((length (dailyEntries db date) < 100)%nat -> In entry (dailyEntries db' date))
    /\ ((Leaderboard.score entry < 0)%Q <-> 10000 < 1000 * guesses + time)
    /\ (scoreOf guesses' time < Leaderboard.score entry)%Q
    /\ (scoreOf guesses time' < Leaderboard.score entry)%Q.
Proof.
  intros date guesses time db' Hwon Hok Hg Ht. subst db'.
  rewrite submit_run in Hok |- *. cbv zeta in Hok |- *.
  destruct (existingGame _ _); [discriminate|].
  destruct (updateStats _ _ _ _ _) as [stats|e]; [|discriminate].
  destruct (String.eqb (Player.playerId _) "") eqn:Hempty; [discriminate|].
  destruct (puzzles db !! Request.date req) as [puzzle|]; [|discriminate].
  cbn [snd]. rewrite updateLeaderboards_run. cbn [snd]. rewrite Hwon.
  set (player := played _ stats req).
  set (db2 := mkDB _ _ (leaderboards db)).
  assert (dailyEntries db2 date = dailyEntries db date) as Hsame by reflexivity.
  exists (entryOf player guesses time).
  assert (dailyEntries (mkDB (puzzles db2) (players db2)
            (<[(date, "daily"%string) := ranked db2 date player guesses time]>
               (leaderboards db2))) date
          = Leaderboard.entries (ranked db2 date player guesses time)) as Hentries.
  { unfold dailyEntries. cbn [leaderboards]. rewrite lookup_insert_eq. reflexivity. }
  fold date guesses time. rewrite Hentries.
  split; [apply scoreOf_formula|]. split; [reflexivity|].
  split; [reflexivity|]. split; [reflexivity|].
  split; [intros e He; rewrite <- Hsame; apply ranked_entries, He|].
  split; [intros Hlen; apply ranked_new; rewrite Hsame; exact Hlen|].
  cbn [entryOf Leaderboard.score].
  split; [apply scoreOf_negative|].
  split; [apply scoreOf_guesses, Hg | apply scoreOf_time, Ht].
Qed.

(** ** Puzzle aggregates *)








(** ** The clock of the routes *)

(** On a host at a fixed offset, one day back on the clock is one day
    number back. *)
Lemma yesterdayKey_civil offset now :
  Calendar.fixedOffset host offset ->
  yesterdayKey now = Calendar.iso (Calendar.civil (Calendar.Day now - 1)).
Proof.
  intros Hfixed. unfold yesterdayKey, Calendar.isoDate.
  rewrite (setDate_fixed offset) by exact Hfixed.
  replace (now + (Calendar.getDate host now - 1 - Calendar.getDate host now)
                 * Calendar.msPerDay)
    with (now - Calendar.msPerDay) by lia.
  rewrite Day_previous. reflexivity.
Qed.

(** The key of yesterday is then the ISO string of the calendar day before. *)
Lemma yesterdayKey_precedingDay offset now :
  Calendar.fixedOffset host offset ->
  yesterdayKey now
  = Calendar.iso (Calendar.precedingDay (Calendar.civil (Calendar.Day now))).
Proof.
  intros Hfixed. rewrite (yesterdayKey_civil offset) by exact Hfixed. f_equal.
  pose proof (MakeDay_civil (Calendar.Day now)) as Hc.
  destruct (Calendar.civil (Calendar.Day now)) as [[y m] d].
  destruct Hc as (Hday & Hm & Hd).
  pose proof (MakeDay_precedingDay y m d Hm Hd) as Hp.
  destruct (Calendar.precedingDay (y, m, d)) as [[y2 m2] d2].
  destruct Hp as (Hp & Hm2 & Hd2).
  rewrite <- Hday, <- Hp. apply civil_MakeDay; assumption.
Qed.

(** X1: on a host at a fixed offset from UTC, at any time of the clock, the
    date that the route of yesterday's puzzle looks up is the date under
    which the route of today's puzzle stored its puzzle 24 hours earlier,
    and it is the ISO string of the calendar day before today's. *)
Theorem yesterdayKey_todayKey (offset now : Z) :
  Calendar.fixedOffset host offset ->
  yesterdayKey (now + Calendar.msPerDay) = todayKey now
  /\ yesterdayKey now
     = Calendar.iso (Calendar.precedingDay (Calendar.civil (Calendar.Day now))).
Proof.
  intros Hfixed. split; [|apply (yesterdayKey_precedingDay offset), Hfixed].
  rewrite (yesterdayKey_civil offset), Day_next by exact Hfixed.
  unfold todayKey, Calendar.isoDate. do 2 f_equal. lia.
Qed.

Lemma MakeDay_year_low y m d :
  y < 0 -> 1 <= m <= 12 -> d <= 31 -> Calendar.MakeDay y m d < -719528.
Proof.
  intros Hy Hm Hd. unfold Calendar.MakeDay.
  destruct (Z.leb_spec m 2), (Z.ltb_spec 2 m); try lia;
    Z.div_mod_to_equations; lia.
Qed.

Lemma MakeDay_year_high y m d :
  10000 <= y -> 1 <= m <= 12 -> 1 <= d -> 2932897 <= Calendar.MakeDay y m d.
Proof.
  intros Hy Hm Hd. unfold Calendar.MakeDay.
  destruct (Z.leb_spec m 2), (Z.ltb_spec 2 m); try lia;
    Z.div_mod_to_equations; lia.
Qed.

(** The years of the clock from 0 to 9999. *)
Lemma civil_year now :
  -62167219200000 <= now < 253402300800000 ->
  match Calendar.civil (Calendar.Day now) with
  | (y, m, d) => 0 <= y <= 9999 /\ 1 <= m <= 12 /\ 1 <= d <= Calendar.daysInMonth y m
  end.
Proof.
  intros Hnow.
  assert (-719528 <= Calendar.Day now < 2932897) as Hday.
  { unfold Calendar.Day, Calendar.msPerDay. split.
    - apply Z.div_le_lower_bound; lia.
    - apply Z.div_lt_upper_bound; lia. }
  pose proof (MakeDay_civil (Calendar.Day now)) as Hc.
  destruct (Calendar.civil (Calendar.Day now)) as [[y m] d].
  destruct Hc as (Hmk & Hm & Hd). split; [|tauto].
  pose proof (daysInMonth_le y m) as Hle.
  destruct (Z.lt_ge_cases y 0) as [Hneg|Hpos].
  { pose proof (MakeDay_year_low y m d Hneg Hm ltac:(lia)). lia. }
  destruct (Z.le_gt_cases 10000 y) as [Hbig|Hsmall]; [|lia].
  pose proof (MakeDay_year_high y m d Hbig Hm ltac:(lia)). lia.
Qed.

(** X2: on a host at a fixed offset from UTC, while the clock shows a year
    from 0 to 9999, the key of today's puzzle has the form that the
    submission path parses, and from it lines 193-195 compute the key that
    the route of yesterday's puzzle looks up: a submission dated with
    today's key continues a streak exactly from a [lastPlayDate] that is
    yesterday's key. *)
Theorem todayKey_yesterdayString (offset now : Z) :
  Calendar.fixedOffset host offset ->
  -62167219200000 <= now < 253402300800000 ->
  Calendar.fields (todayKey now) = Some (Calendar.civil (Calendar.Day now))
  /\ Calendar.yesterdayString host (todayKey now) = Some (yesterdayKey now).
Proof.
  intros Hfixed Hnow. pose proof (civil_year now Hnow) as Hc.
  rewrite (yesterdayKey_precedingDay offset) by exact Hfixed.
  unfold todayKey, Calendar.isoDate.
  destruct (Calendar.civil (Calendar.Day now)) as [[y m] d].
  destruct Hc as (Hyr & Hm & Hd). pose proof (daysInMonth_le y m) as Hle.
  assert (Calendar.fields (Calendar.iso (y, m, d)) = Some (y, m, d)) as Hf
    by (apply fields_iso; lia).
  split; [exact Hf|].
  apply (yesterdayString_precedingDay offset); [exact Hfixed | exact Hf | lia].
Qed.

(** ** The database after a request *)

Lemma submit_db req db :
  let playerId := Request.playerId req in
  let date := Request.date req in
  let won := Request.won req in
  let guesses := Request.guesses req in
  let time := Request.time req in
  let player := playerOf db playerId in
  snd (run (submit req) db) =
  match existingGame player date with
  | Some _ => db
  | None =>
      match updateStats (Player.stats player) date won guesses time with
      | Thrown _ => db
      | Done stats =>
          if String.eqb (Player.playerId player) "" then db
          else
            let player' := played player stats req in
            let players' := <[playerId := player']> (players db) in
            match puzzles db !! date with
            | None => mkDB (puzzles db) players' (leaderboards db)
            | Some puzzle =>
                mkDB
                  (<[date := updatePuzzle puzzle player' playerId won guesses time]>
                     (puzzles db))
                  players'
                  (if won
                   then <[(date, "daily"%string) := ranked db date player' guesses time]>
                          (leaderboards db)
                   else leaderboards db)
            end
      end
  end.
Proof.
  cbv zeta. rewrite submit_run. cbv zeta.
  destruct (existingGame _ _); [reflexivity|].
  destruct (updateStats _ _ _ _ _) as [stats|e]; [|reflexivity].
  destruct (String.eqb (Player.playerId _) "") eqn:Hempty; [reflexivity|].
  destruct (puzzles db !! Request.date req) as [puzzle|]; [|reflexivity].
  cbn [snd]. rewrite updateLeaderboards_run. cbn [snd].
  destruct (Request.won req); reflexivity.
Qed.

(** What holds of the empty database and is kept by every request holds of
    every database the server reaches. *)
Lemma serve_invariant (P : DB -> Prop) :
  P emptyDB ->
  (forall r db, P db -> P (snd (run (handle r) db))) ->
  forall rs, P (serve emptyDB rs).
Proof.
  intros H0 Hstep rs. generalize emptyDB H0. induction rs as [|r rs IH]; intros db Hdb.
  - exact Hdb.
  - rewrite serve_cons. apply IH, Hstep, Hdb.
Qed.

Lemma updatePuzzle_keeps puzzle player playerId won guesses time :
  keeps puzzle (updatePuzzle puzzle player playerId won guesses time).
Proof. unfold keeps, updatePuzzle. destruct won; cbn; repeat split; lia. Qed.

Lemma keeps_refl puzzle : keeps puzzle puzzle.
Proof. unfold keeps. repeat split; lia. Qed.

Lemma keeps_trans a b c : keeps a b -> keeps b c -> keeps a c.
Proof. unfold keeps. intros (? & ? & ? & ?) (? & ? & ? & ?). repeat split; try congruence; lia. Qed.

Lemma handle_keeps r db date puzzle :
  puzzles db !! date = Some puzzle ->
  exists puzzle', puzzles (snd (run (handle r) db)) !! date = Some puzzle'
                  /\ keeps puzzle puzzle'.
Proof.
  intros Hp. destruct r as [today duplicates|req]; cbn [handle].
  - rewrite puzzleToday_run. destruct (puzzles db !! today) eqn:Ht.
    + exists puzzle. split; [exact Hp | apply keeps_refl].
    + cbn [puzzles]. exists puzzle. split; [|apply keeps_refl].
      rewrite lookup_insert_ne; [exact Hp | congruence].
  - rewrite submit_db. cbv zeta.
    destruct (existingGame _ _); [exists puzzle; split; [exact Hp | apply keeps_refl]|].
    destruct (updateStats _ _ _ _ _) as [stats|e];
      [|exists puzzle; split; [exact Hp | apply keeps_refl]].
    destruct (String.eqb (Player.playerId _) "");
      [exists puzzle; split; [exact Hp | apply keeps_refl]|].
    destruct (puzzles db !! Request.date req) as [found|] eqn:Hf; cbn [puzzles];
      [|exists puzzle; split; [exact Hp | apply keeps_refl]].
    destruct (decide (Request.date req = date)) as [<-|Hne].
    + rewrite lookup_insert_eq. eexists. split; [reflexivity|].
      assert (found = puzzle) as -> by congruence. apply updatePuzzle_keeps.
    + rewrite lookup_insert_ne by exact Hne.
      exists puzzle. split; [exact Hp | apply keeps_refl].
Qed.

Lemma serve_keeps rs : forall db date puzzle,
  puzzles db !! date = Some puzzle ->
  exists puzzle', puzzles (serve db rs) !! date = Some puzzle' /\ keeps puzzle puzzle'.
Proof.
  induction rs as [|r rs IH]; intros db date puzzle Hp.
  - exists puzzle. split; [exact Hp | apply keeps_refl].
  - rewrite serve_cons.
    destruct (handle_keeps r db date puzzle Hp) as (mid & Hmid & Hk).
    destruct (IH _ _ _ Hmid) as (puzzle' & Hp' & Hk').
    exists puzzle'. split; [exact Hp' | exact (keeps_trans _ _ _ Hk Hk')].
Qed.

(** X3: a puzzle, once stored, stays: whatever requests follow, its date has
    a puzzle with the same date field and the same solution, and with
    counters of players and of completed players that are not lower. *)
Theorem puzzle_permanent (db : DB) (rs : list request) (date : string)
    (puzzle : DailyPuzzle.t) :
  puzzles db !! date = Some puzzle ->
  exists puzzle',
    puzzles (serve db rs) !! date = Some puzzle'
    /\ DailyPuzzle.date puzzle' = DailyPuzzle.date puzzle
    /\ DailyPuzzle.solution puzzle' = DailyPuzzle.solution puzzle
    /\ DailyPuzzle.totalPlayers puzzle <= DailyPuzzle.totalPlayers puzzle'
    /\ DailyPuzzle.completedPlayers puzzle <= DailyPuzzle.completedPlayers puzzle'.
Proof. intros Hp. exact (serve_keeps rs db date puzzle Hp). Qed.

(** ** Today's and yesterday's puzzle *)

Lemma puzzleToday_found today duplicates db puzzle :
  puzzles db !! today = Some puzzle ->
  run (puzzleToday today duplicates) db
  = (mkResponse 200
       (PuzzleBody (DailyPuzzle.date puzzle)
          (mkTodayStats (DailyPuzzle.totalPlayers puzzle)
             (DailyPuzzle.completedPlayers puzzle) (DailyPuzzle.fastestTime puzzle)
             (DailyPuzzle.averageGuesses puzzle))), db).
Proof.
  intros Hp.
  unfold run, puzzleToday, try_catch, bind, DailyPuzzle_findOne, DailyPuzzle_save, ret.
  rewrite Hp. reflexivity.
Qed.

Lemma puzzleToday_created today duplicates db :
  puzzles db !! today = None ->
  let puzzle :=
    DailyPuzzle.new today
      (fst (generateDailyCode today (bool_decide (duplicates = Some "true"%string)) [])) in
  run (puzzleToday today duplicates) db
  = (mkResponse 200 (PuzzleBody today (mkTodayStats 0 0 None 0%Q)),
     mkDB (<[today := puzzle]> (puzzles db)) (players db) (leaderboards db)).
Proof.
  intros Hp.
  unfold run, puzzleToday, try_catch, bind, DailyPuzzle_findOne, DailyPuzzle_save, ret.
  rewrite Hp. reflexivity.
Qed.

(** X4: the route of today's puzzle gets or creates: it always answers with
    status 200; it leaves the database as it is when the date has a puzzle;
    and a second call for the same date, whatever its [duplicates] flag,
    changes nothing and gives the answer of the first. *)
Theorem puzzleToday_idempotent (today : string) (first second : option string)
    (db : DB) :
  let once := run (puzzleToday today first) db in
  status (fst once) = 200
  /\ (forall puzzle, puzzles db !! today = Some puzzle -> snd once = db)
  /\ run (puzzleToday today second) (snd once) = (fst once, snd once).
Proof.
  cbv zeta. destruct (puzzles db !! today) as [puzzle|] eqn:Hp.
  - rewrite (puzzleToday_found today first db puzzle Hp). cbn [fst snd status].
    split; [reflexivity|]. split; [reflexivity|].
    apply (puzzleToday_found today second db puzzle Hp).
  - rewrite (puzzleToday_created today first db Hp). cbn [fst snd status].
    split; [reflexivity|]. split; [intros puzzle [=]|].
    set (puzzle := DailyPuzzle.new today _).
    rewrite (puzzleToday_found today second _ puzzle); [reflexivity|].
    cbn [puzzles]. apply lookup_insert_eq.
Qed.

Lemma puzzleYesterday_run dateString db :
  puzzleYesterday dateString db =
  (Done match puzzles db !! dateString with
        | Some puzzle =>
            mkYesterdayResponse 200
              (YesterdayPuzzle (DailyPuzzle.date puzzle) (DailyPuzzle.solution puzzle)
                 (mkTodayStats (DailyPuzzle.totalPlayers puzzle)
                    (DailyPuzzle.completedPlayers puzzle)
                    (DailyPuzzle.fastestTime puzzle)
                    (DailyPuzzle.averageGuesses puzzle)))
        | None => mkYesterdayResponse 404 (YesterdayError "Yesterday's puzzle not found")
        end, db).
Proof.
  unfold puzzleYesterday, try_catch, bind, DailyPuzzle_findOne, ret.
  destruct (puzzles db !! dateString); reflexivity.
Qed.

(** X5: on a host at a fixed offset from UTC, the solution that the route
    of today's puzzle generated at a time of the clock is what the route of
    yesterday's puzzle reveals 24 hours later, whatever requests were
    handled in between: it answers with status 200, the date of that day and
    the code of the generator for it, and leaves the database as it is. *)
Theorem puzzleYesterday_reveals (offset now : Z) (duplicates : option string) (db : DB)
    (rs : list request) :
  Calendar.fixedOffset host offset ->
  puzzles db !! todayKey now = None ->
  let created := snd (run (puzzleToday (todayKey now) duplicates) db) in
  let later := serve created rs in
  exists stats,
    puzzleYesterday (yesterdayKey (now + Calendar.msPerDay)) later
    = (Done (mkYesterdayResponse 200
               (YesterdayPuzzle (todayKey now)
                  (fst (generateDailyCode (todayKey now)
                          (bool_decide (duplicates = Some "true"%string)) []))
                  stats)),
       later).
Proof.
  intros Hfixed Hnone. cbv zeta.
  rewrite (puzzleToday_created _ duplicates db Hnone). cbn [snd].
  rewrite (yesterdayKey_civil offset), Day_next by exact Hfixed.
  replace (Calendar.Day now + 1 - 1) with (Calendar.Day now) by lia.
  fold (Calendar.isoDate now). fold (todayKey now).
  set (created := mkDB _ _ _).
  destruct (serve_keeps rs created (todayKey now) _ (lookup_insert_eq _ _ _))
    as (puzzle' & Hp & Hd & Hs & _).
  rewrite puzzleYesterday_run, Hp. cbn [DailyPuzzle.new DailyPuzzle.date DailyPuzzle.solution] in Hd, Hs.
  rewrite Hd, Hs. eexists. reflexivity.
Qed.

(** ** Players and their history *)

Lemma existingGame_none player date :
  existingGame player date = None -> ~ In date (map Player.date (Player.games player)).
Proof.
  unfold existingGame. intros Hf Hin. apply in_map_iff in Hin as (g & Hd & Hg).
  pose proof (find_none _ _ Hf g Hg) as Hn. cbv beta in Hn.
  rewrite Hd, String.eqb_refl in Hn. discriminate.
Qed.

Lemma wonGames_snoc games g :
  wonGames (games ++ [g]) = wonGames games ++ (if Player.won g then [g] else []).
Proof. unfold wonGames. rewrite List.filter_app. cbn. destruct (Player.won g); reflexivity. Qed.

Lemma sumGuesses_snoc games g : sumGuesses (games ++ [g]) = sumGuesses games + Player.guesses g.
Proof. unfold sumGuesses. rewrite fold_left_app. reflexivity. Qed.

Lemma leastTime_snoc games g :
  leastTime (games ++ [g])
  = Some match leastTime games with
         | Some f => Z.min f (Player.time g)
         | None => Player.time g
         end.
Proof. unfold leastTime. rewrite fold_left_app. reflexivity. Qed.

Lemma leastTime_positive games f :
  Forall (fun g => 0 < Player.time g) games -> leastTime games = Some f -> 0 < f.
Proof.
  revert f. induction games as [|g games IH] using rev_ind; intros f Hall Hf;
    [discriminate|].
  rewrite leastTime_snoc in Hf. apply Forall_app in Hall as [Hall Hg].
  apply Forall_inv in Hg. destruct (leastTime games) as [f'|] eqn:E.
  - specialize (IH f' Hall eq_refl). injection Hf as <-. lia.
  - injection Hf as <-. exact Hg.
Qed.

Lemma playerOk_new playerId : playerOk playerId (Player.new playerId).
Proof.
  unfold playerOk, Player.new. cbn. repeat split; try lia.
  apply List.NoDup_nil.
Qed.

(** What lines 186-212 make of the counters. *)
Lemma updateStats_counters stats date won guesses time stats' :
  updateStats stats date won guesses time = Done stats' ->
  Player.gamesPlayed stats' = Player.gamesPlayed stats + 1
  /\ Player.gamesWon stats' = Player.gamesWon stats + (if won then 1 else 0)
  /\ Player.totalGuesses stats' = Player.totalGuesses stats + (if won then guesses else 0)
  /\ Player.fastestTime stats'
     = (if won && improves time (Player.fastestTime stats) then Some time
        else Player.fastestTime stats).
Proof.
  unfold updateStats. destruct won.
  - destruct (Calendar.yesterdayString host date); [|discriminate].
    intros [= <-]. cbn. repeat split.
  - intros [= <-]. cbn. repeat split; lia.
Qed.

Lemma playerOk_played playerId player stats req :
  playerOk playerId player ->
  existingGame player (Request.date req) = None ->
  updateStats (Player.stats player) (Request.date req) (Request.won req)
    (Request.guesses req) (Request.time req) = Done stats ->
  playerOk playerId (played player stats req).
Proof.
  intros (Hid & Hnd & Hgp & Hgw & Htg & Hlast & Hcur & Hmax & Hfast) Hfree Hu.
  destruct (updateStats_counters _ _ _ _ _ _ Hu) as (Ugp & Ugw & Utg & Uf).
  destruct (updateStats_streak _ _ _ _ _ _ Hu) as (Ulast & Ul & Uw).
  unfold playerOk, played. cbn [Player.playerId Player.stats Player.games].
  set (game := Player.mkGame _ _ _ _ _).
  assert (Player.won game = Request.won req) as Hwon by reflexivity.
  rewrite wonGames_snoc, Hwon.
  split; [exact Hid|]. split.
  { rewrite map_app. apply List.NoDup_app; [exact Hnd| |].
    - cbn. apply List.NoDup_cons; [intros [] | apply List.NoDup_nil].
    - intros d Hd [<-|[]]. exact (existingGame_none _ _ Hfree Hd). }
  split; [rewrite Ugp, Hgp, length_app; cbn; lia|].
  split; [rewrite Ugw, Hgw; destruct (Request.won req);
          rewrite ?length_app, ?app_nil_r; cbn; lia|].
  split; [rewrite Utg, Htg; destruct (Request.won req);
          rewrite ?sumGuesses_snoc, ?app_nil_r; cbn; lia|].
  split; [rewrite Ulast; unfold lastDate; rewrite last_snoc; reflexivity|].
  assert (0 <= Player.gamesWon (Player.stats player)) as Hnn by lia.
  destruct (Request.won req).
  - destruct (Uw eq_refl) as (ys & _ & Hc & Hm).
    split; [rewrite Hm, Hc; destruct (bool_decide _); lia|].
    split; [rewrite Hm, Hc, Ugw; destruct (bool_decide _); lia|].
    intros Hall. apply Forall_app in Hall as [Hall Hg]. apply Forall_inv in Hg.
    rewrite Uf, leastTime_snoc, <- (Hfast Hall). cbn [andb]. unfold improves.
    destruct (Player.fastestTime (Player.stats player)) as [f|] eqn:Ef; [|reflexivity].
    assert (0 < f) by (apply (leastTime_positive _ f Hall); rewrite <- Hfast by exact Hall;
                       reflexivity).
    destruct (Z.eqb_spec f 0); [lia|]. cbn [orb].
    change (Player.time game) with (Request.time req).
    destruct (Z.ltb_spec (Request.time req) f); f_equal; lia.
  - destruct (Ul eq_refl) as [Hc Hm]. rewrite Hc, Hm, Ugw, Uf, app_nil_r. cbn [andb].
    split; [lia|]. split; [lia|]. exact Hfast.
Qed.

Lemma handle_playersOk r db : playersOk db -> playersOk (snd (run (handle r) db)).
Proof.
  intros Hok. destruct r as [today duplicates|req]; cbn [handle].
  - rewrite puzzleToday_run. destruct (puzzles db !! today); exact Hok.
  - unfold playersOk. rewrite submit_players. cbv zeta.
    destruct (existingGame _ _) eqn:Hfree; [exact Hok|].
    destruct (updateStats _ _ _ _ _) as [stats|e] eqn:Hu; [|exact Hok].
    destruct (String.eqb (Player.playerId _) "") eqn:Hempty; [exact Hok|].
    intros playerId player. rewrite lookup_insert. case_decide as Hk.
    + intros [= <-]. subst playerId. apply playerOk_played; [|exact Hfree|exact Hu].
      unfold playerOf. destruct (players db !! Request.playerId req) eqn:Hp.
      * exact (Hok _ _ Hp).
      * apply playerOk_new.
    + apply Hok.
Qed.

Lemma emptyDB_playersOk : playersOk emptyDB.
Proof. intros playerId player H. cbn in H. rewrite lookup_empty in H. discriminate. Qed.

Lemma serve_playersOk rs : playersOk (serve emptyDB rs).
Proof. apply serve_invariant; [apply emptyDB_playersOk | apply handle_playersOk]. Qed.

(** X6: in every database that the server reaches from the empty one, a
    player is stored under its own [playerId] and has at most one game for a
    date: the dates of its history are pairwise distinct. *)
Theorem one_game_per_date (rs : list request) (playerId : string) (player : Player.t) :
  players (serve emptyDB rs) !! playerId = Some player ->
  Player.playerId player = playerId
  /\ List.NoDup (map Player.date (Player.games player)).
Proof.
  intros Hp. destruct (serve_playersOk rs playerId player Hp) as (Hid & Hnd & _).
  split; assumption.
Qed.

(** X7: in every database that the server reaches from the empty one, the
    stats of a player are those of its history: [gamesPlayed] is the number
    of games, [gamesWon] the number of won games, [totalGuesses] the sum of
    the guesses of the won games, [lastPlayDate] the date of the last game,
    and [0 <= currentStreak <= maxStreak <= gamesWon <= gamesPlayed]. *)
Theorem stats_mirror_history (rs : list request) (playerId : string) (player : Player.t) :
  players (serve emptyDB rs) !! playerId = Some player ->
  let stats := Player.stats player in
  let games := Player.games player in
  Player.gamesPlayed stats = Z.of_nat (length games)
  /\ Player.gamesWon stats = Z.of_nat (length (wonGames games))
  /\ Player.totalGuesses stats = sumGuesses (wonGames games)
  /\ Player.lastPlayDate stats = lastDate games
  /\ 0 <= Player.currentStreak stats <= Player.maxStreak stats
  /\ Player.maxStreak stats <= Player.gamesWon stats <= Player.gamesPlayed stats.
Proof.
  intros Hp. cbv zeta.
  destruct (serve_playersOk rs playerId player Hp)
    as (_ & _ & Hgp & Hgw & Htg & Hlast & Hcur & Hmax & _).
  repeat split; try assumption; try lia.
  rewrite Hgw, Hgp. unfold wonGames.
  pose proof (List.filter_length_le Player.won (Player.games player)). lia.
Qed.

(** X8: in every database that the server reaches from the empty one, the
    [fastestTime] of a player whose won games all took a positive time is
    the least time of its won games, and unset when it won none. *)
Theorem fastestTime_least (rs : list request) (playerId : string) (player : Player.t) :
  players (serve emptyDB rs) !! playerId = Some player ->
  Forall (fun g => 0 < Player.time g) (wonGames (Player.games player)) ->
  Player.fastestTime (Player.stats player) = leastTime (wonGames (Player.games player)).
Proof.
  intros Hp Hall.
  destruct (serve_playersOk rs playerId player Hp) as (_ & _ & _ & _ & _ & _ & _ & _ & Hf).
  exact (Hf Hall).
Qed.

(** ** Puzzles and boards *)

Lemma updatePuzzle_wf date puzzle player playerId won guesses time :
  puzzleWf date puzzle ->
  puzzleWf date (updatePuzzle puzzle player playerId won guesses time)
  /\ DailyPuzzle.completedPlayers (updatePuzzle puzzle player playerId won guesses time)
     = DailyPuzzle.completedPlayers puzzle + (if won then 1 else 0).
Proof.
  intros (Hd & Hs & Hc). unfold puzzleWf, updatePuzzle.
  destruct won; cbn; repeat split; try assumption; lia.
Qed.

Lemma dailyEntries_insert db puzzles' players' date board :
  dailyEntries (mkDB puzzles' players' (<[(date, "daily"%string) := board]> (leaderboards db)))
    date = Leaderboard.entries board.
Proof. unfold dailyEntries. cbn [leaderboards]. rewrite lookup_insert_eq. reflexivity. Qed.

Lemma dailyEntries_insert_ne db puzzles' players' date other board :
  other <> date ->
  dailyEntries (mkDB puzzles' players' (<[(other, "daily"%string) := board]> (leaderboards db)))
    date = dailyEntries db date.
Proof.
  intros Hne. unfold dailyEntries. cbn [leaderboards].
  rewrite lookup_insert_ne; [reflexivity | congruence].
Qed.

Lemma dailyEntries_same db puzzles' players' date :
  dailyEntries (mkDB puzzles' players' (leaderboards db)) date = dailyEntries db date.
Proof. reflexivity. Qed.

Lemma ranked_length db date player guesses time :
  length (Leaderboard.entries (ranked db date player guesses time))
  = Nat.min 100 (length (dailyEntries db date) + 1).
Proof.
  unfold ranked, dailyEntries, boardOf. cbn [Leaderboard.entries].
  rewrite length_take, (Permutation_length (Array_sort_perm byScore _)), length_app.
  cbn [length]. destruct (leaderboards db !! (date, "daily"%string)); reflexivity.
Qed.

Lemma ranked_fields db date player guesses time :
  (forall board, leaderboards db !! (date, "daily"%string) = Some board ->
                 Leaderboard.date board = date /\ Leaderboard.type board = "daily"%string) ->
  Leaderboard.date (ranked db date player guesses time) = date
  /\ Leaderboard.type (ranked db date player guesses time) = "daily"%string.
Proof.
  intros Hb. unfold ranked, boardOf. cbn [Leaderboard.date Leaderboard.type].
  destruct (leaderboards db !! (date, "daily"%string)) as [board|]; [|split; reflexivity].
  exact (Hb board eq_refl).
Qed.

Lemma handle_storeOk r db : storeOk db -> storeOk (snd (run (handle r) db)).
Proof.
  intros [Hpz Hbd].
  assert (forall date board, leaderboards db !! (date, "daily"%string) = Some board ->
            Leaderboard.date board = date /\ Leaderboard.type board = "daily"%string)
    as Hkey.
  { intros date board Hb. destruct (Hbd _ _ Hb) as (Hk & Ht & _).
    split; [congruence | exact Ht]. }
  destruct r as [today duplicates|req]; cbn [handle].
  - rewrite puzzleToday_run. destruct (puzzles db !! today) eqn:Ht; [split; assumption|].
    split; cbn [puzzles leaderboards].
    + intros date puzzle. rewrite lookup_insert. case_decide as Hk.
      * intros [= <-]. subst date. split.
        -- unfold puzzleWf, DailyPuzzle.new. cbn. split; [reflexivity|].
           split; [eexists; reflexivity | lia].
        -- rewrite dailyEntries_same. unfold dailyEntries, DailyPuzzle.new. cbn.
           destruct (leaderboards db !! (today, "daily"%string)) as [board|] eqn:Hb;
             [|reflexivity].
           destruct (Hbd _ _ Hb) as (Hk & _ & [p Hp]).
           assert (Leaderboard.date board = today) as E by congruence.
           rewrite E in Hp. congruence.
      * intros Hp. rewrite dailyEntries_same. exact (Hpz _ _ Hp).
    + intros key board Hb. destruct (Hbd _ _ Hb) as (Hk & Hty & [p Hp]).
      split; [exact Hk|]. split; [exact Hty|].
      rewrite lookup_insert. case_decide; eexists; [reflexivity | exact Hp].
  - rewrite submit_db. cbv zeta.
    destruct (existingGame _ _); [split; assumption|].
    destruct (updateStats _ _ _ _ _) as [stats|e]; [|split; assumption].
    destruct (String.eqb (Player.playerId _) "") eqn:Hempty; [split; assumption|].
    destruct (puzzles db !! Request.date req) as [found|] eqn:Hf; [|split; assumption].
    destruct (Hpz _ _ Hf) as [Hwf Hcount].
    set (player' := played _ stats req).
    destruct (updatePuzzle_wf _ found player' (Request.playerId req) (Request.won req)
                (Request.guesses req) (Request.time req) Hwf) as [Hwf' Hc'].
    split; cbn [puzzles leaderboards].
    + intros date puzzle. rewrite lookup_insert. case_decide as Hk.
      * intros [= <-]. subst date. split; [exact Hwf'|]. rewrite Hc'.
        destruct Hwf as (_ & _ & Hc).
        destruct (Request.won req).
        -- rewrite dailyEntries_insert, ranked_length. lia.
        -- rewrite dailyEntries_same. lia.
      * intros Hp. destruct (Request.won req).
        -- rewrite dailyEntries_insert_ne by exact Hk. exact (Hpz _ _ Hp).
        -- rewrite dailyEntries_same. exact (Hpz _ _ Hp).
    + assert (forall key board, leaderboards db !! key = Some board ->
                key = (Leaderboard.date board, "daily"%string)
                /\ Leaderboard.type board = "daily"%string
                /\ is_Some (<[Request.date req :=
                              updatePuzzle found player' (Request.playerId req)
                                (Request.won req) (Request.guesses req)
                                (Request.time req)]> (puzzles db)
                            !! Leaderboard.date board)) as Hold.
      { intros key board Hb. destruct (Hbd _ _ Hb) as (Hk & Hty & [p Hp]).
        split; [exact Hk|]. split; [exact Hty|].
        rewrite lookup_insert. case_decide; eexists; [reflexivity | exact Hp]. }
      destruct (Request.won req); [|exact Hold].
      intros key board. rewrite lookup_insert. case_decide as Hk; [|apply Hold].
      intros [= <-].
      destruct (ranked_fields db (Request.date req) player' (Request.guesses req)
                  (Request.time req) (Hkey _)) as [Hd Hty].
      rewrite Hd. split; [symmetry; exact Hk|]. split; [exact Hty|].
      rewrite lookup_insert_eq. eexists; reflexivity.
Qed.

Lemma emptyDB_storeOk : storeOk emptyDB.
Proof.
  split.
  - intros date puzzle H. cbn in H. rewrite lookup_empty in H. discriminate.
  - intros key board H. cbn in H. rewrite lookup_empty in H. discriminate.
Qed.

Lemma serve_storeOk rs : storeOk (serve emptyDB rs).
Proof. apply serve_invariant; [apply emptyDB_storeOk | apply handle_storeOk]. Qed.

(** X9: in every database that the server reaches from the empty one, a
    puzzle is stored under its own date, its solution is the code of the
    generator for that date (with or without duplicates), hence 4 numbers
    within 1..6, and its completed players are not more than its players. *)
Theorem puzzles_generated (rs : list request) (date : string) (puzzle : DailyPuzzle.t) :
  puzzles (serve emptyDB rs) !! date = Some puzzle ->
  DailyPuzzle.date puzzle = date
  /\ (exists allowDuplicates,
        DailyPuzzle.solution puzzle = fst (generateDailyCode date allowDuplicates []))
  /\ (exists a b c d,
        DailyPuzzle.solution puzzle = [Num a; Num b; Num c; Num d]
        /\ Forall (fun x => 1 <= x <= 6) [a; b; c; d])
  /\ 0 <= DailyPuzzle.completedPlayers puzzle <= DailyPuzzle.totalPlayers puzzle.
Proof.
  intros Hp. destruct (serve_storeOk rs) as [Hpz _].
  destruct (Hpz _ _ Hp) as [(Hd & [dup Hs] & Hc) _].
  split; [exact Hd|]. split; [exists dup; exact Hs|]. split; [|exact Hc].
  rewrite Hs, generateDailyCode_own. cbn [fst].
  destruct (drawn_code4 _ _ (drawn_iter dup date 4 ltac:(lia)))
    as (a & b & c & d & Hcode & Hr & _).
  exists a, b, c, d. split; assumption.
Qed.

(** X10: in every database that the server reaches from the empty one,
    every board is a daily board, stored under its own date, of a date that
    has a puzzle; no weekly and no all-time board is ever stored. *)
Theorem only_daily_boards (rs : list request) (date type : string)
    (board : Leaderboard.t) :
  leaderboards (serve emptyDB rs) !! (date, type) = Some board ->
  type = "daily"%string
  /\ Leaderboard.date board = date
  /\ Leaderboard.type board = "daily"%string
  /\ is_Some (puzzles (serve emptyDB rs) !! date).
Proof.
  intros Hb. destruct (serve_storeOk rs) as [_ Hbd].
  destruct (Hbd _ _ Hb) as (Hk & Hty & Hp). injection Hk as Hd Ht.
  rewrite <- Hd in Hp. auto.
Qed.

(** X11: in every database that the server reaches from the empty one, the
    daily board of a date that has a puzzle holds as many entries as the
    puzzle has completed players, up to 100; none when nobody completed it. *)
Theorem entries_count (rs : list request) (date : string) (puzzle : DailyPuzzle.t) :
  puzzles (serve emptyDB rs) !! date = Some puzzle ->
  Z.of_nat (length (dailyEntries (serve emptyDB rs) date))
  = Z.min 100 (DailyPuzzle.completedPlayers puzzle).
Proof.
  intros Hp. destruct (serve_storeOk rs) as [Hpz _]. exact (proj2 (Hpz _ _ Hp)).
Qed.

(** ** Entries and games *)

Lemma backed_insert db puzzles' boards' playerId (player' : Player.t) date e :
  (forall old, players db !! playerId = Some old ->
               forall g, In g (Player.games old) -> In g (Player.games player')) ->
  backed db date e ->
  backed (mkDB puzzles' (<[playerId := player']> (players db)) boards') date e.
Proof.
  intros Hgrow (Hs & p & g & Hp & Hg & Hrest). split; [exact Hs|]. cbn [players].
  destruct (decide (playerId = Leaderboard.playerId e)) as [Heq|Hne].
  - subst playerId. exists player', g. rewrite lookup_insert_eq. split; [reflexivity|].
    split; [exact (Hgrow p Hp g Hg) | exact Hrest].
  - exists p, g. rewrite lookup_insert_ne by exact Hne. auto.
Qed.

Lemma handle_entriesOk r db : entriesOk db -> entriesOk (snd (run (handle r) db)).
Proof.
  intros [Hid Hbk]. destruct r as [today duplicates|req]; cbn [handle].
  - rewrite puzzleToday_run. destruct (puzzles db !! today); split; assumption.
  - rewrite submit_db. cbv zeta.
    destruct (existingGame _ _); [split; assumption|].
    destruct (updateStats _ _ _ _ _) as [stats|e]; [|split; assumption].
    destruct (String.eqb (Player.playerId _) "") eqn:Hempty; [split; assumption|].
    set (player := playerOf db (Request.playerId req)).
    set (player' := played player stats req).
    assert (Player.playerId player' = Request.playerId req) as Hpid.
    { subst player' player. unfold played, playerOf. cbn [Player.playerId].
      destruct (players db !! Request.playerId req) eqn:Hp; [exact (Hid _ _ Hp)|].
      reflexivity. }
    assert (forall old, players db !! Request.playerId req = Some old ->
              forall g, In g (Player.games old) -> In g (Player.games player')) as Hgrow.
    { intros old Hold g Hg. subst player' player. unfold played, playerOf.
      rewrite Hold. cbn [Player.games]. apply in_or_app. left. exact Hg. }
    assert (forall playerId p,
              <[Request.playerId req := player']> (players db) !! playerId = Some p ->
              Player.playerId p = playerId) as Hid'.
    { intros playerId p. rewrite lookup_insert. case_decide as Hk.
      - intros [= <-]. congruence.
      - apply Hid. }
    destruct (puzzles db !! Request.date req) as [found|] eqn:Hf.
    + split; [exact Hid'|]. intros date e He.
      destruct (Request.won req) eqn:Hwon.
      * destruct (decide (Request.date req = date)) as [<-|Hne].
        -- rewrite dailyEntries_insert in He.
           apply ranked_entries in He as [->|He].
           ++ split; [reflexivity|]. cbn [entryOf Leaderboard.playerId players
                                            Leaderboard.guesses Leaderboard.time].
              rewrite Hpid, lookup_insert_eq.
              exists player', (Player.mkGame (Request.date req) (Request.won req)
                                 (Request.guesses req) (Request.time req)
                                 (Request.attempts req)).
              split; [reflexivity|]. split.
              { subst player'. unfold played. cbn [Player.games].
                apply in_or_app. right. left. reflexivity. }
              cbn. auto.
           ++ apply (backed_insert db _ _ _ player'); [exact Hgrow|].
              apply Hbk. exact He.
        -- rewrite dailyEntries_insert_ne in He by exact Hne.
           apply (backed_insert db _ _ _ player'); [exact Hgrow|].
           apply Hbk. exact He.
      * rewrite dailyEntries_same in He.
        apply (backed_insert db _ _ _ player'); [exact Hgrow|].
        apply Hbk. exact He.
    + split; [exact Hid'|]. intros date e He. rewrite dailyEntries_same in He.
      apply (backed_insert db _ _ _ player'); [exact Hgrow|].
      apply Hbk. exact He.
Qed.

Lemma emptyDB_entriesOk : entriesOk emptyDB.
Proof.
  split.
  - intros playerId player H. cbn in H. rewrite lookup_empty in H. discriminate.
  - intros date e H. unfold dailyEntries in H. cbn in H. rewrite lookup_empty in H.
    destruct H.
Qed.

(** X12: in every database that the server reaches from the empty one, each
    entry of the daily board of a date has the score
    [1000 - guesses * 100 - time / 10] of its own guesses and time, and a
    game stands behind it: its player is stored and has, for that date, a
    won game with the guesses and the time of the entry. *)
Theorem entries_backed (rs : list request) (date : string) (e : Leaderboard.Entry) :
  In e (dailyEntries (serve emptyDB rs) date) ->
  Leaderboard.score e = scoreOf (Leaderboard.guesses e) (Leaderboard.time e)
  /\ exists player game,
       players (serve emptyDB rs) !! Leaderboard.playerId e = Some player
       /\ In game (Player.games player)
       /\ Player.date game = date
       /\ Player.won game = true
       /\ Player.guesses game = Leaderboard.guesses e
       /\ Player.time game = Leaderboard.time e.
Proof.
  intros He.
  exact (proj2 (serve_invariant entriesOk emptyDB_entriesOk handle_entriesOk rs) date e He).
Qed.

(** ** What a submission touches and how it answers *)

(** X13: a submission leaves every player but its own, every puzzle but the
    one of its date, and every board but the daily board of its date, as
    they were. *)
Theorem submit_frame (req : Request.t) (db : DB) (playerId date : string)
    (key : string * string) :
  let db' := snd (run (submit req) db) in
  (playerId <> Request.playerId req -> players db' !! playerId = players db !! playerId)
  /\ (date <> Request.date req -> puzzles db' !! date = puzzles db !! date)
  /\ (key <> (Request.date req, "daily"%string) ->
      leaderboards db' !! key = leaderboards db !! key).
Proof.
  cbv zeta. rewrite submit_db. cbv zeta.
  destruct (existingGame _ _); [repeat split|].
  destruct (updateStats _ _ _ _ _) as [stats|e]; [|repeat split].
  destruct (String.eqb (Player.playerId _) "") eqn:Hempty; [repeat split|].
  destruct (puzzles db !! Request.date req) as [found|];
    cbn [players puzzles leaderboards].
  - split; [intros Hne; apply lookup_insert_ne; congruence|].
    split; [intros Hne; apply lookup_insert_ne; congruence|].
    intros Hne. destruct (Request.won req); [|reflexivity].
    apply lookup_insert_ne. congruence.
  - split; [intros Hne; apply lookup_insert_ne; congruence|]. split; reflexivity.
Qed.

Lemma updateStats_done stats date won guesses time :
  (exists stats', updateStats stats date won guesses time = Done stats')
  <-> (won = true -> is_Some (Calendar.yesterdayString host date)).
Proof.
  unfold updateStats. destruct won.
  - destruct (Calendar.yesterdayString host date) as [ys|]; split.
    + intros _ _. eexists; reflexivity.
    + intros _. eexists; reflexivity.
    + intros [s [=]].
    + intros H. destruct (H eq_refl) as [ys [=]].
  - split; [intros _ [=] | intros _; eexists; reflexivity].
Qed.

(** X14: a submission is answered with status 200, 400 or 500, never 404:
    with 400 exactly when the player has a game for the date; with 200
    exactly when it has none, the date has a puzzle, lines 193-195 do not
    throw on the date of a won game (the host reads it as a date), and the
    [playerId] of the player is not empty; and with 500 otherwise. *)
Theorem submit_status (req : Request.t) (db : DB) :
  let player := playerOf db (Request.playerId req) in
  let date := Request.date req in
  let answer := status (fst (run (submit req) db)) in
  (answer = 200 \/ answer = 400 \/ answer = 500)
  /\ answer <> NotFound
  /\ (answer = 400 <-> is_Some (existingGame player date))
  /\ (answer = 200 <->
      existingGame player date = None
      /\ is_Some (puzzles db !! date)
      /\ (Request.won req = true -> is_Some (Calendar.yesterdayString host date))
      /\ Player.playerId player <> ""%string).
Proof.
  cbv zeta. rewrite submit_run. cbv zeta.
  pose proof (updateStats_done (Player.stats (playerOf db (Request.playerId req)))
                (Request.date req) (Request.won req) (Request.guesses req)
                (Request.time req)) as Hdone.
  destruct (existingGame _ _) as [g|]; cbn [fst status].
  { split; [auto|]. split; [discriminate|].
    split; [split; [eexists; reflexivity | reflexivity]|].
    split; [discriminate | intros ([=] & _)]. }
  destruct (updateStats _ _ _ _ _) as [stats|e]; cbn [fst status].
  - assert (Request.won req = true -> is_Some (Calendar.yesterdayString host (Request.date req)))
      as Hy by (apply Hdone; eexists; reflexivity).
    destruct (String.eqb_spec (Player.playerId (playerOf db (Request.playerId req))) "")
      as [Hempty|Hpid]; cbn [fst status].
    { split; [auto|]. split; [discriminate|].
      split; [split; [discriminate | intros [g [=]]]|].
      split; [discriminate | intros (_ & _ & _ & Hne); contradiction]. }
    destruct (puzzles db !! Request.date req) as [found|]; cbn [fst status].
    + split; [auto|]. split; [discriminate|].
      split; [split; [discriminate | intros [g [=]]]|].
      split; [intros _|reflexivity]. split; [reflexivity|]. split; [eexists; reflexivity|].
      split; [exact Hy | exact Hpid].
    + split; [auto|]. split; [discriminate|].
      split; [split; [discriminate | intros [g [=]]]|].
      split; [discriminate | intros (_ & [p [=]] & _)].
  - split; [auto|]. split; [discriminate|].
    split; [split; [discriminate | intros [g [=]]]|].
    split; [discriminate|]. intros (_ & _ & Hy & _).
    destruct (proj2 Hdone Hy) as [s [=]].
Qed.

(** X15: the answer of a successful submission shows the database as the
    submission left it: its stats are the stored stats of the player, and
    its figures of the day are those of the stored puzzle of the date. *)
Theorem submit_answer (req : Request.t) (db : DB) :
  let result := run (submit req) db in
  status (fst result) = 200 ->
  exists player puzzle,
    players (snd result) !! Request.playerId req = Some player
    /\ puzzles (snd result) !! Request.date req = Some puzzle
    /\ body (fst result)
       = SubmitBody true (Player.stats player)
           (mkTodayStats (DailyPuzzle.totalPlayers puzzle)
              (DailyPuzzle.completedPlayers puzzle) (DailyPuzzle.fastestTime puzzle)
              (DailyPuzzle.averageGuesses puzzle)).
Proof.
  cbv zeta. rewrite submit_db. rewrite submit_run. cbv zeta.
  destruct (existingGame _ _); [discriminate|].
  destruct (updateStats _ _ _ _ _) as [stats|e]; [|discriminate].
  destruct (String.eqb (Player.playerId _) "") eqn:Hempty; [discriminate|].
  destruct (puzzles db !! Request.date req) as [found|]; [|discriminate].
  intros _. cbn [fst body players puzzles].
  eexists _, _. rewrite !lookup_insert_eq.
  split; [reflexivity|]. split; reflexivity.
Qed.

(** ** The rank of a new entry *)

Lemma Array_insert_head x y l :
  (Leaderboard.score y <= Leaderboard.score x)%Q ->
  Array_insert byScore x (y :: l) = x :: y :: l.
Proof. intros H. cbn [Array_insert]. rewrite (proj2 (byScore_le x y) H). reflexivity. Qed.

Lemma Array_insert_skip x y l :
  (Leaderboard.score x < Leaderboard.score y)%Q ->
  Array_insert byScore x (y :: l) = y :: Array_insert byScore x l.
Proof.
  intros H. cbn [Array_insert].
  destruct (Qle_bool (byScore x y) 0) eqn:Hc; [|reflexivity].
  apply byScore_le in Hc. lra.
Qed.

Lemma Array_insert_top x l :
  Forall (fun y => (Leaderboard.score y <= Leaderboard.score x)%Q) l ->
  Array_insert byScore x l = x :: l.
Proof.
  intros H. destruct l as [|y l]; [reflexivity|].
  apply Array_insert_head. exact (Forall_inv H).
Qed.

(** Sorting a sorted board with a new entry at its end puts the entry after
    the entries that score as much or more, before those that score less. *)
Lemma Array_sort_snoc old e :
  descending old ->
  exists before after,
    old = before ++ after
    /\ Forall (fun x => (Leaderboard.score e <= Leaderboard.score x)%Q) before
    /\ Forall (fun y => (Leaderboard.score y < Leaderboard.score e)%Q) after
    /\ Array_sort byScore (old ++ [e]) = before ++ e :: after.
Proof.
  unfold Array_sort. rewrite foldr_app. cbn [foldr Array_insert].
  induction old as [|x old IH]; intros Hs.
  - exists [], []. repeat split; constructor.
  - apply StronglySorted_inv in Hs as [Hs Hx].
    destruct (IH Hs) as (before & after & Hold & Hb & Ha & Hsort).
    cbn [foldr]. rewrite Hsort. rewrite Hold in Hx.
    destruct before as [|b before].
    + cbn [app] in *.
      destruct (Qlt_le_dec (Leaderboard.score x) (Leaderboard.score e)) as [Hlt|Hle].
      * exists [], (x :: after). rewrite Array_insert_skip by exact Hlt.
        rewrite (Array_insert_top x after Hx). subst old.
        repeat split; constructor; assumption.
      * exists [x], after. rewrite Array_insert_head by exact Hle. subst old.
        repeat split; try assumption. constructor; [exact Hle | constructor].
    + exists (x :: b :: before), after. cbn [app] in *.
      pose proof (Forall_inv Hx) as Hbx. pose proof (Forall_inv Hb) as Heb.
      cbv beta in Hbx, Heb.
      rewrite Array_insert_head by exact Hbx. subst old.
      repeat split; try assumption. constructor; [lra | exact Hb].
Qed.

(** X16: on a board of a database that the server reached from the empty
    one, the entry of a won game ranks after every entry that scores as much
    or more and before every entry that scores less, the order of the others
    staying as it was; the board is then cut to its first 100 entries. *)
Theorem entry_rank (rs : list request) (date : string) (player : Player.t)
    (guesses time : Z) :
  let db := serve emptyDB rs in
  let e := entryOf player guesses time in
  exists before after,
    dailyEntries db date = before ++ after
    /\ Forall (fun x => (Leaderboard.score e <= Leaderboard.score x)%Q) before
    /\ Forall (fun y => (Leaderboard.score y < Leaderboard.score e)%Q) after
    /\ dailyEntries (snd (updateLeaderboards date player true guesses time db)) date
       = take 100 (before ++ e :: after).
Proof.
  cbv zeta. rewrite updateLeaderboards_run. cbn [snd].
  rewrite dailyEntries_insert.
  assert (descending (dailyEntries (serve emptyDB rs) date)) as Hs.
  { unfold dailyEntries.
    destruct (leaderboards (serve emptyDB rs) !! (date, "daily"%string)) as [board|] eqn:Hb.
    - exact (proj1 (serve_boardsOk rs emptyDB emptyDB_boardsOk _ _ Hb)).
    - constructor. }
  destruct (Array_sort_snoc _ (entryOf player guesses time) Hs)
    as (before & after & Hold & Hb & Ha & Hsort).
  exists before, after. split; [exact Hold|]. split; [exact Hb|]. split; [exact Ha|].
  unfold ranked. cbn [Leaderboard.entries]. rewrite <- Hsort.
  unfold dailyEntries, boardOf.
  destruct (leaderboards (serve emptyDB rs) !! (date, "daily"%string)); reflexivity.
Qed.

(** X17: whatever the board was, [updateLeaderboards] for a won game keeps
    all of the old entries and the new one while they are at most 100, and
    otherwise drops as many as exceed 100, none of which scores higher than
    an entry it keeps. *)
Theorem lowest_evicted (db : DB) (date : string) (player : Player.t) (guesses time : Z) :
  let old := dailyEntries db date in
  let kept :=
    dailyEntries (snd (updateLeaderboards date player true guesses time db)) date in
  exists dropped,
    Permutation (kept ++ dropped) (old ++ [entryOf player guesses time])
    /\ length dropped = (length old + 1 - 100)%nat
    /\ (forall x y, In x kept -> In y dropped ->
                    (Leaderboard.score y <= Leaderboard.score x)%Q).
Proof.
  cbv zeta. rewrite updateLeaderboards_run. cbn [snd]. rewrite dailyEntries_insert.
  unfold ranked. cbn [Leaderboard.entries].
  assert (Leaderboard.entries (boardOf db date) = dailyEntries db date) as ->.
  { unfold boardOf, dailyEntries. destruct (leaderboards db !! _); reflexivity. }
  set (sorted := Array_sort byScore (dailyEntries db date ++ [entryOf player guesses time])).
  exists (drop 100 sorted). split; [|split].
  - rewrite take_drop. apply Array_sort_perm.
  - rewrite length_drop. unfold sorted.
    rewrite (Permutation_length (Array_sort_perm byScore _)), length_app. reflexivity.
  - intros x y Hx Hy.
    exact (descending_evicts 100 sorted x y (Array_sort_descending _) Hx Hy).
Qed.

(** ** More on the generator *)

(** X18: the step of the generator never merges two streams: two different
    states within [0, 2^32) have different successors. *)
Theorem lcg_injective (state1 state2 : Z) :
  0 <= state1 < 4294967296 ->
  0 <= state2 < 4294967296 ->
  state1 <> state2 ->
  lcg state1 <> lcg state2.
Proof.
  intros H1 H2 Hne Heq. apply Hne.
  rewrite !lcg_lcgSpec in Heq by lia. unfold lcgSpec in Heq.
  change (2 ^ 32) with 4294967296 in Heq.
  assert (1664525 * 4276115653 = 1 + 4294967296 * 1657219) as Hinv by reflexivity.
  Z.div_mod_to_equations. lia.
Qed.

Lemma lcg_injective_witness :
  0 <= 0 < 4294967296 /\ 0 <= 1 < 4294967296 /\ 0 <> 1 /\ lcg 0 <> lcg 1.
Proof.
  assert (0 <= 0 < 4294967296) as H1 by lia.
  assert (0 <= 1 < 4294967296) as H2 by lia.
  assert (0 <> 1) as H3 by lia.
  split; [exact H1|]. split; [exact H2|]. split; [exact H3|].
  exact (lcg_injective 0 1 H1 H2 H3).
Defined.

(** A call of a closure reads and writes the cell of the closure only. *)
Lemma rng_cell (r : Rng) (h : Heap) :
  (r < length h)%nat ->
  rng r h = ((inject_Z (lcg (nth r h 0%Z)) / inject_Z 4294967296)%Q,
             <[r := lcg (nth r h 0%Z)]> h).
Proof. reflexivity. Qed.

Lemma nth_insert_eq (r : nat) (h : Heap) v :
  (r < length h)%nat -> nth r (<[r := v]> h) 0 = v.
Proof.
  revert r. induction h as [|x h IH]; intros [|r] Hr; cbn in *; try lia.
  apply IH. lia.
Qed.

Lemma nth_insert_ne (r r' : nat) (h : Heap) v :
  r <> r' -> nth r (<[r' := v]> h) 0 = nth r h 0.
Proof.
  revert r r'. induction h as [|x h IH]; intros [|r] [|r'] Hne; cbn; try reflexivity;
    try lia. apply IH. lia.
Qed.

Lemma calls_cell k : forall (r : Rng) (h : Heap),
  (r < length h)%nat ->
  calls k r h
  = (map (fun i => (inject_Z (Nat.iter i lcg (nth r h 0%Z)) / inject_Z 4294967296)%Q)
         (seq 1 k),
     <[r := Nat.iter k lcg (nth r h 0%Z)]> h).
Proof.
  induction k as [|k IH]; intros r h Hr.
  - cbn. rewrite list_insert_id; [reflexivity|].
    destruct (lookup_lt_is_Some_2 h r Hr) as [v Hv]. rewrite Hv. f_equal.
    symmetry. apply nth_lookup_Some, Hv.
  - cbn [calls]. rewrite (rng_cell r h Hr).
    rewrite IH by (rewrite length_insert; exact Hr).
    rewrite nth_insert_eq by exact Hr.
    rewrite list_insert_insert_eq.
    rewrite <- (Nat.iter_succ_r k lcg (nth r h 0%Z)).
    cbn [seq map]. rewrite <- (seq_shift k 1), map_map.
    change (Nat.iter 1 lcg (nth r h 0%Z)) with (lcg (nth r h 0%Z)).
    do 2 f_equal. apply map_ext. intros i. rewrite <- Nat.iter_succ_r. reflexivity.
Qed.

(** X19: two generators made one after the other do not disturb each other:
    however many values the second has given, the first gives the stream of
    its own seed, and the other way round. *)
Theorem seededRandom_isolated (seed1 seed2 : Z) (h : Heap) (k1 k2 : nat) :
  let '(r1, h1) := seededRandom seed1 h in
  let '(r2, h2) := seededRandom seed2 h1 in
  fst (calls k1 r1 (snd (calls k2 r2 h2)))
  = map (fun i => (inject_Z (Nat.iter i lcg seed1) / inject_Z 4294967296)%Q) (seq 1 k1)
  /\ fst (calls k2 r2 (snd (calls k1 r1 h2)))
     = map (fun i => (inject_Z (Nat.iter i lcg seed2) / inject_Z 4294967296)%Q) (seq 1 k2).
Proof.
  unfold seededRandom.
  assert (length h < length ((h ++ [seed1]) ++ [seed2]))%nat as L1
    by (rewrite !length_app; cbn; lia).
  assert (length (h ++ [seed1]) < length ((h ++ [seed1]) ++ [seed2]))%nat as L2
    by (rewrite !length_app; cbn; lia).
  assert (length h <> length (h ++ [seed1])) as Hne by (rewrite length_app; cbn; lia).
  assert (nth (length h) ((h ++ [seed1]) ++ [seed2]) 0 = seed1) as N1.
  { rewrite app_nth1 by (rewrite length_app; cbn; lia).
    rewrite app_nth2, Nat.sub_diag by lia. reflexivity. }
  assert (nth (length (h ++ [seed1])) ((h ++ [seed1]) ++ [seed2]) 0 = seed2) as N2.
  { rewrite app_nth2, Nat.sub_diag by lia. reflexivity. }
  split.
  - rewrite (calls_cell k2 _ _ L2). cbn [snd].
    rewrite calls_cell by (rewrite length_insert; exact L1). cbn [fst].
    rewrite nth_insert_ne by exact Hne. rewrite N1. reflexivity.
  - rewrite (calls_cell k1 _ _ L1). cbn [snd].
    rewrite calls_cell by (rewrite length_insert; exact L2). cbn [fst].
    rewrite nth_insert_ne by (intros E; apply Hne; symmetry; exact E).
    rewrite N2. reflexivity.
Qed.

Lemma at_index_numbers i : 0 <= i < 6 -> at_index numbers i = Num (i + 1).
Proof.
  intros H. assert (i = 0 \/ i = 1 \/ i = 2 \/ i = 3 \/ i = 4 \/ i = 5) as Hc by lia.
  repeat (destruct Hc as [->|Hc]); try subst i; reflexivity.
Qed.

Lemma drawFrom_duplicates code state :
  0 <= state ->
  drawFrom true (code, state)
  = (code ++ [Num (1 + lcgSpec state * 6 / 4294967296)], lcgSpec state).
Proof.
  intros Hs. unfold drawFrom. cbn [availableNumbers].
  rewrite randomIndex_eq, lcg_lcgSpec by exact Hs.
  change (Z.of_nat (length numbers)) with 6.
  pose proof (lcgSpec_range state) as Hr.
  rewrite at_index_numbers.
  - rewrite (Z.add_comm _ 1). reflexivity.
  - split; [apply Z.div_pos; lia | apply Z.div_lt_upper_bound; lia].
Qed.

Lemma drawFrom_head allowDuplicates st x :
  head (fst st) = Some x -> head (fst (drawFrom allowDuplicates st)) = Some x.
Proof.
  destruct st as [[|y code] state]; [discriminate|]. intros [= ->].
  unfold drawFrom. reflexivity.
Qed.

(** X20: with duplicates allowed, the code is given by the stream alone: its
    element number [i] is [1 + floor(6 * state / 2^32)] for the state after
    [i] steps from the seed; and the first number of the code is the same
    with and without duplicates. *)
Theorem generateDailyCode_duplicates (dateString : string) (h : Heap) :
  let state i := Nat.iter i lcgSpec (hashCode dateString) in
  fst (generateDailyCode dateString true h)
  = map (fun i => Num (1 + state i * 6 / 4294967296)) [1; 2; 3; 4]%nat
  /\ head (fst (generateDailyCode dateString false h))
     = head (fst (generateDailyCode dateString true h)).
Proof.
  cbv zeta. rewrite !generateDailyCode_own. cbn [fst].
  pose proof (hashCode_range dateString) as Hseed.
  set (seed := hashCode dateString) in *.
  pose proof (lcgSpec_range seed). pose proof (lcgSpec_range (lcgSpec seed)).
  pose proof (lcgSpec_range (lcgSpec (lcgSpec seed))).
  split.
  - cbn [Nat.iter nat_rect]. rewrite !drawFrom_duplicates by lia. reflexivity.
  - assert (forall dup,
              head (fst (Nat.iter 4 (drawFrom dup) ([], seed)))
              = Some (Num (1 + lcgSpec seed * 6 / 4294967296))) as Hfirst.
    { intros dup. cbn [Nat.iter nat_rect]. do 3 apply drawFrom_head.
      assert (drawFrom dup ([], seed) = drawFrom true ([], seed)) as ->
        by (destruct dup; reflexivity).
      rewrite drawFrom_duplicates by lia. reflexivity. }
    rewrite !Hfirst. reflexivity.
Qed.

(** ** The route of the leaderboards *)

Lemma Day_setDate offset t dt :
  Calendar.fixedOffset host offset ->
  Calendar.Day (Calendar.setDate host t dt)
  = Calendar.Day t + dt - Calendar.getDate host t.
Proof.
  intros Hfixed. rewrite (setDate_fixed offset) by exact Hfixed.
  unfold Calendar.Day, Calendar.msPerDay. rewrite Z_div_plus by lia. lia.
Qed.

Lemma getDay_range t : 0 <= getDay t < 7.
Proof. unfold getDay. apply Z.mod_pos_bound. lia. Qed.

(** X21: on a host whose local time is UTC, the date taken for the weekly
    board is a Monday, the one of the week from Monday to Saturday that
    today lies in, and on a Sunday the Monday of the day after: it is the
    key of the day [1 - getDay] days from today, between 5 days back and 1
    day ahead. *)
Theorem mondayKey_monday (now : Z) :
  Calendar.fixedOffset host 0 ->
  let monday := Calendar.Day now + 1 - getDay now in
  mondayKey now = Calendar.iso (Calendar.civil monday)
  /\ (monday + 4) mod 7 = 1
  /\ Calendar.Day now - 5 <= monday <= Calendar.Day now + 1
  /\ (getDay now = 0 -> mondayKey now = todayKey (now + Calendar.msPerDay))
  /\ (getDay now = 1 -> mondayKey now = todayKey now).
Proof.
  intros Hutc. cbv zeta. pose proof (getDay_range now) as Hr.
  assert (mondayKey now
          = Calendar.iso (Calendar.civil (Calendar.Day now + 1 - getDay now))) as Hkey.
  { unfold mondayKey, Calendar.isoDate. rewrite (Day_setDate 0) by exact Hutc.
    do 2 f_equal. lia. }
  split; [exact Hkey|]. split; [|split; [lia|split]].
  - unfold getDay, Calendar.LocalTime. rewrite Hutc, Z.add_0_r.
    Z.div_mod_to_equations. lia.
  - intros H0. rewrite Hkey, H0. unfold todayKey, Calendar.isoDate. rewrite Day_next.
    do 2 f_equal. lia.
  - intros H1. rewrite Hkey, H1. unfold todayKey, Calendar.isoDate.
    do 2 f_equal. lia.
Qed.

Lemma leaderboardQuery_type type date now : fst (leaderboardQuery type date now) = type.
Proof.
  unfold leaderboardQuery. destruct date as [d|];
    repeat match goal with |- context [if ?b then _ else _] => destruct b end; reflexivity.
Qed.

(** X22: in every database that the server reaches from the empty one, the
    route of the leaderboards answers a request for the daily board of a
    given date with exactly the entries stored for that date, none when the
    date has no board; and it answers a request for any other type of
    board, weekly and all-time included, with no entries, whatever the date
    and the clock. *)
Theorem getLeaderboard_answer (rs : list request) (type : string) (date : option string)
    (now : Z) (entries : list Leaderboard.Entry) :
  let db := serve emptyDB rs in
  getLeaderboard type date now db entries ->
  (type <> "daily"%string -> entries = [])
  /\ (forall d, type = "daily"%string -> date = Some d -> d <> ""%string ->
                entries = dailyEntries db d).
Proof.
  cbv zeta. intros (result & Hfind & ->).
  pose proof (serve_storeOk rs) as [_ Hbd]. split.
  - intros Hty. destruct result as [board|]; [exfalso|reflexivity].
    destruct Hfind as ([key Hb] & Hsel & _). rewrite leaderboardQuery_type in Hsel.
    destruct (Hbd _ _ Hb) as (_ & Hdaily & _). congruence.
  - intros d -> -> Hd. unfold leaderboardQuery in Hfind.
    change (String.eqb "daily" "daily") with true in Hfind.
    destruct (String.eqb_spec d ""); [contradiction|]. cbn [andb negb] in Hfind.
    unfold dailyEntries.
    destruct result as [board|].
    + destruct Hfind as ([key Hb] & Hty & Hdate). cbn [fst snd] in *.
      destruct (Hbd _ _ Hb) as (Hk & _ & _). rewrite (Hdate d eq_refl) in Hk.
      subst key. rewrite Hb. reflexivity.
    + destruct (leaderboards (serve emptyDB rs) !! (d, "daily"%string)) as [board|] eqn:Hb;
        [exfalso|reflexivity].
      apply (Hfind _ _ Hb). destruct (Hbd _ _ Hb) as (Hk & Hty & _).
      split; cbn [fst snd]; [exact Hty|]. intros d' [= <-]. congruence.
Qed.

End Server.

(** * Runs of the server on a host on UTC

    The statements above, at concrete requests. *)

Lemma submit_already_played_witness :
  let game := Player.mkGame "2024-01-02" true 3 45000 [] in
  let player :=
    Player.mk "p1" None None None
      (Player.mkStats 1 1 1 1 3 (Some "2024-01-02"%string) (Some 45000)) [game] in
  let db := mkDB ∅ {["p1"%string := player]} ∅ in
  let req := Request.mk "p1" "2024-01-02" false 6 90000 [] in
  players db !! Request.playerId req = Some player
  /\ In game (Player.games player)
  /\ Player.date game = Request.date req
  /\ run (submit Calendar.utc req) db = (mkResponse 400 (ErrorBody "Already played today"), db).
Proof.
  intros game player db req.
  assert (players db !! Request.playerId req = Some player) as Hp
    by (vm_compute; reflexivity).
  assert (In game (Player.games player)) as Hin by (left; reflexivity).
  assert (Player.date game = Request.date req) as Hd by reflexivity.
  split; [exact Hp|]. split; [exact Hin|]. split; [exact Hd|].
  apply (submit_already_played Calendar.utc req db player game Hp Hin Hd).
Defined.

(** C1, as stated, fails: for a date without a puzzle the call does not end
    in NotFound (404) but in status 500, after the player has been written
    with the game counted. *)
Lemma submit_missing_puzzle_counterexample :
  let req := Request.mk "p1" "2024-01-02" true 3 45000 [] in
  let result := run (submit Calendar.utc req) emptyDB in
  puzzles emptyDB !! Request.date req = None
  /\ players emptyDB !! Request.playerId req = None
  /\ status (fst result) = 500
  /\ status (fst result) <> NotFound
  /\ players (snd result) !! Request.playerId req
     = Some (Player.mk "p1" None None None
               (Player.mkStats 1 1 1 1 3 (Some "2024-01-02"%string) (Some 45000))
               [Player.mkGame "2024-01-02" true 3 45000 []])
  /\ snd result <> emptyDB.
Proof.
  cbv zeta.
  assert (players (snd (run (submit Calendar.utc (Request.mk "p1" "2024-01-02" true 3 45000 [])) emptyDB))
          !! "p1"%string
          = Some (Player.mk "p1" None None None
               (Player.mkStats 1 1 1 1 3 (Some "2024-01-02"%string) (Some 45000))
               [Player.mkGame "2024-01-02" true 3 45000 []])) as Hp
    by (vm_compute; reflexivity).
  split; [reflexivity|]. split; [reflexivity|].
  split; [vm_compute; reflexivity|]. split; [vm_compute; discriminate|].
  split; [exact Hp|].
  intros Heq. rewrite Heq in Hp. discriminate Hp.
Qed.

Lemma submit_missing_puzzle_witness :
  let req := Request.mk "p1" "2024-01-02" true 3 45000 [] in
  puzzles emptyDB !! Request.date req = None
  /\ players (snd (run (submit Calendar.utc req) emptyDB))
     = <["p1"%string :=
          played (Player.new "p1")
            (Player.mkStats 1 1 1 1 3 (Some "2024-01-02"%string) (Some 45000)) req]>
         (players emptyDB).
Proof.
  intros req. split; [reflexivity|].
  refine (proj2 (proj2 (proj2 (proj2 (proj2
            (submit_missing_puzzle Calendar.utc req emptyDB eq_refl))))) _ _ _ _).
  - reflexivity.
  - reflexivity.
  - discriminate.
Defined.

Lemma submit_streak_witness :
  let first := Request.mk "p1" "2024-02-29" true 3 45000 [] in
  let req := Request.mk "p1" "2024-03-01" true 2 30000 [] in
  let db := serve Calendar.utc emptyDB [PostSubmit first] in
  Calendar.fixedOffset Calendar.utc 0
  /\ streakInv emptyDB (Request.playerId req)
  /\ existingGame (playerOf db (Request.playerId req)) (Request.date req) = None
  /\ Player.playerId (playerOf db (Request.playerId req)) <> ""%string
  /\ (Request.won req = true ->
      Calendar.fields (Request.date req) = Some (2024, 3, 1)
      /\ 1 <= Calendar.daysInMonth 2024 3)
  /\ Player.currentStreak (statsOf (snd (run (submit Calendar.utc req) db)) "p1") = 2
  /\ Player.maxStreak (statsOf (snd (run (submit Calendar.utc req) db)) "p1") = 2.
Proof.
  intros first req db.
  assert (Calendar.fixedOffset Calendar.utc 0) as H0 by (intros t isUTC; reflexivity).
  assert (streakInv emptyDB (Request.playerId req)) as H1
    by (vm_compute; split; discriminate).
  assert (existingGame (playerOf db (Request.playerId req)) (Request.date req) = None)
    as H2 by (vm_compute; reflexivity).
  assert (Player.playerId (playerOf db (Request.playerId req)) <> ""%string) as H3
    by (vm_compute; discriminate).
  assert (Request.won req = true ->
          Calendar.fields (Request.date req) = Some (2024, 3, 1)
          /\ 1 <= Calendar.daysInMonth 2024 3) as H4.
  { intros _. split; [vm_compute; reflexivity | vm_compute; discriminate]. }
  split; [exact H0|]. split; [exact H1|]. split; [exact H2|]. split; [exact H3|].
  split; [exact H4|].
  destruct (submit_streak Calendar.utc 0 emptyDB [PostSubmit first] req 2024 3 1
              H0 H1 H2 H3 H4) as (_ & Hc & Hr & _ & _).
  split.
  - eapply eq_trans; [exact Hc | vm_compute; reflexivity].
  - eapply eq_trans; [exact Hr | vm_compute; reflexivity].
Defined.

(** The streak of the specification: a win on a day, a win on the next, a
    loss on the third, and a win after a gap. *)
Example streak_continuity :
  let rs := [PostSubmit (Request.mk "p1" "2024-02-28" true 3 45000 []);
             PostSubmit (Request.mk "p1" "2024-02-29" true 4 50000 []);
             PostSubmit (Request.mk "p1" "2024-03-01" false 6 90000 []);
             PostSubmit (Request.mk "p1" "2024-03-03" true 2 30000 [])] in
  streakHistory Calendar.utc "p1" emptyDB rs = [1; 2; 0; 1]
  /\ Player.maxStreak (statsOf (serve Calendar.utc emptyDB rs) "p1") = 2.
Proof. vm_compute. split; reflexivity. Qed.

Lemma leaderboard_sorted_bounded_witness :
  let rs := [GetToday "2024-01-02" None;
             PostSubmit (Request.mk "p1" "2024-01-02" true 3 45000 [])] in
  let req := Request.mk "p2" "2024-01-02" false 6 90000 [] in
  let db := serve Calendar.utc emptyDB rs in
  let board :=
    Leaderboard.mk "2024-01-02" "daily"
      [Leaderboard.mkEntry "p1" "Anonymous" (scoreOf 3 45000) 45000 3] in
  leaderboards db !! ("2024-01-02"%string, "daily"%string) = Some board
  /\ Request.won req = false
  /\ boardOk board
  /\ leaderboards (snd (run (submit Calendar.utc req) db)) = leaderboards db.
Proof.
  intros rs req db board.
  assert (leaderboards db !! ("2024-01-02"%string, "daily"%string) = Some board) as H1
    by (vm_compute; reflexivity).
  assert (Request.won req = false) as H2 by reflexivity.
  split; [exact H1|]. split; [exact H2|]. split.
  - exact (proj1 (leaderboard_sorted_bounded Calendar.utc rs) _ board H1).
  - exact (proj2 (proj2 (proj2 (leaderboard_sorted_bounded Calendar.utc rs))) req H2).
Defined.

(** The ordering of the specification: wins with scores 800, 950 and 900
    rank as 950, 900, 800. *)
Example leaderboard_ordering :
  let rs := [GetToday "2024-01-02" None;
             PostSubmit (Request.mk "p1" "2024-01-02" true 2 0 []);
             PostSubmit (Request.mk "p2" "2024-01-02" true 0 500 []);
             PostSubmit (Request.mk "p3" "2024-01-02" true 1 0 [])] in
  map (fun e => Qred (Leaderboard.score e)) (dailyEntries (serve Calendar.utc emptyDB rs) "2024-01-02")
  = [950%Q; 900%Q; 800%Q].
Proof. vm_compute. reflexivity. Qed.

Lemma leaderboard_score_witness :
  let db := serve Calendar.utc emptyDB [GetToday "2024-01-02" None] in
  let req := Request.mk "p1" "2024-01-02" true 3 45000 [] in
  Request.won req = true
  /\ status (fst (run (submit Calendar.utc req) db)) = 200
  /\ 3 < 4
  /\ 45000 < 50000
  /\ exists entry,
       In entry (dailyEntries (snd (run (submit Calendar.utc req) db)) "2024-01-02")
       /\ (Leaderboard.score entry == 1000 - 3 * 100 - 45000 / 10)%Q
       /\ (scoreOf 4 45000 < Leaderboard.score entry)%Q.
Proof.
  intros db req.
  assert (Request.won req = true) as H1 by reflexivity.
  assert (status (fst (run (submit Calendar.utc req) db)) = 200) as H2 by (vm_compute; reflexivity).
  assert (3 < 4) as H3 by lia.
  assert (45000 < 50000) as H4 by lia.
  split; [exact H1|]. split; [exact H2|]. split; [exact H3|]. split; [exact H4|].
  destruct (leaderboard_score Calendar.utc db req 4 50000 H1 H2 H3 H4)
    as (entry & Hs & _ & _ & _ & _ & Hin & _ & Hg & _).
  exists entry. split; [|split; [exact Hs | exact Hg]].
  apply Hin. vm_compute. lia.
Defined.


Lemma yesterdayKey_todayKey_witness :
  Calendar.fixedOffset Calendar.utc 0
  /\ yesterdayKey Calendar.utc (1704067200000 + Calendar.msPerDay) = todayKey 1704067200000.
Proof.
  assert (Calendar.fixedOffset Calendar.utc 0) as H by (intros t isUTC; reflexivity).
  split; [exact H|].
  exact (proj1 (yesterdayKey_todayKey Calendar.utc 0 1704067200000 H)).
Defined.

Lemma todayKey_yesterdayString_witness :
  Calendar.fixedOffset Calendar.utc 0
  /\ -62167219200000 <= 1704067200000 < 253402300800000
  /\ Calendar.yesterdayString Calendar.utc (todayKey 1704067200000)
     = Some (yesterdayKey Calendar.utc 1704067200000).
Proof.
  assert (Calendar.fixedOffset Calendar.utc 0) as H by (intros t isUTC; reflexivity).
  split; [exact H|]. split; [lia|].
  apply (todayKey_yesterdayString Calendar.utc 0 1704067200000 H). lia.
Defined.

Lemma puzzle_permanent_witness :
  let db := serve Calendar.utc emptyDB [GetToday "2024-01-02" None] in
  let rs := [PostSubmit (Request.mk "p1" "2024-01-02" true 3 45000 []);
             GetToday "2024-01-02" (Some "true"%string)] in
  let puzzle :=
    DailyPuzzle.new "2024-01-02" (fst (generateDailyCode "2024-01-02" false [])) in
  puzzles db !! "2024-01-02"%string = Some puzzle
  /\ exists puzzle',
       puzzles (serve Calendar.utc db rs) !! "2024-01-02"%string = Some puzzle'
       /\ DailyPuzzle.solution puzzle' = DailyPuzzle.solution puzzle.
Proof.
  intros db rs puzzle.
  assert (puzzles db !! "2024-01-02"%string = Some puzzle) as H by (vm_compute; reflexivity).
  split; [exact H|].
  destruct (puzzle_permanent Calendar.utc db rs "2024-01-02" puzzle H) as (puzzle' & Hp & _ & Hs & _).
  exists puzzle'. split; [exact Hp | exact Hs].
Defined.

Lemma puzzleToday_idempotent_witness :
  let db := serve Calendar.utc emptyDB [GetToday "2024-01-02" None] in
  let puzzle :=
    DailyPuzzle.new "2024-01-02" (fst (generateDailyCode "2024-01-02" false [])) in
  puzzles db !! "2024-01-02"%string = Some puzzle
  /\ snd (run (puzzleToday "2024-01-02" (Some "true"%string)) db) = db.
Proof.
  intros db puzzle.
  assert (puzzles db !! "2024-01-02"%string = Some puzzle) as H by (vm_compute; reflexivity).
  split; [exact H|].
  exact (proj1 (proj2 (puzzleToday_idempotent "2024-01-02" (Some "true"%string) None db))
           puzzle H).
Defined.

Lemma puzzleYesterday_reveals_witness :
  Calendar.fixedOffset Calendar.utc 0
  /\ puzzles emptyDB !! todayKey 1704067200000 = None
  /\ exists stats,
       puzzleYesterday (yesterdayKey Calendar.utc (1704067200000 + Calendar.msPerDay))
         (serve Calendar.utc (snd (run (puzzleToday (todayKey 1704067200000) None) emptyDB))
            [PostSubmit (Request.mk "p1" "2024-01-01" true 3 45000 [])])
       = (Done (mkYesterdayResponse 200
                  (YesterdayPuzzle (todayKey 1704067200000)
                     (fst (generateDailyCode (todayKey 1704067200000)
                             (bool_decide (None = Some "true"%string)) []))
                     stats)),
          serve Calendar.utc (snd (run (puzzleToday (todayKey 1704067200000) None) emptyDB))
            [PostSubmit (Request.mk "p1" "2024-01-01" true 3 45000 [])]).
Proof.
  assert (Calendar.fixedOffset Calendar.utc 0) as H by (intros t isUTC; reflexivity).
  split; [exact H|]. split; [reflexivity|].
  apply (puzzleYesterday_reveals Calendar.utc 0 1704067200000 None emptyDB
           [PostSubmit (Request.mk "p1" "2024-01-01" true 3 45000 [])] H).
  reflexivity.
Defined.

Lemma one_game_per_date_witness :
  let rs := [PostSubmit (Request.mk "p1" "2024-01-02" true 3 45000 []);
             PostSubmit (Request.mk "p1" "2024-01-02" true 2 30000 []);
             PostSubmit (Request.mk "p1" "2024-01-03" false 6 90000 [])] in
  let player := playerOf (serve Calendar.utc emptyDB rs) "p1" in
  players (serve Calendar.utc emptyDB rs) !! "p1"%string = Some player
  /\ List.NoDup (map Player.date (Player.games player)).
Proof.
  intros rs player.
  assert (players (serve Calendar.utc emptyDB rs) !! "p1"%string = Some player) as H
    by (vm_compute; reflexivity).
  split; [exact H|]. exact (proj2 (one_game_per_date Calendar.utc rs "p1" player H)).
Defined.

Lemma stats_mirror_history_witness :
  let rs := [PostSubmit (Request.mk "p1" "2024-01-02" true 3 45000 []);
             PostSubmit (Request.mk "p1" "2024-01-03" false 6 90000 [])] in
  let player := playerOf (serve Calendar.utc emptyDB rs) "p1" in
  players (serve Calendar.utc emptyDB rs) !! "p1"%string = Some player
  /\ Player.gamesPlayed (Player.stats player) = Z.of_nat (length (Player.games player))
  /\ Player.totalGuesses (Player.stats player) = sumGuesses (wonGames (Player.games player)).
Proof.
  intros rs player.
  assert (players (serve Calendar.utc emptyDB rs) !! "p1"%string = Some player) as H
    by (vm_compute; reflexivity).
  split; [exact H|].
  destruct (stats_mirror_history Calendar.utc rs "p1" player H) as (H1 & _ & H3 & _).
  split; [exact H1 | exact H3].
Defined.

Lemma fastestTime_least_witness :
  let rs := [PostSubmit (Request.mk "p1" "2024-01-02" true 3 45000 []);
             PostSubmit (Request.mk "p1" "2024-01-03" true 4 30000 [])] in
  let player := playerOf (serve Calendar.utc emptyDB rs) "p1" in
  players (serve Calendar.utc emptyDB rs) !! "p1"%string = Some player
  /\ Forall (fun g => 0 < Player.time g) (wonGames (Player.games player))
  /\ Player.fastestTime (Player.stats player) = leastTime (wonGames (Player.games player)).
Proof.
  intros rs player.
  assert (players (serve Calendar.utc emptyDB rs) !! "p1"%string = Some player) as H
    by (vm_compute; reflexivity).
  assert (Forall (fun g => 0 < Player.time g) (wonGames (Player.games player))) as H2
    by (vm_compute; repeat constructor).
  split; [exact H|]. split; [exact H2|].
  exact (fastestTime_least Calendar.utc rs "p1" player H H2).
Defined.

Lemma puzzles_generated_witness :
  let rs := [GetToday "2024-01-02" None;
             PostSubmit (Request.mk "p1" "2024-01-02" true 3 45000 [])] in
  let puzzle :=
    updatePuzzle
      (DailyPuzzle.new "2024-01-02" (fst (generateDailyCode "2024-01-02" false [])))
      (Player.new "p1") "p1" true 3 45000 in
  puzzles (serve Calendar.utc emptyDB rs) !! "2024-01-02"%string = Some puzzle
  /\ exists allowDuplicates,
       DailyPuzzle.solution puzzle
       = fst (generateDailyCode "2024-01-02" allowDuplicates []).
Proof.
  intros rs puzzle.
  assert (puzzles (serve Calendar.utc emptyDB rs) !! "2024-01-02"%string = Some puzzle) as H
    by (vm_compute; reflexivity).
  split; [exact H|].
  exact (proj1 (proj2 (puzzles_generated Calendar.utc rs "2024-01-02" puzzle H))).
Defined.

Lemma only_daily_boards_witness :
  let rs := [GetToday "2024-01-02" None;
             PostSubmit (Request.mk "p1" "2024-01-02" true 3 45000 [])] in
  let board := boardOf (serve Calendar.utc emptyDB rs) "2024-01-02" in
  leaderboards (serve Calendar.utc emptyDB rs) !! ("2024-01-02"%string, "daily"%string) = Some board
  /\ Leaderboard.date board = "2024-01-02"%string
  /\ is_Some (puzzles (serve Calendar.utc emptyDB rs) !! "2024-01-02"%string).
Proof.
  intros rs board.
  assert (leaderboards (serve Calendar.utc emptyDB rs) !! ("2024-01-02"%string, "daily"%string)
          = Some board) as H by (vm_compute; reflexivity).
  split; [exact H|].
  destruct (only_daily_boards Calendar.utc rs "2024-01-02" "daily" board H) as (_ & Hd & _ & Hp).
  split; [exact Hd | exact Hp].
Defined.

Lemma entries_count_witness :
  let rs := [GetToday "2024-01-02" None;
             PostSubmit (Request.mk "p1" "2024-01-02" true 3 45000 []);
             PostSubmit (Request.mk "p2" "2024-01-02" false 6 90000 [])] in
  let puzzle :=
    updatePuzzle
      (updatePuzzle
         (DailyPuzzle.new "2024-01-02" (fst (generateDailyCode "2024-01-02" false [])))
         (Player.new "p1") "p1" true 3 45000)
      (Player.new "p2") "p2" false 6 90000 in
  puzzles (serve Calendar.utc emptyDB rs) !! "2024-01-02"%string = Some puzzle
  /\ Z.of_nat (length (dailyEntries (serve Calendar.utc emptyDB rs) "2024-01-02"))
     = Z.min 100 (DailyPuzzle.completedPlayers puzzle).
Proof.
  intros rs puzzle.
  assert (puzzles (serve Calendar.utc emptyDB rs) !! "2024-01-02"%string = Some puzzle) as H
    by (vm_compute; reflexivity).
  split; [exact H|]. exact (entries_count Calendar.utc rs "2024-01-02" puzzle H).
Defined.

Lemma entries_backed_witness :
  let rs := [GetToday "2024-01-02" None;
             PostSubmit (Request.mk "p1" "2024-01-02" true 3 45000 [])] in
  let e := Leaderboard.mkEntry "p1" "Anonymous" (scoreOf 3 45000) 45000 3 in
  In e (dailyEntries (serve Calendar.utc emptyDB rs) "2024-01-02")
  /\ exists player game,
       players (serve Calendar.utc emptyDB rs) !! "p1"%string = Some player
       /\ In game (Player.games player)
       /\ Player.date game = "2024-01-02"%string.
Proof.
  intros rs e.
  assert (In e (dailyEntries (serve Calendar.utc emptyDB rs) "2024-01-02")) as H
    by (left; vm_compute; reflexivity).
  split; [exact H|].
  destruct (entries_backed Calendar.utc rs "2024-01-02" e H) as (_ & player & game & Hp & Hg & Hd & _).
  exists player, game. split; [exact Hp|]. split; [exact Hg | exact Hd].
Defined.

Lemma submit_frame_witness :
  let db := serve Calendar.utc emptyDB [GetToday "2024-01-02" None; GetToday "2024-01-03" None;
                           PostSubmit (Request.mk "p1" "2024-01-02" true 3 45000 [])] in
  let req := Request.mk "p2" "2024-01-03" true 2 30000 [] in
  "p1"%string <> Request.playerId req
  /\ "2024-01-02"%string <> Request.date req
  /\ ("2024-01-02"%string, "daily"%string) <> (Request.date req, "daily"%string)
  /\ players (snd (run (submit Calendar.utc req) db)) !! "p1"%string = players db !! "p1"%string
  /\ puzzles (snd (run (submit Calendar.utc req) db)) !! "2024-01-02"%string
     = puzzles db !! "2024-01-02"%string
  /\ leaderboards (snd (run (submit Calendar.utc req) db)) !! ("2024-01-02"%string, "daily"%string)
     = leaderboards db !! ("2024-01-02"%string, "daily"%string).
Proof.
  intros db req.
  assert ("p1"%string <> Request.playerId req) as H1 by discriminate.
  assert ("2024-01-02"%string <> Request.date req) as H2 by discriminate.
  assert (("2024-01-02"%string, "daily"%string) <> (Request.date req, "daily"%string))
    as H3 by discriminate.
  split; [exact H1|]. split; [exact H2|]. split; [exact H3|].
  destruct (submit_frame Calendar.utc req db "p1" "2024-01-02" ("2024-01-02"%string, "daily"%string))
    as (F1 & F2 & F3).
  split; [exact (F1 H1)|]. split; [exact (F2 H2) | exact (F3 H3)].
Defined.

Lemma submit_status_witness :
  let db := serve Calendar.utc emptyDB [GetToday "2024-01-02" None] in
  let req := Request.mk "p1" "2024-01-02" true 3 45000 [] in
  existingGame (playerOf db (Request.playerId req)) (Request.date req) = None
  /\ is_Some (puzzles db !! Request.date req)
  /\ (Request.won req = true ->
      is_Some (Calendar.yesterdayString Calendar.utc (Request.date req)))
  /\ Player.playerId (playerOf db (Request.playerId req)) <> ""%string
  /\ status (fst (run (submit Calendar.utc req) db)) = 200.
Proof.
  intros db req.
  assert (existingGame (playerOf db (Request.playerId req)) (Request.date req) = None)
    as H1 by (vm_compute; reflexivity).
  assert (is_Some (puzzles db !! Request.date req)) as H2
    by (vm_compute; eexists; reflexivity).
  assert (Request.won req = true ->
          is_Some (Calendar.yesterdayString Calendar.utc (Request.date req)))
    as H3 by (intros _; vm_compute; eexists; reflexivity).
  assert (Player.playerId (playerOf db (Request.playerId req)) <> ""%string) as H4
    by (vm_compute; discriminate).
  split; [exact H1|]. split; [exact H2|]. split; [exact H3|]. split; [exact H4|].
  apply (proj2 (proj2 (proj2 (submit_status Calendar.utc req db)))).
  split; [exact H1|]. split; [exact H2|]. split; [exact H3 | exact H4].
Defined.

Lemma submit_answer_witness :
  let db := serve Calendar.utc emptyDB [GetToday "2024-01-02" None] in
  let req := Request.mk "p1" "2024-01-02" true 3 45000 [] in
  status (fst (run (submit Calendar.utc req) db)) = 200
  /\ exists player puzzle,
       players (snd (run (submit Calendar.utc req) db)) !! "p1"%string = Some player
       /\ puzzles (snd (run (submit Calendar.utc req) db)) !! "2024-01-02"%string = Some puzzle
       /\ body (fst (run (submit Calendar.utc req) db))
          = SubmitBody true (Player.stats player)
              (mkTodayStats (DailyPuzzle.totalPlayers puzzle)
                 (DailyPuzzle.completedPlayers puzzle) (DailyPuzzle.fastestTime puzzle)
                 (DailyPuzzle.averageGuesses puzzle)).
Proof.
  intros db req.
  assert (status (fst (run (submit Calendar.utc req) db)) = 200) as H by (vm_compute; reflexivity).
  split; [exact H|]. exact (submit_answer Calendar.utc req db H).
Defined.

Lemma mondayKey_monday_witness :
  Calendar.fixedOffset Calendar.utc 0
  /\ getDay Calendar.utc 1704585600000 = 0
  /\ mondayKey Calendar.utc 1704585600000 = todayKey (1704585600000 + Calendar.msPerDay).
Proof.
  assert (Calendar.fixedOffset Calendar.utc 0) as Hutc by (intros t isUTC; reflexivity).
  assert (getDay Calendar.utc 1704585600000 = 0) as H by reflexivity.
  split; [exact Hutc|]. split; [exact H|].
  exact (proj1 (proj2 (proj2 (proj2 (mondayKey_monday Calendar.utc 1704585600000 Hutc)))) H).
Defined.

Lemma getLeaderboard_answer_witness :
  let rs := [GetToday "2024-01-02" None;
             PostSubmit (Request.mk "p1" "2024-01-02" true 3 45000 [])] in
  let db := serve Calendar.utc emptyDB rs in
  let entries := [Leaderboard.mkEntry "p1" "Anonymous" (scoreOf 3 45000) 45000 3] in
  getLeaderboard Calendar.utc "daily" (Some "2024-01-02"%string) 1704153600000 db entries
  /\ entries = dailyEntries db "2024-01-02".
Proof.
  intros rs db entries.
  assert (getLeaderboard Calendar.utc "daily" (Some "2024-01-02"%string) 1704153600000 db entries)
    as Hget.
  { exists (Some (Leaderboard.mk "2024-01-02" "daily" entries)).
    split; [|reflexivity]. split.
    - exists ("2024-01-02"%string, "daily"%string). vm_compute. reflexivity.
    - split; [reflexivity|]. intros d [= <-]. reflexivity. }
  split; [exact Hget|].
  refine (proj2 (getLeaderboard_answer Calendar.utc rs "daily" (Some "2024-01-02"%string)
                   1704153600000 entries Hget) "2024-01-02"%string eq_refl eq_refl _).
  discriminate.
Defined.

(** * A run of the server on a host with daylight saving *)

Lemma yesterdayString_shift_witness :
  Calendar.fields "2024-10-28" = Some (2024, 10, 28)
  /\ 28 <= Calendar.daysInMonth 2024 10
  /\ Calendar.yesterdayString Calendar.Berlin "2024-10-28"
     = Some (Calendar.iso (Calendar.precedingDay (Calendar.precedingDay (2024, 10, 28)))).
Proof.
  assert (Calendar.fields "2024-10-28" = Some (2024, 10, 28)) as Hf by reflexivity.
  assert (28 <= Calendar.daysInMonth 2024 10) as Hd by (vm_compute; discriminate).
  split; [exact Hf|]. split; [exact Hd|].
  apply (proj2 (proj2 (yesterdayString_shift Calendar.Berlin "2024-10-28" 2024 10 28 Hf Hd))).
  vm_compute. split; [discriminate | reflexivity].
Defined.

(** C3, at a failing input: on a host on the time of Berlin, a player who
    won on 27 October 2024 and wins again on 28 October has its
    [lastPlayDate] on the calendar day before the submitted date, and yet
    the streak is set back to 1.  Lines 193-195 compute 26 October:
    [new Date(date)] is midnight UTC, 01:00 in Berlin; [setDate] goes one
    local day back, to 01:00 of the day on which summer time ends, which is
    23:00 UTC of 26 October; and [toISOString] writes the UTC date.  For the
    same reason a player who won on 26 October and not on the 27th has the
    streak continued on the 28th, across the gap. *)
Theorem submit_streak_clock_back :
  let req := Request.mk "p1" "2024-10-28" true 3 45000 [] in
  let day27 :=
    serve Calendar.Berlin emptyDB
      [GetToday "2024-10-27" None;
       PostSubmit (Request.mk "p1" "2024-10-27" true 3 45000 []);
       GetToday "2024-10-28" None] in
  let day26 :=
    serve Calendar.Berlin emptyDB
      [GetToday "2024-10-26" None;
       PostSubmit (Request.mk "p1" "2024-10-26" true 3 45000 []);
       GetToday "2024-10-28" None] in
  Calendar.fields (Request.date req) = Some (2024, 10, 28)
  /\ Calendar.iso (Calendar.precedingDay (2024, 10, 28)) = "2024-10-27"%string
  /\ Calendar.yesterdayString Calendar.Berlin (Request.date req)
     = Some "2024-10-26"%string
  /\ (Player.lastPlayDate (statsOf day27 "p1") = Some "2024-10-27"%string
      /\ Player.currentStreak (statsOf day27 "p1") = 1
      /\ status (fst (run (submit Calendar.Berlin req) day27)) = 200
      /\ Player.currentStreak (statsOf (snd (run (submit Calendar.Berlin req) day27)) "p1")
         = 1)
  /\ (Player.lastPlayDate (statsOf day26 "p1") = Some "2024-10-26"%string
      /\ Player.currentStreak (statsOf day26 "p1") = 1
      /\ status (fst (run (submit Calendar.Berlin req) day26)) = 200
      /\ Player.currentStreak (statsOf (snd (run (submit Calendar.Berlin req) day26)) "p1")
         = 2).
Proof. vm_compute. repeat split; reflexivity. Qed.
